(** * Project-management agent: entity operations over a persisted state

    A shallow embedding of [src/project_management_agent/agent.py]
    (class [ProjectManagementAgent]) together with the part of
    [src/main.py] it writes through to ([SessionManager.update_session_state]).

    Modelling conventions.
    - Python [str] is [string].  [Str.lower] and [Date.strptime_Ymd] are
      what [str.lower] and [strptime] do on ASCII text; the module [Py]
      gives the operations that call them over the library functions
      themselves, as parameters, for text of any kind.
    - The state dict and the entity dicts are records.  A key that the
      source reads with [d[k]] is a plain field; the task key ["status"],
      which the source only ever reads with [.get("status", ...)], is an
      [option] ([None]: key absent).  [state.get("projects", [])] and
      [project.get("tasks", [])] read an absent key as the empty list, which
      is how the record fields model it.
    - Python [int] is [Z]; list positions are [nat].
    - An operation is a function [Agent -> Result * Agent]: the agent carries
      the live state and the log of blobs written to the session store.
    - [datetime.now().strftime("%Y-%m-%d")] is the parameter [today]. *)

From Stdlib Require Import ZArith String Ascii List Bool Lia DecimalString Sorted.
From stdpp Require Import base option list strings.
Import ListNotations.

Local Open Scope string_scope.
Local Open Scope Z_scope.
Local Open Scope list_scope.

(** ** Strings *)

Module Str.

(** [c.lower()] for one ASCII character. *)
Definition lower_ascii (c : ascii) : ascii :=
  let n := nat_of_ascii c in
  if ((65 <=? n) && (n <=? 90))%nat then ascii_of_nat (n + 32) else c.

(** [s.lower()] *)
Fixpoint lower (s : string) : string :=
  match s with
  | EmptyString => EmptyString
  | String c s' => String (lower_ascii c) (lower s')
  end.

(** [s.startswith(p)] *)
Fixpoint startswith (p s : string) : bool :=
  match p, s with
  | EmptyString, _ => true
  | String a p', String b s' => Ascii.eqb a b && startswith p' s'
  | String _ _, EmptyString => false
  end.

(** [needle in hay] on strings: [needle] occurs at some offset of [hay]. *)
Fixpoint str_in (needle hay : string) : bool :=
  startswith needle hay ||
  match hay with
  | EmptyString => false
  | String _ hay' => str_in needle hay'
  end.

(** The test every name lookup of the agent performs:
    [query.lower() in name.lower()]. *)
Definition name_matches (query name : string) : bool :=
  str_in (lower query) (lower name).

(** The line-feed character and [sep.join(parts)]. *)
Definition nl : string := String (ascii_of_nat 10) EmptyString.

Fixpoint join (sep : string) (parts : list string) : string :=
  match parts with
  | [] => ""
  | [p] => p
  | p :: rest => p +:+ sep +:+ join sep rest
  end.

(** [str(n)] for an integer. *)
Definition of_Z (z : Z) : string := NilZero.string_of_int (Z.to_int z).
Definition of_nat (n : nat) : string := of_Z (Z.of_nat n).

End Str.

(** ** Data model *)

Record Task := mkTask {
  t_name : string;
  t_description : string;
  t_assigned_to : string;
  t_due_date : string;
  t_priority : string;
  t_status : option string;
  t_created_at : string
}.

Record Project := mkProject {
  p_name : string;
  p_description : string;
  p_due_date : string;
  p_tasks : list Task;
  p_created_at : string
}.

Record TeamMember := mkTeamMember {
  m_name : string;
  m_role : string;
  m_email : string;
  m_created_at : string
}.

Record State := mkState {
  user_name : string;
  projects : list Project;
  team_members : list TeamMember
}.

(** The agent: [self.state] and the session store behind
    [self.session_manager], seen as the list of state blobs that
    [update_session_state(self.session_id, state)] has written, newest
    first. *)
Record Agent := mkAgent {
  state : State;
  store : list State
}.

#[global] Instance Project_inhabited : Inhabited Project :=
  populate (mkProject "" "" "" [] "").
#[global] Instance TeamMember_inhabited : Inhabited TeamMember :=
  populate (mkTeamMember "" "" "" "").

(** The result dict: the keys [action], [status] (absent on several success
    paths) and [message], and the operation-specific keys as [fields]. *)
Inductive Fields :=
| NoFields
| FProject (project : string)
| FMember (member : string)
| FTask (task project : string)
| FMatchMember (m : Z * TeamMember)
| FMatchesMember (ms : list (Z * TeamMember))
| FMatchProject (m : Z * Project)
| FMatchesProject (ms : list (Z * Project))
| FStatusChange (project task old_status new_status : string)
| FTaskName (task_name : string)
| FDeleted (task_name : string) (deleted_count : nat)
           (affected_projects : list string)
| FRemoved (removed_count : nat) (affected_projects : list string).

Record Result := mkResult {
  action : string;
  status : option string;
  message : string;
  fields : Fields
}.

(** ** State updates and persistence *)

Inductive Update :=
| SetUserName (v : string)
| SetProjects (v : list Project)
| SetTeamMembers (v : list TeamMember).

(** [self.state[key] = value] *)
Definition set_key (u : Update) (s : State) : State :=
  match u with
  | SetUserName v => mkState v (projects s) (team_members s)
  | SetProjects v => mkState (user_name s) v (team_members s)
  | SetTeamMembers v => mkState (user_name s) (projects s) v
  end.

(** [_update_state(key, value)]: assign the key, then write the whole state
    to the session store. *)
Definition _update_state (u : Update) (a : Agent) : Agent :=
  let s := set_key u (state a) in
  mkAgent s (s :: store a).

(** ** Name resolution *)

Section Resolver.
Context {A : Type} (name_of : A -> string).

(** The loop [for i, item in enumerate(items): if name.lower() in
    item["name"].lower(): matches.append({"index": i + 1, ...})],
    entered at position [i] with the matches collected so far. *)
Fixpoint collect_matches (name : string) (i : nat) (items : list A)
         (matches : list (Z * A)) : list (Z * A) :=
  match items with
  | [] => matches
  | item :: rest =>
      collect_matches name (S i) rest
        (if Str.name_matches name (name_of item)
         then matches ++ [(Z.of_nat i + 1, item)]
         else matches)
  end.

(** The loop [for item in items: if q.lower() in item["name"].lower():
    found = item; break].  The position is kept with the item: the source
    holds a reference to the element and later assigns through it. *)
Fixpoint first_match (q : string) (i : nat) (items : list A)
  : option (nat * A) :=
  match items with
  | [] => None
  | item :: rest =>
      if Str.name_matches q (name_of item) then Some (i, item)
      else first_match q (S i) rest
  end.
End Resolver.

Definition find_team_member_by_name (name : string) (a : Agent)
  : Result * Agent :=
  let team_members := team_members (state a) in
  let matches := collect_matches m_name name 0 team_members [] in
  match matches with
  | [] =>
      (mkResult "find_team_member_by_name" (Some "not_found")
         ("No team member found with name containing '" +:+ name +:+ "'")
         NoFields, a)
  | [m] =>
      (mkResult "find_team_member_by_name" (Some "found")
         ("Found team member: " +:+ m_name (snd m) +:+ " at index "
            +:+ Str.of_Z (fst m))
         (FMatchMember m), a)
  | _ =>
      (mkResult "find_team_member_by_name" (Some "multiple_matches")
         ("Found " +:+ Str.of_nat (length matches)
            +:+ " team members matching '" +:+ name +:+ "'")
         (FMatchesMember matches), a)
  end.

Definition find_project_by_name (name : string) (a : Agent)
  : Result * Agent :=
  let projects := projects (state a) in
  let matches := collect_matches p_name name 0 projects [] in
  match matches with
  | [] =>
      (mkResult "find_project_by_name" (Some "not_found")
         ("No project found with name containing '" +:+ name +:+ "'")
         NoFields, a)
  | [m] =>
      (mkResult "find_project_by_name" (Some "found")
         ("Found project: " +:+ p_name (snd m) +:+ " at index "
            +:+ Str.of_Z (fst m))
         (FMatchProject m), a)
  | _ =>
      (mkResult "find_project_by_name" (Some "multiple_matches")
         ("Found " +:+ Str.of_nat (length matches)
            +:+ " projects matching '" +:+ name +:+ "'")
         (FMatchesProject matches), a)
  end.

(** ** Dates

    [datetime.strptime(s, "%Y-%m-%d")] as CPython's [_strptime] performs it:
    the text must match, from its first to its last character,
    [\d\d\d\d-(1[0-2]|0[1-9]|[1-9])-(3[0-1]|[1-2]\d|0[1-9]|[1-9]| [1-9])],
    and the three numbers must form a date of the proleptic Gregorian
    calendar with a year of at least 1.  [None] stands for [ValueError]. *)

Module Date.

Definition digit (c : ascii) : option nat :=
  let n := nat_of_ascii c in
  if ((48 <=? n) && (n <=? 57))%nat then Some (n - 48)%nat else None.

Definition is_dash (c : ascii) : bool := Ascii.eqb c "-".
Definition is_space (c : ascii) : bool := Ascii.eqb c " ".

(** [(?P<Y>\d\d\d\d)] followed by [-]: the year and the rest of the text. *)
Definition parse_year (s : string) : option (nat * string) :=
  match s with
  | String a (String b (String c (String d (String e rest)))) =>
      match digit a, digit b, digit c, digit d with
      | Some x, Some y, Some z, Some w =>
          if is_dash e
          then Some (1000 * x + 100 * y + 10 * z + w, rest)%nat
          else None
      | _, _, _, _ => None
      end
  | _ => None
  end.

(** [(?P<m>1[0-2]|0[1-9]|[1-9])] followed by [-]. *)
Definition parse_month (s : string) : option (nat * string) :=
  match s with
  | String a (String b rest) =>
      match digit a, digit b with
      | Some x, Some y =>
          match rest with
          | String c rest' =>
              if is_dash c &&
                 (((x =? 1) && (y <=? 2)) || ((x =? 0) && (1 <=? y)))%nat
              then Some (10 * x + y, rest')%nat
              else None
          | EmptyString => None
          end
      | Some x, None =>
          if is_dash b && (1 <=? x)%nat then Some (x, rest) else None
      | None, _ => None
      end
  | _ => None
  end.

(** [(?P<d>3[0-1]|[1-2]\d|0[1-9]|[1-9]| [1-9])] up to the end of the text. *)
Definition parse_day (s : string) : option nat :=
  match s with
  | String a EmptyString =>
      match digit a with
      | Some x => if (1 <=? x)%nat then Some x else None
      | None => None
      end
  | String a (String b EmptyString) =>
      match digit a, digit b with
      | Some x, Some y =>
          if (((x =? 3) && (y <=? 1)) || ((1 <=? x) && (x <=? 2))
              || ((x =? 0) && (1 <=? y)))%nat
          then Some (10 * x + y)%nat
          else None
      | None, Some y =>
          if is_space a && (1 <=? y)%nat then Some y else None
      | _, None => None
      end
  | _ => None
  end.

Definition is_leap (y : nat) : bool :=
  (((y mod 4 =? 0) && negb (y mod 100 =? 0)) || (y mod 400 =? 0))%nat.

Definition days_in_month (y m : nat) : nat :=
  match m with
  | 2 => if is_leap y then 29 else 28
  | 4 | 6 | 9 | 11 => 30
  | _ => 31
  end%nat.

Definition strptime_Ymd (s : string) : option (nat * nat * nat) :=
  match parse_year s with
  | Some (y, s1) =>
      match parse_month s1 with
      | Some (m, s2) =>
          match parse_day s2 with
          | Some d =>
              if ((1 <=? y) && (d <=? days_in_month y m))%nat
              then Some (y, m, d)
              else None
          | None => None
          end
      | None => None
      end
  | None => None
  end.

(** [true] when [strptime] returns, [false] when it raises [ValueError]. *)
Definition parses (s : string) : bool :=
  match strptime_Ymd s with Some _ => true | None => false end.

End Date.

(** ** Entity operations *)

Definition in_range (zero_based_index : Z) (count : nat) : bool :=
  negb ((zero_based_index <? 0) || (zero_based_index >=? Z.of_nat count)).

(** [project["tasks"] = tasks] *)
Definition set_tasks (tasks : list Task) (p : Project) : Project :=
  mkProject (p_name p) (p_description p) (p_due_date p) tasks (p_created_at p).

(** [project["tasks"].append(t)] *)
Definition append_task (t : Task) (p : Project) : Project :=
  set_tasks (p_tasks p ++ [t]) p.

(** [task["status"] = v] *)
Definition set_status (v : string) (t : Task) : Task :=
  mkTask (t_name t) (t_description t) (t_assigned_to t) (t_due_date t)
         (t_priority t) (Some v) (t_created_at t).

(** [task.get("status", "pending")] *)
Definition get_status (t : Task) : string := default "pending" (t_status t).

(** [if v is not None: member[key] = v] for the three keys. *)
Definition update_fields (name role email : option string) (m : TeamMember)
  : TeamMember :=
  mkTeamMember (default (m_name m) name) (default (m_role m) role)
               (default (m_email m) email) (m_created_at m).

Section Operations.
Variable today : string.

Definition add_project (name : string) (description due_date : option string)
           (a : Agent) : Result * Agent :=
  let description := default "No description provided" description in
  let due_date := default "2025-12-31" due_date in
  (* [try: if due_date: datetime.strptime(due_date, "%Y-%m-%d")]:
     an empty text is falsy and is not handed to the parser *)
  let raised :=
    if String.eqb due_date "" then false else negb (Date.parses due_date) in
  if raised then
    (mkResult "add_project" (Some "error")
       ("Invalid date format: " +:+ due_date
          +:+ ". Please use YYYY-MM-DD format.")
       NoFields, a)
  else
    let projects := projects (state a) in
    let new_project := mkProject name description due_date [] today in
    let projects := projects ++ [new_project] in
    let a := _update_state (SetProjects projects) a in
    (mkResult "add_project" None
       ("Added project: " +:+ name +:+ " with due date " +:+ due_date)
       (FProject name), a).

Definition add_task (project_index : Z) (name : string)
           (assigned_to description due_date priority : option string)
           (a : Agent) : Result * Agent :=
  let projects := projects (state a) in
  let zero_based_index := project_index - 1 in
  if negb (in_range zero_based_index (length projects)) then
    (mkResult "add_task" (Some "error")
       ("Invalid project index: " +:+ Str.of_Z project_index
          +:+ ". Please choose between 1 and "
          +:+ Str.of_nat (length projects) +:+ ".")
       NoFields, a)
  else
    let assigned_to := default "Unassigned" assigned_to in
    let description := default "No description provided" description in
    let due_date := default "2025-12-31" due_date in
    let priority := default "medium" priority in
    let new_task :=
      mkTask name description assigned_to due_date priority
             (Some "pending") today in
    let n := Z.to_nat zero_based_index in
    let projects := alter (append_task new_task) n projects in
    let a := _update_state (SetProjects projects) a in
    let project := p_name (projects !!! n) in
    (mkResult "add_task" None
       ("Added task '" +:+ name +:+ "' to project '" +:+ project +:+ "'")
       (FTask name project), a).

(** [find_result["matches"]] and [find_result["match"]] as
    [find_project_by_name] sets them. *)
Definition get_matches (r : Result) : list (Z * Project) :=
  match fields r with FMatchesProject ms => ms | _ => [] end.

Definition get_match (r : Result) : option (Z * Project) :=
  match fields r with FMatchProject m => Some m | _ => None end.

(** [f"{match['index']}. {match['project']['name']}"] *)
Definition format_match (m : Z * Project) : string :=
  Str.of_Z (fst m) +:+ ". " +:+ p_name (snd m).

Definition add_task_by_project_name (project_name task_name : string)
           (assigned_to description due_date priority : option string)
           (a : Agent) : Result * Agent :=
  let (find_result, a) := find_project_by_name project_name a in
  if bool_decide (status find_result = Some "not_found") then
    (mkResult "add_task_by_project_name" (Some "error")
       ("Could not find project '" +:+ project_name
          +:+ "'. Please check the project name or create it first.")
       NoFields, a)
  else if bool_decide (status find_result = Some "multiple_matches") then
    let project_list := map format_match (get_matches find_result) in
    (mkResult "add_task_by_project_name" (Some "error")
       ("Found multiple projects matching '" +:+ project_name +:+ "':"
          +:+ Str.nl +:+ Str.join Str.nl project_list
          +:+ Str.nl +:+ "Please be more specific.")
       NoFields, a)
  else
    (* the remaining status is "found", which comes with the key "match" *)
    let project_index := fst (default (0, inhabitant) (get_match find_result)) in
    add_task project_index task_name assigned_to description due_date
             priority a.
End Operations.

Definition update_team_member (index : Z) (name role email : option string)
           (a : Agent) : Result * Agent :=
  let team_members := team_members (state a) in
  let zero_based_index := index - 1 in
  if negb (in_range zero_based_index (length team_members)) then
    (mkResult "update_team_member" (Some "error")
       ("Invalid team member index: " +:+ Str.of_Z index
          +:+ ". Please choose between 1 and "
          +:+ Str.of_nat (length team_members) +:+ ".")
       NoFields, a)
  else
    let n := Z.to_nat zero_based_index in
    let team_members := alter (update_fields name role email) n team_members in
    let a := _update_state (SetTeamMembers team_members) a in
    let member := m_name (team_members !!! n) in
    (mkResult "update_team_member" None
       ("Updated team member: " +:+ member) (FMember member), a).

Definition delete_team_member (index : Z) (a : Agent) : Result * Agent :=
  let team_members := team_members (state a) in
  let zero_based_index := index - 1 in
  if negb (in_range zero_based_index (length team_members)) then
    (mkResult "delete_team_member" (Some "error")
       ("Invalid team member index: " +:+ Str.of_Z index
          +:+ ". Please choose between 1 and "
          +:+ Str.of_nat (length team_members) +:+ ".")
       NoFields, a)
  else
    let n := Z.to_nat zero_based_index in
    (* [deleted_member = team_members.pop(zero_based_index)] *)
    let deleted_member := team_members !!! n in
    let team_members := delete n team_members in
    let a := _update_state (SetTeamMembers team_members) a in
    (mkResult "delete_team_member" None
       ("Deleted team member: " +:+ m_name deleted_member)
       (FMember (m_name deleted_member)), a).

Definition delete_project (index : Z) (a : Agent) : Result * Agent :=
  let projects := projects (state a) in
  let zero_based_index := index - 1 in
  if negb (in_range zero_based_index (length projects)) then
    (mkResult "delete_project" (Some "error")
       ("Invalid project index: " +:+ Str.of_Z index
          +:+ ". Please choose between 1 and "
          +:+ Str.of_nat (length projects) +:+ ".")
       NoFields, a)
  else
    let n := Z.to_nat zero_based_index in
    let deleted_project := projects !!! n in
    let projects := delete n projects in
    let a := _update_state (SetProjects projects) a in
    (mkResult "delete_project" None
       ("Deleted project: " +:+ p_name deleted_project)
       (FProject (p_name deleted_project)), a).

(** [task_found["status"] = v] for the task at position [ti] of the project
    at position [pi]: both were reached by reference in the source. *)
Definition assign_status (pi ti : nat) (v : string) (projects : list Project)
  : list Project :=
  alter (fun p => set_tasks (alter (set_status v) ti (p_tasks p)) p) pi projects.

Definition update_task_status (project_name task_name new_status : string)
           (a : Agent) : Result * Agent :=
  let projects := projects (state a) in
  match first_match p_name project_name 0 projects with
  | None =>
      (mkResult "update_task_status" (Some "error")
         ("Could not find project containing '" +:+ project_name +:+ "'.")
         NoFields, a)
  | Some (pi, project_found) =>
      let tasks := p_tasks project_found in
      match first_match t_name task_name 0 tasks with
      | None =>
          (mkResult "update_task_status" (Some "error")
             ("Could not find task '" +:+ task_name +:+ "' in project '"
                +:+ p_name project_found +:+ "'.")
             NoFields, a)
      | Some (ti, task_found) =>
          let old_status := get_status task_found in
          let projects := assign_status pi ti (Str.lower new_status) projects in
          let a := _update_state (SetProjects projects) a in
          (mkResult "update_task_status" (Some "success")
             ("Updated task '" +:+ t_name task_found +:+ "' status from '"
                +:+ old_status +:+ "' to '" +:+ new_status
                +:+ "' in project '" +:+ p_name project_found +:+ "'.")
             (FStatusChange (p_name project_found) (t_name task_found)
                            old_status new_status), a)
      end
  end.

(** The inner loop of [delete_tasks_by_name]: [remaining_tasks] collects the
    tasks that do not match, [deleted_count] counts the others. *)
Fixpoint scan_tasks (task_name : string) (tasks remaining_tasks : list Task)
         (deleted_count : nat) : list Task * nat :=
  match tasks with
  | [] => (remaining_tasks, deleted_count)
  | task :: rest =>
      if negb (Str.name_matches task_name (t_name task))
      then scan_tasks task_name rest (remaining_tasks ++ [task]) deleted_count
      else scan_tasks task_name rest remaining_tasks (S deleted_count)
  end.

(** The outer loop [for project in projects]: the projects are updated in
    place, so the loop yields the list as it stands afterwards, with the
    two accumulators. *)
Fixpoint scan_projects (task_name : string) (projects : list Project)
         (deleted_count : nat) (affected_projects : list string)
  : list Project * nat * list string :=
  match projects with
  | [] => ([], deleted_count, affected_projects)
  | project :: rest =>
      let tasks := p_tasks project in
      let original_task_count := length tasks in
      let '(remaining_tasks, deleted_count) :=
        scan_tasks task_name tasks [] deleted_count in
      if (length remaining_tasks <? original_task_count)%nat then
        let project := set_tasks remaining_tasks project in
        let '(rest, deleted_count, affected_projects) :=
          scan_projects task_name rest deleted_count
                        (affected_projects ++ [p_name project]) in
        (project :: rest, deleted_count, affected_projects)
      else
        let '(rest, deleted_count, affected_projects) :=
          scan_projects task_name rest deleted_count affected_projects in
        (project :: rest, deleted_count, affected_projects)
  end.

Definition delete_tasks_by_name (task_name : string) (a : Agent)
  : Result * Agent :=
  let projects := projects (state a) in
  match projects with
  | [] =>
      (mkResult "delete_tasks_by_name" (Some "error")
         "No projects found to search for tasks." NoFields, a)
  | _ :: _ =>
      let '(projects, deleted_count, affected_projects) :=
        scan_projects task_name projects 0 [] in
      let a := _update_state (SetProjects projects) a in
      if (deleted_count =? 0)%nat then
        (mkResult "delete_tasks_by_name" (Some "not_found")
           ("No tasks found with name containing '" +:+ task_name +:+ "'.")
           (FTaskName task_name), a)
      else
        let affected_list := Str.join ", " affected_projects in
        (mkResult "delete_tasks_by_name" (Some "success")
           ("Deleted " +:+ Str.of_nat deleted_count
              +:+ " task(s) containing '" +:+ task_name
              +:+ "' from project(s): " +:+ affected_list)
           (FDeleted task_name deleted_count affected_projects), a)
  end.

(** [task.get("status", "pending") != "completed"] *)
Definition not_completed (t : Task) : bool :=
  negb (String.eqb (get_status t) "completed").

Fixpoint sweep_projects (projects : list Project) (removed_count : nat)
         (affected_projects : list string)
  : list Project * nat * list string :=
  match projects with
  | [] => ([], removed_count, affected_projects)
  | project :: rest =>
      let tasks := p_tasks project in
      let original_count := length tasks in
      let remaining_tasks := List.filter not_completed tasks in
      if (length remaining_tasks <? original_count)%nat then
        let removed_count :=
          (removed_count + (original_count - length remaining_tasks))%nat in
        let project := set_tasks remaining_tasks project in
        let '(rest, removed_count, affected_projects) :=
          sweep_projects rest removed_count
                         (affected_projects ++ [p_name project]) in
        (project :: rest, removed_count, affected_projects)
      else
        let '(rest, removed_count, affected_projects) :=
          sweep_projects rest removed_count affected_projects in
        (project :: rest, removed_count, affected_projects)
  end.

Definition remove_completed_tasks (a : Agent) : Result * Agent :=
  let projects := projects (state a) in
  match projects with
  | [] =>
      (mkResult "remove_completed_tasks" (Some "error")
         "No projects found." NoFields, a)
  | _ :: _ =>
      let '(projects, removed_count, affected_projects) :=
        sweep_projects projects 0 [] in
      let a := _update_state (SetProjects projects) a in
      if (removed_count =? 0)%nat then
        (mkResult "remove_completed_tasks" (Some "no_tasks")
           "No completed tasks found to remove." NoFields, a)
      else
        let affected_list := Str.join ", " affected_projects in
        (mkResult "remove_completed_tasks" (Some "success")
           ("Removed " +:+ Str.of_nat removed_count
              +:+ " completed task(s) from project(s): " +:+ affected_list)
           (FRemoved removed_count affected_projects), a)
  end.

(** ** Further operations of the agent *)

(** [s.replace(old, new)] for one-character [old] and [new]. *)
Fixpoint replace_char (old new : ascii) (s : string) : string :=
  match s with
  | EmptyString => EmptyString
  | String c s' =>
      String (if Ascii.eqb c old then new else c) (replace_char old new s')
  end.

Definition add_team_member (today name role : string) (email : option string)
           (a : Agent) : Result * Agent :=
  let team_members := team_members (state a) in
  let email :=
    match email with
    | Some e => e
    | None => replace_char " " "." (Str.lower name) +:+ "@company.com"
    end in
  let new_member := mkTeamMember name role email today in
  let team_members := team_members ++ [new_member] in
  let a := _update_state (SetTeamMembers team_members) a in
  (mkResult "add_team_member" None
     ("Added team member: " +:+ name +:+ " with role " +:+ role
        +:+ " and email " +:+ email)
     (FMember name), a).

Definition update_user_name (name : string) (a : Agent) : Result * Agent :=
  let a := _update_state (SetUserName name) a in
  (mkResult "update_user_name" None ("Updated user name to: " +:+ name)
     NoFields, a).

Definition delete_project_by_name (name : string) (a : Agent)
  : Result * Agent :=
  let (find_result, a) := find_project_by_name name a in
  if bool_decide (status find_result = Some "not_found") then
    (mkResult "delete_project_by_name" (Some "error")
       ("Could not find project '" +:+ name +:+ "' to delete.")
       NoFields, a)
  else if bool_decide (status find_result = Some "multiple_matches") then
    let project_list := map format_match (get_matches find_result) in
    (mkResult "delete_project_by_name" (Some "error")
       ("Found multiple projects matching '" +:+ name +:+ "':"
          +:+ Str.nl +:+ Str.join Str.nl project_list
          +:+ Str.nl +:+ "Please be more specific.")
       NoFields, a)
  else
    (* the remaining status is "found", which comes with the key "match" *)
    let project_index := fst (default (0, inhabitant) (get_match find_result)) in
    delete_project project_index a.

Definition clear_all_projects (a : Agent) : Result * Agent :=
  let a := _update_state (SetProjects []) a in
  (mkResult "clear_all_projects" None "All projects have been cleared."
     NoFields, a).

Definition clear_all_team_members (a : Agent) : Result * Agent :=
  let a := _update_state (SetTeamMembers []) a in
  (mkResult "clear_all_team_members" None
     "All team members have been cleared." NoFields, a).

Definition clear_all_data (a : Agent) : Result * Agent :=
  let a := _update_state (SetProjects []) a in
  let a := _update_state (SetTeamMembers []) a in
  (mkResult "clear_all_data" None
     "All projects, tasks, and team members have been cleared." NoFields, a).

(** *** Listings

    The result dicts of [view_projects] and [view_team_members], without
    the key [action], which holds the operation's name; the key
    [formatted_list] is absent on an empty collection. *)

Record ProjectsView := mkProjectsView {
  pv_projects : list Project;
  pv_count : nat;
  pv_formatted_list : option string;
  pv_message : string
}.

Record TeamView := mkTeamView {
  tv_team_members : list TeamMember;
  tv_count : nat;
  tv_formatted_list : option string;
  tv_message : string
}.

(** [t.get("status") == v] *)
Definition status_is (v : string) (t : Task) : bool :=
  match t_status t with
  | Some s => String.eqb s v
  | None => false
  end.

(** One line of the projects listing. *)
Definition project_line (i : nat) (name due_date : string)
           (completed_tasks task_count : nat) : string :=
  Str.of_nat i +:+ ". " +:+ name +:+ " - Due: " +:+ due_date
    +:+ " (Tasks: " +:+ Str.of_nat completed_tasks +:+ "/"
    +:+ Str.of_nat task_count +:+ " completed)".

(** The loop [for i, project in enumerate(projects, 1)] of [view_projects],
    entered at number [i]. *)
Fixpoint list_projects (i : nat) (projects : list Project)
         (formatted_list : list string) : list string :=
  match projects with
  | [] => formatted_list
  | project :: rest =>
      let task_count := length (p_tasks project) in
      let completed_tasks :=
        length (List.filter (status_is "completed") (p_tasks project)) in
      list_projects (S i) rest
        (formatted_list
         ++ [project_line i (p_name project) (p_due_date project)
                          completed_tasks task_count])
  end.

Definition view_projects (a : Agent) : ProjectsView * Agent :=
  let projects := projects (state a) in
  match projects with
  | [] =>
      (mkProjectsView [] 0 None
         "No projects found. You can create a new project by saying 'Create a project called [Project Name]'.",
       a)
  | _ :: _ =>
      let formatted_list := list_projects 1 projects [] in
      (mkProjectsView projects (length projects)
         (Some (Str.join Str.nl formatted_list))
         ("Current projects (" +:+ Str.of_nat (length projects) +:+ "):"
            +:+ Str.nl +:+ Str.join Str.nl formatted_list),
       a)
  end.

Definition member_line (i : nat) (m : TeamMember) : string :=
  Str.of_nat i +:+ ". " +:+ m_name m +:+ " - " +:+ m_role m
    +:+ " (" +:+ m_email m +:+ ")".

Fixpoint list_members (i : nat) (team_members : list TeamMember)
         (formatted_list : list string) : list string :=
  match team_members with
  | [] => formatted_list
  | member :: rest =>
      list_members (S i) rest (formatted_list ++ [member_line i member])
  end.

Definition view_team_members (a : Agent) : TeamView * Agent :=
  let team_members := team_members (state a) in
  match team_members with
  | [] =>
      (mkTeamView [] 0 None
         "No team members found. You can add team members by saying 'Add [Name] as a [Role]'.",
       a)
  | _ :: _ =>
      let formatted_list := list_members 1 team_members [] in
      (mkTeamView team_members (length team_members)
         (Some (Str.join Str.nl formatted_list))
         ("Current team members (" +:+ Str.of_nat (length team_members)
            +:+ "):" +:+ Str.nl +:+ Str.join Str.nl formatted_list),
       a)
  end.

(** *** Conversation history

    [self.conversation_history] is kept apart from the state.  What
    [process_message] does to it does not depend on the model call in
    between: the call ends with one text, [response.text] or the apology
    built from the exception, which is appended as the assistant's
    message. *)

Record Message := mkMessage {
  role : string;
  content : option string
}.

(** [l[-n:]] for [n > 0] *)
Definition last_n {A} (n : nat) (l : list A) : list A :=
  drop (length l - n) l.

(** [l[-6:-1]] *)
Definition slice_m6_m1 {A} (l : list A) : list A :=
  take (length l - 1 - (length l - 6)) (drop (length l - 6) l).

(** The history once the user's message is appended and the list is cut
    to its last 20 entries. *)
Definition remember_user (user_message : string) (history : list Message)
  : list Message :=
  let history := history ++ [mkMessage "user" (Some user_message)] in
  if (20 <? length history)%nat then last_n 20 history else history.

(** [recent_history], the messages quoted to the model. *)
Definition recent_history (history : list Message) : list Message :=
  if (1 <? length history)%nat then slice_m6_m1 history else [].

(** The history when [process_message] returns. *)
Definition process_message_history (reply : option string)
           (user_message : string) (history : list Message) : list Message :=
  remember_user user_message history ++ [mkMessage "assistant" reply].

Definition clear_conversation_history (history : list Message)
  : list Message := [].

(** ** The minimal agent of [new_agent.py]

    Its [add_project], [add_task] and [update_user_name] are the ones above,
    line for line; the operations below differ. *)

Module NewAgent.

Definition add_team_member (today name role email : string) (a : Agent)
  : Result * Agent :=
  let team_members := team_members (state a) in
  let new_member := mkTeamMember name role email today in
  let team_members := team_members ++ [new_member] in
  let a := _update_state (SetTeamMembers team_members) a in
  (mkResult "add_team_member" None
     ("Added team member: " +:+ name +:+ " with role " +:+ role)
     (FMember name), a).

(** The keys [projects] and [count] of the result. *)
Definition view_projects (a : Agent) : (list Project * nat) * Agent :=
  let projects := projects (state a) in
  ((projects, length projects), a).

Definition view_team_members (a : Agent) : (list TeamMember * nat) * Agent :=
  let team_members := team_members (state a) in
  ((team_members, length team_members), a).

End NewAgent.

(** ** The operations over Python's own [str.lower] and [strptime]

    The definitions above fix [str.lower] and [strptime] to what they do
    on ASCII text.  On other text Python's [str.lower] follows the Unicode
    case tables (it may change the length of a text and depends on the
    neighbouring characters), and [strptime] takes any Unicode decimal
    digit.  These tables are no part of the repository, so the operations
    that call the two functions are given here once more with the library
    functions as parameters:
    - [lower s] is [s.lower()];
    - [parses s] tells whether [datetime.strptime(s, "%Y-%m-%d")] returns
      ([true]) or raises [ValueError] ([false]).
    A text is the [string] of its UTF-8 bytes, on which [in], [==], [+] and
    [replace(' ', '.')] act as they do on the text.  With [Str.lower] and
    [Date.parses] for the parameters these are the definitions above. *)

Module Py.
Section WithLibrary.
Variable lower : string -> string.
Variable parses : string -> bool.

(** [query.lower() in name.lower()] *)
Definition name_matches (query name : string) : bool :=
  Str.str_in (lower query) (lower name).

Section Resolver.
Context {A : Type} (name_of : A -> string).

Fixpoint collect_matches (name : string) (i : nat) (items : list A)
         (matches : list (Z * A)) : list (Z * A) :=
  match items with
  | [] => matches
  | item :: rest =>
      collect_matches name (S i) rest
        (if name_matches name (name_of item)
         then matches ++ [(Z.of_nat i + 1, item)]
         else matches)
  end.

Fixpoint first_match (q : string) (i : nat) (items : list A)
  : option (nat * A) :=
  match items with
  | [] => None
  | item :: rest =>
      if name_matches q (name_of item) then Some (i, item)
      else first_match q (S i) rest
  end.
End Resolver.

Definition find_team_member_by_name (name : string) (a : Agent)
  : Result * Agent :=
  let team_members := team_members (state a) in
  let matches := collect_matches m_name name 0 team_members [] in
  match matches with
  | [] =>
      (mkResult "find_team_member_by_name" (Some "not_found")
         ("No team member found with name containing '" +:+ name +:+ "'")
         NoFields, a)
  | [m] =>
      (mkResult "find_team_member_by_name" (Some "found")
         ("Found team member: " +:+ m_name (snd m) +:+ " at index "
            +:+ Str.of_Z (fst m))
         (FMatchMember m), a)
  | _ =>
      (mkResult "find_team_member_by_name" (Some "multiple_matches")
         ("Found " +:+ Str.of_nat (length matches)
            +:+ " team members matching '" +:+ name +:+ "'")
         (FMatchesMember matches), a)
  end.

Definition find_project_by_name (name : string) (a : Agent)
  : Result * Agent :=
  let projects := projects (state a) in
  let matches := collect_matches p_name name 0 projects [] in
  match matches with
  | [] =>
      (mkResult "find_project_by_name" (Some "not_found")
         ("No project found with name containing '" +:+ name +:+ "'")
         NoFields, a)
  | [m] =>
      (mkResult "find_project_by_name" (Some "found")
         ("Found project: " +:+ p_name (snd m) +:+ " at index "
            +:+ Str.of_Z (fst m))
         (FMatchProject m), a)
  | _ =>
      (mkResult "find_project_by_name" (Some "multiple_matches")
         ("Found " +:+ Str.of_nat (length matches)
            +:+ " projects matching '" +:+ name +:+ "'")
         (FMatchesProject matches), a)
  end.

Definition add_project (today name : string)
           (description due_date : option string) (a : Agent)
  : Result * Agent :=
  let description := default "No description provided" description in
  let due_date := default "2025-12-31" due_date in
  (* [try: if due_date: datetime.strptime(due_date, "%Y-%m-%d")]:
     an empty text is falsy and is not handed to the parser *)
  let raised :=
    if String.eqb due_date "" then false else negb (parses due_date) in
  if raised then
    (mkResult "add_project" (Some "error")
       ("Invalid date format: " +:+ due_date
          +:+ ". Please use YYYY-MM-DD format.")
       NoFields, a)
  else
    let projects := projects (state a) in
    let new_project := mkProject name description due_date [] today in
    let projects := projects ++ [new_project] in
    let a := _update_state (SetProjects projects) a in
    (mkResult "add_project" None
       ("Added project: " +:+ name +:+ " with due date " +:+ due_date)
       (FProject name), a).

Definition add_team_member (today name role : string) (email : option string)
           (a : Agent) : Result * Agent :=
  let team_members := team_members (state a) in
  let email :=
    match email with
    | Some e => e
    | None => replace_char " " "." (lower name) +:+ "@company.com"
    end in
  let new_member := mkTeamMember name role email today in
  let team_members := team_members ++ [new_member] in
  let a := _update_state (SetTeamMembers team_members) a in
  (mkResult "add_team_member" None
     ("Added team member: " +:+ name +:+ " with role " +:+ role
        +:+ " and email " +:+ email)
     (FMember name), a).

Definition add_task_by_project_name (today project_name task_name : string)
           (assigned_to description due_date priority : option string)
           (a : Agent) : Result * Agent :=
  let (find_result, a) := find_project_by_name project_name a in
  if bool_decide (status find_result = Some "not_found") then
    (mkResult "add_task_by_project_name" (Some "error")
       ("Could not find project '" +:+ project_name
          +:+ "'. Please check the project name or create it first.")
       NoFields, a)
  else if bool_decide (status find_result = Some "multiple_matches") then
    let project_list := map format_match (get_matches find_result) in
    (mkResult "add_task_by_project_name" (Some "error")
       ("Found multiple projects matching '" +:+ project_name +:+ "':"
          +:+ Str.nl +:+ Str.join Str.nl project_list
          +:+ Str.nl +:+ "Please be more specific.")
       NoFields, a)
  else
    (* the remaining status is "found", which comes with the key "match" *)
    let project_index := fst (default (0, inhabitant) (get_match find_result)) in
    add_task today project_index task_name assigned_to description due_date
             priority a.

Definition delete_project_by_name (name : string) (a : Agent)
  : Result * Agent :=
  let (find_result, a) := find_project_by_name name a in
  if bool_decide (status find_result = Some "not_found") then
    (mkResult "delete_project_by_name" (Some "error")
       ("Could not find project '" +:+ name +:+ "' to delete.")
       NoFields, a)
  else if bool_decide (status find_result = Some "multiple_matches") then
    let project_list := map format_match (get_matches find_result) in
    (mkResult "delete_project_by_name" (Some "error")
       ("Found multiple projects matching '" +:+ name +:+ "':"
          +:+ Str.nl +:+ Str.join Str.nl project_list
          +:+ Str.nl +:+ "Please be more specific.")
       NoFields, a)
  else
    let project_index := fst (default (0, inhabitant) (get_match find_result)) in
    delete_project project_index a.

Definition update_task_status (project_name task_name new_status : string)
           (a : Agent) : Result * Agent :=
  let projects := projects (state a) in
  match first_match p_name project_name 0 projects with
  | None =>
      (mkResult "update_task_status" (Some "error")
         ("Could not find project containing '" +:+ project_name +:+ "'.")
         NoFields, a)
  | Some (pi, project_found) =>
      let tasks := p_tasks project_found in
      match first_match t_name task_name 0 tasks with
      | None =>
          (mkResult "update_task_status" (Some "error")
             ("Could not find task '" +:+ task_name +:+ "' in project '"
                +:+ p_name project_found +:+ "'.")
             NoFields, a)
      | Some (ti, task_found) =>
          let old_status := get_status task_found in
          let projects := assign_status pi ti (lower new_status) projects in
          let a := _update_state (SetProjects projects) a in
          (mkResult "update_task_status" (Some "success")
             ("Updated task '" +:+ t_name task_found +:+ "' status from '"
                +:+ old_status +:+ "' to '" +:+ new_status
                +:+ "' in project '" +:+ p_name project_found +:+ "'.")
             (FStatusChange (p_name project_found) (t_name task_found)
                            old_status new_status), a)
      end
  end.

Fixpoint scan_tasks (task_name : string) (tasks remaining_tasks : list Task)
         (deleted_count : nat) : list Task * nat :=
  match tasks with
  | [] => (remaining_tasks, deleted_count)
  | task :: rest =>
      if negb (name_matches task_name (t_name task))
      then scan_tasks task_name rest (remaining_tasks ++ [task]) deleted_count
      else scan_tasks task_name rest remaining_tasks (S deleted_count)
  end.

Fixpoint scan_projects (task_name : string) (projects : list Project)
         (deleted_count : nat) (affected_projects : list string)
  : list Project * nat * list string :=
  match projects with
  | [] => ([], deleted_count, affected_projects)
  | project :: rest =>
      let tasks := p_tasks project in
      let original_task_count := length tasks in
      let '(remaining_tasks, deleted_count) :=
        scan_tasks task_name tasks [] deleted_count in
      if (length remaining_tasks <? original_task_count)%nat then
        let project := set_tasks remaining_tasks project in
        let '(rest, deleted_count, affected_projects) :=
          scan_projects task_name rest deleted_count
                        (affected_projects ++ [p_name project]) in
        (project :: rest, deleted_count, affected_projects)
      else
        let '(rest, deleted_count, affected_projects) :=
          scan_projects task_name rest deleted_count affected_projects in
        (project :: rest, deleted_count, affected_projects)
  end.

Definition delete_tasks_by_name (task_name : string) (a : Agent)
  : Result * Agent :=
  let projects := projects (state a) in
  match projects with
  | [] =>
      (mkResult "delete_tasks_by_name" (Some "error")
         "No projects found to search for tasks." NoFields, a)
  | _ :: _ =>
      let '(projects, deleted_count, affected_projects) :=
        scan_projects task_name projects 0 [] in
      let a := _update_state (SetProjects projects) a in
      if (deleted_count =? 0)%nat then
        (mkResult "delete_tasks_by_name" (Some "not_found")
           ("No tasks found with name containing '" +:+ task_name +:+ "'.")
           (FTaskName task_name), a)
      else
        let affected_list := Str.join ", " affected_projects in
        (mkResult "delete_tasks_by_name" (Some "success")
           ("Deleted " +:+ Str.of_nat deleted_count
              +:+ " task(s) containing '" +:+ task_name
              +:+ "' from project(s): " +:+ affected_list)
           (FDeleted task_name deleted_count affected_projects), a)
  end.

End WithLibrary.
End Py.

(** ** Specification-level vocabulary *)

(** [needle] occurs inside [hay]. *)
Definition contains (needle hay : string) : Prop :=
  exists pre post, hay = pre +:+ needle +:+ post.

(** Case-insensitive containment, as the spec words it. *)
Definition contains_ci (query name : string) : Prop :=
  contains (Str.lower query) (Str.lower name).

(** [ms] is the answer of the name resolver for [q] over [items]: the pairs
    of a 1-based position and the item there whose name contains the query,
    in collection order. *)
Definition is_resolution {A} (name_of : A -> string) (q : string)
           (items : list A) (ms : list (Z * A)) : Prop :=
  (forall i x, In (i, x) ms <->
     1 <= i /\ items !! Z.to_nat (i - 1) = Some x /\ contains_ci q (name_of x))
  /\ StronglySorted Z.lt (map fst ms).

(** The error every index-taking operation returns outside [1, count]. *)
Definition out_of_range_error (act noun : string) (index : Z) (count : nat)
  : Result :=
  mkResult act (Some "error")
    ("Invalid " +:+ noun +:+ " index: " +:+ Str.of_Z index
       +:+ ". Please choose between 1 and " +:+ Str.of_nat count +:+ ".")
    NoFields.

(** The task [add_task] appends: defaults filled in, status "pending". *)
Definition pending_task (today name : string)
           (assigned_to description due_date priority : option string) : Task :=
  mkTask name (default "No description provided" description)
         (default "Unassigned" assigned_to) (default "2025-12-31" due_date)
         (default "medium" priority) (Some "pending") today.

(** [x], at position [i], is the first item whose name contains the query;
    and no item's name contains it. *)
Definition is_first {A} (name_of : A -> string) (q : string)
           (items : list A) (i : nat) (x : A) : Prop :=
  items !! i = Some x /\ contains_ci q (name_of x) /\
  forall j y, (j < i)%nat -> items !! j = Some y ->
              ~ contains_ci q (name_of y).

Definition no_match {A} (name_of : A -> string) (q : string)
           (items : list A) : Prop :=
  forall y, In y items -> ~ contains_ci q (name_of y).

(** Bulk removal, as the spec words it: given the test [drop] that selects
    the tasks to remove, a project keeps its other tasks in order
    ([pruned]), loses [dropped] tasks, the run removes [total_dropped]
    tasks, and the affected projects are those that lost at least one. *)
Definition pruned (drop : Task -> bool) (p : Project) : Project :=
  set_tasks (List.filter (fun t => negb (drop t)) (p_tasks p)) p.

Definition dropped (drop : Task -> bool) (p : Project) : nat :=
  length (List.filter drop (p_tasks p)).

Definition total_dropped (drop : Task -> bool) (ps : list Project) : nat :=
  list_sum (map (dropped drop) ps).

Definition affected_names (drop : Task -> bool) (ps : list Project)
  : list string :=
  map p_name (List.filter (fun p => (0 <? dropped drop p)%nat) ps).

(** The task's name contains the query, case-insensitively. *)
Definition task_hit (q : string) (t : Task) : bool :=
  Str.name_matches q (t_name t).

(** The task's status is exactly "completed". *)
Definition completed (t : Task) : bool :=
  String.eqb (get_status t) "completed".

(** What a caller branches on: the status and the operation-specific keys. *)
Definition outcome (r : Result) : option string * Fields :=
  (status r, fields r).

(** [enumerate(items, 1)] *)
Definition numbered {A} (items : list A) : list (Z * A) :=
  zip (seqZ 1 (Z.of_nat (length items))) items.

(** ** Sample data *)

Definition project_named (name : string) (tasks : list Task) : Project :=
  mkProject name "No description provided" "2025-12-31" tasks "2025-01-01".

Definition task_named (name status : string) : Task :=
  mkTask name "No description provided" "Unassigned" "2025-12-31" "medium"
         (Some status) "2025-01-01".

Definition member_named (name role : string) : TeamMember :=
  mkTeamMember name role "someone@company.com" "2025-01-01".

Definition agent_with (ps : list Project) (ms : list TeamMember) : Agent :=
  mkAgent (mkState "Project Manager" ps ms) [].

Definition website_projects : list Project :=
  [project_named "Website Redesign" [];
   project_named "Website Launch" [];
   project_named "Mobile App" []].

Definition office_members : list TeamMember :=
  [member_named "Jim Halpert" "Sales"; member_named "Pam Beesly" "Reception"].

Definition office : Agent := agent_with website_projects office_members.

Definition no_projects : Agent := agent_with [] office_members.

Definition design_projects : list Project :=
  [project_named "Website"
     [task_named "Design homepage" "pending"; task_named "Design logo" "pending"];
   project_named "Backend" [task_named "Build API" "pending"]].

Definition mixed_status_projects : list Project :=
  [project_named "Website"
     [task_named "Design homepage" "completed";
      task_named "Design logo" "Completed";
      task_named "Write copy" "pending"]].

(** The pairs a finder's result lists, under [match] or [matches]. *)
Definition project_matches (r : Result) : list (Z * Project) :=
  match fields r with
  | FMatchProject m => [m]
  | FMatchesProject ms => ms
  | _ => []
  end.

Definition member_matches (r : Result) : list (Z * TeamMember) :=
  match fields r with
  | FMatchMember m => [m]
  | FMatchesMember ms => ms
  | _ => []
  end.

(** The newest blob of the session store is the live state. *)
Definition synced (a : Agent) : Prop :=
  exists older, store a = state a :: older.

Definition shop_projects : list Project :=
  [project_named "Web" []; project_named "Web Shop" []].

(** An operation's answer is durable: it returned the agent as it was, or
    the newest blob of the session store is the state it returned. *)
Definition durable {R} (a : Agent) (ra : R * Agent) : Prop :=
  snd ra = a \/ synced (snd ra).

(** [a'] differs from [a] at most in the task lists of its projects, each
    of which is a sublist of what it was. *)
Definition only_tasks_removed (a a' : Agent) : Prop :=
  user_name (state a') = user_name (state a) /\
  team_members (state a') = team_members (state a) /\
  length (projects (state a')) = length (projects (state a)) /\
  forall i p, projects (state a) !! i = Some p ->
    exists p', projects (state a') !! i = Some p' /\
      p_name p' = p_name p /\ p_description p' = p_description p /\
      p_due_date p' = p_due_date p /\ p_created_at p' = p_created_at p /\
      p_tasks p' `sublist_of` p_tasks p.

(** ** Vocabulary for the operations of [Py] *)

(** Text without a byte above 127. *)
Definition is_ascii (s : string) : bool :=
  forallb (fun c => (nat_of_ascii c <? 128)%nat) (list_ascii_of_string s).

(** What is known of the library functions on ASCII text: [str.lower] is
    the ASCII case map and [strptime] is the ASCII parser. *)
Definition ascii_lower_ok (lower : string -> string) : Prop :=
  forall s, is_ascii s = true -> lower s = Str.lower s.

Definition ascii_parser_ok (parses : string -> bool) : Prop :=
  forall s, is_ascii s = true -> parses s = Date.parses s.

(** Containment after lower-casing both texts with the given [lower]. *)
Definition contains_lc (lower : string -> string) (query name : string)
  : Prop :=
  contains (lower query) (lower name).

(** [is_resolution], [is_first] and [no_match] for the given [lower]. *)
Definition resolves (lower : string -> string) {A} (name_of : A -> string)
           (q : string) (items : list A) (ms : list (Z * A)) : Prop :=
  (forall i x, In (i, x) ms <->
     1 <= i /\ items !! Z.to_nat (i - 1) = Some x
     /\ contains_lc lower q (name_of x))
  /\ StronglySorted Z.lt (map fst ms).

Definition first_hit (lower : string -> string) {A} (name_of : A -> string)
           (q : string) (items : list A) (i : nat) (x : A) : Prop :=
  items !! i = Some x /\ contains_lc lower q (name_of x) /\
  forall j y, (j < i)%nat -> items !! j = Some y ->
              ~ contains_lc lower q (name_of y).

Definition no_hit (lower : string -> string) {A} (name_of : A -> string)
           (q : string) (items : list A) : Prop :=
  forall y, In y items -> ~ contains_lc lower q (name_of y).

(** The task's lower-cased name contains the lower-cased query. *)
Definition hit (lower : string -> string) (q : string) (t : Task) : bool :=
  Str.str_in (lower q) (lower (t_name t)).

(** The agent [a'] is [a] after one write-through of the projects [ps], or
    of the team members [ms]: that collection is replaced, the rest of the
    state is kept, and the session store received the new state. *)
Definition wrote_projects (a a' : Agent) (ps : list Project) : Prop :=
  projects (state a') = ps /\
  user_name (state a') = user_name (state a) /\
  team_members (state a') = team_members (state a) /\
  store a' = state a' :: store a.

Definition wrote_team_members (a a' : Agent) (ms : list TeamMember) : Prop :=
  team_members (state a') = ms /\
  user_name (state a') = user_name (state a) /\
  projects (state a') = projects (state a) /\
  store a' = state a' :: store a.

(** A project with other tasks, or with one more task at the end; a task
    with another status; a member with the given fields replaced. *)
Definition with_tasks (ts : list Task) (p : Project) : Project :=
  mkProject (p_name p) (p_description p) (p_due_date p) ts (p_created_at p).

Definition with_task (t : Task) (p : Project) : Project :=
  with_tasks (p_tasks p ++ [t]) p.

Definition with_status (v : string) (t : Task) : Task :=
  mkTask (t_name t) (t_description t) (t_assigned_to t) (t_due_date t)
         (t_priority t) (Some v) (t_created_at t).

Definition with_fields (name role email : option string) (m : TeamMember)
  : TeamMember :=
  mkTeamMember (match name with Some v => v | None => m_name m end)
               (match role with Some v => v | None => m_role m end)
               (match email with Some v => v | None => m_email m end)
               (m_created_at m).

(** A project without the tasks that [drop] selects. *)
Definition sifted (drop : Task -> bool) (p : Project) : Project :=
  with_tasks (List.filter (fun t => negb (drop t)) (p_tasks p)) p.

(** One line of the list of candidates: "index. name". *)
Definition match_line (m : Z * Project) : string :=
  Str.of_Z (fst m) +:+ ". " +:+ p_name (snd m).

(** * Properties *)

(** ** Strings *)

Lemma startswith_spec p s :
  Str.startswith p s = true <-> exists post, s = p +:+ post.
Proof.
  revert s; induction p as [|a p IH]; intros s; simpl.
  - split; [intros _; now exists s | reflexivity].
  - destruct s as [|b s]; simpl.
    + split; [discriminate | intros [post H]; discriminate].
    + rewrite andb_true_iff, Ascii.eqb_eq, IH. split.
      * intros [-> [post ->]]. now exists post.
      * intros [post H]. injection H as -> ->. split; [reflexivity | now exists post].
Qed.

Lemma str_in_spec needle hay :
  Str.str_in needle hay = true <-> contains needle hay.
Proof.
  unfold contains. induction hay as [|c hay IH].
  - cbn [Str.str_in]. rewrite orb_false_r, startswith_spec. split.
    + intros [post H]. now exists "", post.
    + intros [pre [post H]]. destruct pre; [now exists post | discriminate].
  - cbn [Str.str_in]. rewrite orb_true_iff, startswith_spec, IH. split.
    + intros [[post H] | [pre [post H]]].
      * now exists "", post.
      * exists (String c pre), post. simpl. now rewrite H.
    + intros [pre [post H]]. destruct pre as [|c' pre]; simpl in H.
      * left. now exists post.
      * right. injection H as -> ->. now exists pre, post.
Qed.

Lemma name_matches_spec q name :
  Str.name_matches q name = true <-> contains_ci q name.
Proof. apply str_in_spec. Qed.

Lemma name_matches_empty name : Str.name_matches "" name = true.
Proof.
  unfold Str.name_matches. simpl. now destruct (Str.lower name).
Qed.

(** ** The resolver loops *)

Section ResolverFacts.
Context {A : Type} (name_of : A -> string).

Lemma collect_matches_acc q items : forall i acc,
  collect_matches name_of q i items acc
  = acc ++ collect_matches name_of q i items [].
Proof.
  induction items as [|item rest IH]; intros i acc; simpl.
  - now rewrite app_nil_r.
  - destruct (Str.name_matches q (name_of item)).
    + rewrite IH. simpl. rewrite (IH _ [_]). now rewrite <- app_assoc.
    + apply IH.
Qed.

Lemma collect_matches_cons q i item rest :
  collect_matches name_of q i (item :: rest) []
  = (if Str.name_matches q (name_of item)
     then [(Z.of_nat i + 1, item)] else [])
    ++ collect_matches name_of q (S i) rest [].
Proof. simpl. now rewrite collect_matches_acc. Qed.

Lemma collect_matches_In q items : forall i k x,
  In (k, x) (collect_matches name_of q i items []) <->
  Z.of_nat i + 1 <= k
  /\ items !! (Z.to_nat (k - 1) - i)%nat = Some x
  /\ Str.name_matches q (name_of x) = true.
Proof.
  induction items as [|item rest IH]; intros i k x.
  - simpl. split; [tauto | intros (_ & H & _); discriminate].
  - rewrite collect_matches_cons, in_app_iff, IH. split.
    + intros [H | (Hk & Hl & Hm)].
      * destruct (Str.name_matches q (name_of item)) eqn:E; simpl in H;
          [|tauto]. destruct H as [H|[]]. injection H as <- <-.
        replace (Z.to_nat (Z.of_nat i + 1 - 1) - i)%nat with 0%nat by lia.
        repeat split; [lia | assumption].
      * split; [lia|]. split; [|assumption].
        replace (Z.to_nat (k - 1) - i)%nat
          with (S (Z.to_nat (k - 1) - S i))%nat by lia.
        exact Hl.
    + intros (Hk & Hl & Hm).
      destruct (Z.to_nat (k - 1) - i)%nat as [|n] eqn:E; simpl in Hl.
      * left. injection Hl as ->. rewrite Hm. left. f_equal. lia.
      * right. split; [lia|]. split; [|assumption].
        replace (Z.to_nat (k - 1) - S i)%nat with n by lia. exact Hl.
Qed.

Lemma collect_matches_sorted q items : forall i,
  StronglySorted Z.lt (map fst (collect_matches name_of q i items [])).
Proof.
  induction items as [|item rest IH]; intros i.
  - constructor.
  - rewrite collect_matches_cons.
    destruct (Str.name_matches q (name_of item)); simpl; [|apply IH].
    constructor; [apply IH|].
    apply List.Forall_forall. intros k Hk.
    apply in_map_iff in Hk as [[k' x] [<- Hin]].
    apply collect_matches_In in Hin. simpl. lia.
Qed.

Lemma collect_matches_resolution q items :
  is_resolution name_of q items (collect_matches name_of q 0 items []).
Proof.
  split; [|apply collect_matches_sorted].
  intros i x. rewrite collect_matches_In, name_matches_spec.
  rewrite Nat.sub_0_r. simpl. tauto.
Qed.

(** The empty query keeps every item. *)
Lemma collect_matches_empty_query items : forall i,
  collect_matches name_of "" i items []
  = zip (seqZ (Z.of_nat i + 1) (Z.of_nat (length items))) items.
Proof.
  induction items as [|item rest IH]; intros i.
  - reflexivity.
  - rewrite collect_matches_cons, name_matches_empty, IH.
    cbn [length]. rewrite (seqZ_cons _ (Z.of_nat (S _))) by lia. simpl.
    do 3 f_equal; lia.
Qed.

Lemma numbered_from_two m (x y : A) l :
  zip (seqZ m (Z.of_nat (length (x :: y :: l)))) (x :: y :: l)
  = (m, x) :: (m + 1, y) :: zip (seqZ (m + 2) (Z.of_nat (length l))) l.
Proof.
  cbn [length]. rewrite seqZ_cons by lia. rewrite seqZ_cons by lia.
  simpl. do 4 f_equal; lia.
Qed.

Lemma first_match_spec q items : forall i k x,
  first_match name_of q i items = Some (k, x) <->
  (i <= k)%nat /\ items !! (k - i)%nat = Some x
  /\ Str.name_matches q (name_of x) = true
  /\ forall j y, (j < k - i)%nat -> items !! j = Some y ->
                 Str.name_matches q (name_of y) = false.
Proof.
  induction items as [|item rest IH]; intros i k x.
  - simpl. split; [discriminate | intros (_ & H & _); discriminate].
  - simpl. destruct (Str.name_matches q (name_of item)) eqn:E.
    + split.
      * intros H. injection H as <- <-. rewrite Nat.sub_diag. simpl.
        repeat split; [lia | assumption | intros; lia].
      * intros (Hk & Hl & Hm & Hfirst).
        destruct (k - i)%nat as [|n] eqn:D.
        -- simpl in Hl. injection Hl as <-. do 2 f_equal. lia.
        -- specialize (Hfirst 0%nat item ltac:(lia) eq_refl). congruence.
    + rewrite IH. split.
      * intros (Hk & Hl & Hm & Hfirst).
        replace (k - i)%nat with (S (k - S i)) by lia.
        repeat split; [lia | exact Hl | assumption |].
        intros [|j] y Hj Hy; simpl in Hy; [congruence|].
        apply (Hfirst j); [lia | assumption].
      * intros (Hk & Hl & Hm & Hfirst).
        destruct (k - i)%nat as [|n] eqn:D; simpl in Hl; [congruence|].
        replace (k - S i)%nat with n by lia.
        repeat split; [lia | exact Hl | assumption |].
        intros j y Hj Hy. apply (Hfirst (S j)); [lia | exact Hy].
Qed.

Lemma first_match_None q items : forall i,
  first_match name_of q i items = None <->
  forall y, In y items -> Str.name_matches q (name_of y) = false.
Proof.
  induction items as [|item rest IH]; intros i; simpl.
  - split; [intros _ y [] | reflexivity].
  - destruct (Str.name_matches q (name_of item)) eqn:E.
    + split; [discriminate|]. intros H.
      specialize (H item (or_introl eq_refl)). congruence.
    + rewrite IH. split.
      * intros H y [<-|Hy]; [assumption | now apply H].
      * intros H y Hy. apply H. now right.
Qed.
End ResolverFacts.

(** ** Name resolution (C1, C9) *)

(** C9.  The empty query matches every item: on an empty collection the
    answer is [not_found], on a collection of one item it is [found] at
    index 1, and on a longer one it is [multiple_matches] listing every item
    with its 1-based position; so a non-empty collection never gives
    [not_found]. *)
Theorem empty_query_matches_all : forall a,
  outcome (fst (find_project_by_name "" a)) =
    match projects (state a) with
    | [] => (Some "not_found", NoFields)
    | [p] => (Some "found", FMatchProject (1, p))
    | ps => (Some "multiple_matches", FMatchesProject (numbered ps))
    end /\
  outcome (fst (find_team_member_by_name "" a)) =
    match team_members (state a) with
    | [] => (Some "not_found", NoFields)
    | [m] => (Some "found", FMatchMember (1, m))
    | ms => (Some "multiple_matches", FMatchesMember (numbered ms))
    end.
Proof.
  intros a. split.
  - unfold find_project_by_name. rewrite collect_matches_empty_query.
    destruct (projects (state a)) as [|p [|p' ps]]; try reflexivity.
    unfold numbered. rewrite !numbered_from_two. reflexivity.
  - unfold find_team_member_by_name. rewrite collect_matches_empty_query.
    destruct (team_members (state a)) as [|m [|m' ms]]; try reflexivity.
    unfold numbered. rewrite !numbered_from_two. reflexivity.
Qed.

(** ** Index-taking operations *)

Lemma in_range_true z n : in_range z n = true <-> 0 <= z < Z.of_nat n.
Proof.
  unfold in_range. rewrite Z.geb_leb.
  destruct (Z.ltb_spec z 0), (Z.leb_spec (Z.of_nat n) z); simpl;
    split; intros; try lia; try discriminate; reflexivity.
Qed.

Lemma in_range_false z n :
  in_range z n = false <-> z < 0 \/ Z.of_nat n <= z.
Proof.
  destruct (in_range z n) eqn:E.
  - apply in_range_true in E. split; [discriminate | lia].
  - split; [|reflexivity]. intros _.
    destruct (Z_lt_dec z 0); [now left|].
    destruct (Z_le_dec (Z.of_nat n) z); [now right|].
    assert (in_range z n = true) by (apply in_range_true; lia). congruence.
Qed.

Lemma split_at {A} (l : list A) (i : Z) :
  1 <= i <= Z.of_nat (length l) ->
  exists before x after,
    l = before ++ x :: after /\ Z.of_nat (length before) = i - 1.
Proof.
  intros Hi.
  destruct (lookup_lt_is_Some_2 l (Z.to_nat (i - 1))) as [x Hx]; [lia|].
  exists (take (Z.to_nat (i - 1)) l), x, (drop (S (Z.to_nat (i - 1))) l).
  split.
  - symmetry. now apply take_drop_middle.
  - rewrite length_take. lia.
Qed.

Lemma alter_middle {A} (f : A -> A) (l1 l2 : list A) x :
  alter f (length l1) (l1 ++ x :: l2) = l1 ++ f x :: l2.
Proof. induction l1 as [|y l1 IH]; simpl; [reflexivity | now f_equal]. Qed.

Section IndexOperations.
Variables (today : string) (a : Agent) (i : Z).

Lemma add_task_out_of_range name who descr due prio :
  i < 1 \/ Z.of_nat (length (projects (state a))) < i ->
  add_task today i name who descr due prio a
  = (out_of_range_error "add_task" "project" i
       (length (projects (state a))), a).
Proof.
  intros H. unfold add_task.
  replace (in_range _ _) with false
    by (symmetry; apply in_range_false; lia).
  reflexivity.
Qed.

Lemma delete_project_out_of_range :
  i < 1 \/ Z.of_nat (length (projects (state a))) < i ->
  delete_project i a
  = (out_of_range_error "delete_project" "project" i
       (length (projects (state a))), a).
Proof.
  intros H. unfold delete_project.
  replace (in_range _ _) with false
    by (symmetry; apply in_range_false; lia).
  reflexivity.
Qed.

Lemma update_team_member_out_of_range name role email :
  i < 1 \/ Z.of_nat (length (team_members (state a))) < i ->
  update_team_member i name role email a
  = (out_of_range_error "update_team_member" "team member" i
       (length (team_members (state a))), a).
Proof.
  intros H. unfold update_team_member.
  replace (in_range _ _) with false
    by (symmetry; apply in_range_false; lia).
  reflexivity.
Qed.

Lemma delete_team_member_out_of_range :
  i < 1 \/ Z.of_nat (length (team_members (state a))) < i ->
  delete_team_member i a
  = (out_of_range_error "delete_team_member" "team member" i
       (length (team_members (state a))), a).
Proof.
  intros H. unfold delete_team_member.
  replace (in_range _ _) with false
    by (symmetry; apply in_range_false; lia).
  reflexivity.
Qed.

Lemma add_task_at before p after name who descr due prio :
  projects (state a) = before ++ p :: after ->
  Z.of_nat (length before) = i - 1 ->
  add_task today i name who descr due prio a
  = (mkResult "add_task" None
       ("Added task '" +:+ name +:+ "' to project '" +:+ p_name p +:+ "'")
       (FTask name (p_name p)),
     _update_state
       (SetProjects
          (before ++ append_task (pending_task today name who descr due prio) p
                  :: after)) a).
Proof.
  intros Hl Hi. unfold add_task. rewrite Hl.
  replace (in_range _ _) with true
    by (symmetry; apply in_range_true; rewrite length_app; simpl; lia).
  replace (Z.to_nat (i - 1)) with (length before) by lia.
  cbn [negb]. rewrite alter_middle, list_lookup_total_middle by reflexivity.
  reflexivity.
Qed.

Lemma delete_project_at before p after :
  projects (state a) = before ++ p :: after ->
  Z.of_nat (length before) = i - 1 ->
  delete_project i a
  = (mkResult "delete_project" None ("Deleted project: " +:+ p_name p)
       (FProject (p_name p)),
     _update_state (SetProjects (before ++ after)) a).
Proof.
  intros Hl Hi. unfold delete_project. rewrite Hl.
  replace (in_range _ _) with true
    by (symmetry; apply in_range_true; rewrite length_app; simpl; lia).
  replace (Z.to_nat (i - 1)) with (length before) by lia.
  cbn [negb]. rewrite delete_middle, list_lookup_total_middle by reflexivity.
  reflexivity.
Qed.

Lemma update_team_member_at before m after name role email :
  team_members (state a) = before ++ m :: after ->
  Z.of_nat (length before) = i - 1 ->
  update_team_member i name role email a
  = (mkResult "update_team_member" None
       ("Updated team member: " +:+ default (m_name m) name)
       (FMember (default (m_name m) name)),
     _update_state
       (SetTeamMembers (before ++ update_fields name role email m :: after))
       a).
Proof.
  intros Hl Hi. unfold update_team_member. rewrite Hl.
  replace (in_range _ _) with true
    by (symmetry; apply in_range_true; rewrite length_app; simpl; lia).
  replace (Z.to_nat (i - 1)) with (length before) by lia.
  cbn [negb]. rewrite alter_middle, list_lookup_total_middle by reflexivity.
  reflexivity.
Qed.

Lemma delete_team_member_at before m after :
  team_members (state a) = before ++ m :: after ->
  Z.of_nat (length before) = i - 1 ->
  delete_team_member i a
  = (mkResult "delete_team_member" None
       ("Deleted team member: " +:+ m_name m) (FMember (m_name m)),
     _update_state (SetTeamMembers (before ++ after)) a).
Proof.
  intros Hl Hi. unfold delete_team_member. rewrite Hl.
  replace (in_range _ _) with true
    by (symmetry; apply in_range_true; rewrite length_app; simpl; lia).
  replace (Z.to_nat (i - 1)) with (length before) by lia.
  cbn [negb]. rewrite delete_middle, list_lookup_total_middle by reflexivity.
  reflexivity.
Qed.
End IndexOperations.

(** C8.  For a valid 1-based index [i] of the team members,
    [update_team_member] replaces in member [i] exactly the fields given as
    non-[None] and keeps its other fields, every other member, the projects
    and the user name; [delete_team_member] removes member [i]: the members
    before it stay in place, each later member moves down by one position,
    and the collection is one shorter. *)
Theorem team_member_update_delete_frame : forall a i,
  1 <= i <= Z.of_nat (length (team_members (state a))) ->
  (forall name role email,
     let a' := snd (update_team_member i name role email a) in
     user_name (state a') = user_name (state a) /\
     projects (state a') = projects (state a) /\
     length (team_members (state a')) = length (team_members (state a)) /\
     (exists m,
        team_members (state a) !! Z.to_nat (i - 1) = Some m /\
        team_members (state a') !! Z.to_nat (i - 1)
        = Some (mkTeamMember (default (m_name m) name)
                             (default (m_role m) role)
                             (default (m_email m) email)
                             (m_created_at m))) /\
     (forall j, j <> Z.to_nat (i - 1) ->
        team_members (state a') !! j = team_members (state a) !! j)) /\
  (let a' := snd (delete_team_member i a) in
   user_name (state a') = user_name (state a) /\
   projects (state a') = projects (state a) /\
   S (length (team_members (state a'))) = length (team_members (state a)) /\
   (forall j, (j < Z.to_nat (i - 1))%nat ->
      team_members (state a') !! j = team_members (state a) !! j) /\
   (forall j, (Z.to_nat (i - 1) <= j)%nat ->
      team_members (state a') !! j = team_members (state a) !! S j)).
Proof.
  intros a i Hi.
  assert (Hr : in_range (i - 1) (length (team_members (state a))) = true)
    by (apply in_range_true; lia).
  destruct (lookup_lt_is_Some_2 (team_members (state a)) (Z.to_nat (i - 1)))
    as [m Hm]; [lia|].
  split.
  - intros name role email. unfold update_team_member. rewrite Hr.
    cbn -[alter]. repeat apply conj; try reflexivity.
    + apply length_alter.
    + exists m. split; [exact Hm|].
      rewrite list_lookup_alter_eq, Hm. reflexivity.
    + intros j Hj. apply list_lookup_alter_ne. congruence.
  - unfold delete_team_member. rewrite Hr.
    cbn -[delete]. repeat apply conj; try reflexivity.
    + rewrite length_delete by eauto. lia.
    + intros j Hj. now apply list_lookup_delete_lt.
    + intros j Hj. now apply list_lookup_delete_ge.
Qed.

Lemma team_member_update_delete_frame_witness :
  team_members (state (snd (update_team_member 2 None (Some "Office Administrator") None office)))
  = [member_named "Jim Halpert" "Sales";
     member_named "Pam Beesly" "Office Administrator"] /\
  team_members (state (snd (delete_team_member 1 office)))
  = [member_named "Pam Beesly" "Reception"] /\
  (forall j, (Z.to_nat (1 - 1) <= j)%nat ->
     team_members (state (snd (delete_team_member 1 office))) !! j
     = team_members (state office) !! S j).
Proof.
  assert (H : 1 <= 1 <= Z.of_nat (length (team_members (state office))))
    by (simpl; lia).
  split; [reflexivity|]. split; [reflexivity|].
  exact (proj2 (proj2 (proj2 (proj2 (proj2
           (team_member_update_delete_frame office 1 H)))))).
Defined.

(** ** Bulk removal *)

Section Pruning.
Variable drop : Task -> bool.

Lemma filter_split_length (l : list Task) :
  (length (List.filter (fun t => negb (drop t)) l)
   + length (List.filter drop l) = length l)%nat.
Proof.
  induction l as [|t l IH]; simpl; [reflexivity|].
  destruct (drop t); simpl; lia.
Qed.

Lemma filter_none_dropped (l : list Task) :
  length (List.filter drop l) = 0%nat ->
  List.filter (fun t => negb (drop t)) l = l.
Proof.
  induction l as [|t l IH]; simpl; [reflexivity|].
  destruct (drop t); simpl; [discriminate|].
  intros H. now rewrite IH.
Qed.

Lemma pruned_untouched p : dropped drop p = 0%nat -> pruned drop p = p.
Proof.
  unfold dropped, pruned. intros H. rewrite filter_none_dropped by exact H.
  now destruct p.
Qed.

Lemma pruned_tasks p t :
  In t (p_tasks (pruned drop p)) <-> In t (p_tasks p) /\ drop t = false.
Proof.
  unfold pruned. simpl. rewrite filter_In, negb_true_iff. tauto.
Qed.

Lemma total_dropped_zero ps :
  total_dropped drop ps = 0%nat <->
  forall p, In p ps -> dropped drop p = 0%nat.
Proof.
  unfold total_dropped. induction ps as [|p ps IH]; simpl.
  - split; [intros _ p [] | reflexivity].
  - split.
    + intros H q [<-|Hq]; [lia|]. apply IH; [lia | assumption].
    + intros H. rewrite (H p) by now left.
      apply IH. intros q Hq. apply H. now right.
Qed.

Lemma pruned_all_untouched ps :
  total_dropped drop ps = 0%nat -> map (pruned drop) ps = ps.
Proof.
  rewrite total_dropped_zero. induction ps as [|p ps IH]; intros H; simpl.
  - reflexivity.
  - rewrite pruned_untouched by (apply H; now left).
    rewrite IH; [reflexivity|]. intros q Hq. apply H. now right.
Qed.

Lemma affected_names_none ps :
  total_dropped drop ps = 0%nat -> affected_names drop ps = [].
Proof.
  rewrite total_dropped_zero. unfold affected_names.
  induction ps as [|p ps IH]; intros H; simpl; [reflexivity|].
  rewrite (H p) by now left. simpl.
  apply IH. intros q Hq. apply H. now right.
Qed.
End Pruning.

Lemma scan_tasks_spec q tasks : forall remaining n,
  scan_tasks q tasks remaining n
  = (remaining ++ List.filter (fun t => negb (task_hit q t)) tasks,
     (n + length (List.filter (task_hit q) tasks))%nat).
Proof.
  induction tasks as [|t tasks IH]; intros remaining n.
  - simpl. now rewrite app_nil_r, Nat.add_0_r.
  - cbn [scan_tasks List.filter].
    change (Str.name_matches q (t_name t)) with (task_hit q t).
    destruct (task_hit q t); cbn [negb length].
    + rewrite IH. f_equal. lia.
    + rewrite IH. now rewrite <- app_assoc.
Qed.

Lemma scan_projects_spec q ps : forall n affected,
  scan_projects q ps n affected
  = (map (pruned (task_hit q)) ps,
     (n + total_dropped (task_hit q) ps)%nat,
     affected ++ affected_names (task_hit q) ps).
Proof.
  unfold total_dropped, affected_names.
  induction ps as [|p ps IH]; intros n affected; simpl.
  - now rewrite app_nil_r, Nat.add_0_r.
  - rewrite scan_tasks_spec. simpl.
    pose proof (filter_split_length (task_hit q) (p_tasks p)) as Hlen.
    fold (dropped (task_hit q) p) in *.
    destruct (Nat.ltb_spec
                (length (List.filter (fun t => negb (task_hit q t)) (p_tasks p)))
                (length (p_tasks p))) as [Hlt|Hge].
    + rewrite IH.
      replace (0 <? dropped (task_hit q) p)%nat with true
        by (symmetry; apply Nat.ltb_lt; lia).
      simpl. rewrite <- app_assoc. simpl.
      rewrite Nat.add_assoc. reflexivity.
    + rewrite IH.
      assert (H0 : dropped (task_hit q) p = 0%nat) by lia.
      rewrite H0. simpl.
      fold (pruned (task_hit q) p). rewrite pruned_untouched by exact H0.
      rewrite Nat.add_0_r. reflexivity.
Qed.

Lemma not_completed_negb t : not_completed t = negb (completed t).
Proof. reflexivity. Qed.

Lemma completed_spec t : completed t = true <-> t_status t = Some "completed".
Proof.
  unfold completed, get_status. rewrite String.eqb_eq.
  destruct (t_status t) as [v|]; simpl.
  - split; [intros ->; reflexivity | intros H; now injection H].
  - split; discriminate.
Qed.

Lemma sweep_projects_spec ps : forall n affected,
  sweep_projects ps n affected
  = (map (pruned completed) ps,
     (n + total_dropped completed ps)%nat,
     affected ++ affected_names completed ps).
Proof.
  unfold total_dropped, affected_names.
  induction ps as [|p ps IH]; intros n affected; simpl.
  - now rewrite app_nil_r, Nat.add_0_r.
  - pose proof (filter_split_length completed (p_tasks p)) as Hlen.
    fold (dropped completed p) in *.
    change (List.filter not_completed (p_tasks p))
      with (List.filter (fun t => negb (completed t)) (p_tasks p)).
    destruct (Nat.ltb_spec
                (length (List.filter (fun t => negb (completed t)) (p_tasks p)))
                (length (p_tasks p))) as [Hlt|Hge].
    + rewrite IH.
      replace (0 <? dropped completed p)%nat with true
        by (symmetry; apply Nat.ltb_lt; lia).
      replace (length (p_tasks p)
               - length (List.filter (fun t => negb (completed t)) (p_tasks p)))%nat
        with (dropped completed p) by lia.
      simpl. rewrite <- app_assoc. simpl.
      rewrite Nat.add_assoc. reflexivity.
    + rewrite IH.
      assert (H0 : dropped completed p = 0%nat) by lia.
      rewrite H0. simpl.
      fold (pruned completed p). rewrite pruned_untouched by exact H0.
      reflexivity.
Qed.

Section BulkOperations.
Variable a : Agent.

Lemma set_projects_same :
  set_key (SetProjects (projects (state a))) (state a) = state a.
Proof. now destruct (state a). Qed.

Lemma delete_tasks_by_name_empty q :
  projects (state a) = [] ->
  delete_tasks_by_name q a
  = (mkResult "delete_tasks_by_name" (Some "error")
       "No projects found to search for tasks." NoFields, a).
Proof. intros H. unfold delete_tasks_by_name. now rewrite H. Qed.

Lemma delete_tasks_by_name_nonempty q :
  projects (state a) <> [] ->
  snd (delete_tasks_by_name q a)
  = _update_state
      (SetProjects (map (pruned (task_hit q)) (projects (state a)))) a /\
  outcome (fst (delete_tasks_by_name q a))
  = (if (total_dropped (task_hit q) (projects (state a)) =? 0)%nat
     then (Some "not_found", FTaskName q)
     else (Some "success",
           FDeleted q (total_dropped (task_hit q) (projects (state a)))
                    (affected_names (task_hit q) (projects (state a))))).
Proof.
  intros H. unfold delete_tasks_by_name.
  destruct (projects (state a)) as [|p ps] eqn:E; [congruence|].
  rewrite scan_projects_spec. cbn [Nat.add app].
  destruct (total_dropped (task_hit q) (p :: ps) =? 0)%nat;
    split; reflexivity.
Qed.

Lemma remove_completed_tasks_empty :
  projects (state a) = [] ->
  remove_completed_tasks a
  = (mkResult "remove_completed_tasks" (Some "error")
       "No projects found." NoFields, a).
Proof. intros H. unfold remove_completed_tasks. now rewrite H. Qed.

Lemma remove_completed_tasks_nonempty :
  projects (state a) <> [] ->
  snd (remove_completed_tasks a)
  = _update_state
      (SetProjects (map (pruned completed) (projects (state a)))) a /\
  outcome (fst (remove_completed_tasks a))
  = (if (total_dropped completed (projects (state a)) =? 0)%nat
     then (Some "no_tasks", NoFields)
     else (Some "success",
           FRemoved (total_dropped completed (projects (state a)))
                    (affected_names completed (projects (state a))))).
Proof.
  intros H. unfold remove_completed_tasks.
  destruct (projects (state a)) as [|p ps] eqn:E; [congruence|].
  rewrite sweep_projects_spec. cbn [Nat.add app].
  destruct (total_dropped completed (p :: ps) =? 0)%nat;
    split; reflexivity.
Qed.
End BulkOperations.

(** ** Bulk removal by name (C3) *)

(** C3, as the claim states it, fails on an agent without projects: no task
    is removed, yet the status is "error", not "not_found". *)
Lemma delete_tasks_by_name_without_projects :
  projects (state (snd (delete_tasks_by_name "Design" no_projects)))
  = projects (state no_projects) /\
  status (fst (delete_tasks_by_name "Design" no_projects)) = Some "error" /\
  status (fst (delete_tasks_by_name "Design" no_projects))
  <> Some "not_found".
Proof. repeat split. discriminate. Qed.

(** ** Removal of completed tasks (C4) *)

(** C4, as the claim states it, fails on an agent without projects: the
    state holds no completed task and nothing is removed, yet the status is
    "error", not "no_tasks". *)
Lemma remove_completed_tasks_without_projects :
  (forall p t, In p (projects (state no_projects)) -> In t (p_tasks p) ->
               t_status t <> Some "completed") /\
  projects (state (snd (remove_completed_tasks no_projects)))
  = projects (state no_projects) /\
  status (fst (remove_completed_tasks no_projects)) = Some "error" /\
  status (fst (remove_completed_tasks no_projects)) <> Some "no_tasks".
Proof.
  split; [intros p t []|]. repeat split. discriminate.
Qed.

(** C4, amended.  On a non-empty projects collection
    [remove_completed_tasks] leaves in every project exactly the tasks whose
    status is not the string "completed" (a task with status "Completed", or
    without a status, stays); it answers "no_tasks" when nothing was
    removed, "success" with the count otherwise; when no task is completed
    the answer is "no_tasks" and the projects are as before.  On an empty
    projects collection it answers "error" and returns the agent as it
    was. *)
Theorem remove_completed_tasks_effect : forall a,
  (projects (state a) <> [] ->
     projects (state (snd (remove_completed_tasks a)))
     = map (pruned completed) (projects (state a)) /\
     outcome (fst (remove_completed_tasks a))
     = (if (total_dropped completed (projects (state a)) =? 0)%nat
        then (Some "no_tasks", NoFields)
        else (Some "success",
              FRemoved (total_dropped completed (projects (state a)))
                       (affected_names completed (projects (state a))))) /\
     ((forall p t, In p (projects (state a)) -> In t (p_tasks p) ->
                   t_status t <> Some "completed") ->
      status (fst (remove_completed_tasks a)) = Some "no_tasks" /\
      projects (state (snd (remove_completed_tasks a)))
      = projects (state a))) /\
  (projects (state a) = [] ->
     outcome (fst (remove_completed_tasks a)) = (Some "error", NoFields) /\
     snd (remove_completed_tasks a) = a) /\
  (forall p t,
     In t (p_tasks (pruned completed p)) <->
     In t (p_tasks p) /\ t_status t <> Some "completed") /\
  projects (state (snd (remove_completed_tasks
                          (agent_with mixed_status_projects []))))
  = [project_named "Website"
       [task_named "Design logo" "Completed";
        task_named "Write copy" "pending"]].
Proof.
  intros a. split; [|split; [|split; [|reflexivity]]].
  - intros H. destruct (remove_completed_tasks_nonempty a H) as [Hs Ho].
    split; [now rewrite Hs|]. split; [exact Ho|].
    intros Hnone.
    assert (H0 : total_dropped completed (projects (state a)) = 0%nat).
    { apply total_dropped_zero. intros p Hp. unfold dropped.
      destruct (List.filter completed (p_tasks p)) as [|t ts] eqn:E;
        [reflexivity|].
      assert (Ht : In t (List.filter completed (p_tasks p)))
        by (rewrite E; now left).
      apply filter_In in Ht as [Hin Hc]. apply completed_spec in Hc.
      now destruct (Hnone p t Hp Hin). }
    unfold outcome in Ho. rewrite H0 in Ho. simpl in Ho.
    split; [congruence|].
    rewrite Hs. simpl. now apply pruned_all_untouched.
  - intros H. now rewrite remove_completed_tasks_empty.
  - intros p t. rewrite pruned_tasks, <- completed_spec.
    destruct (completed t); intuition congruence.
Qed.

Lemma remove_completed_tasks_effect_witness :
  (status (fst (remove_completed_tasks (agent_with design_projects [])))
   = Some "no_tasks" /\
   projects (state (snd (remove_completed_tasks
                           (agent_with design_projects []))))
   = design_projects) /\
  snd (remove_completed_tasks no_projects) = no_projects.
Proof.
  split.
  - apply (remove_completed_tasks_effect (agent_with design_projects []));
      [discriminate|].
    intros p t Hp Ht. vm_compute in Hp.
    destruct Hp as [<-|[<-|[]]]; vm_compute in Ht;
      repeat (destruct Ht as [<-|Ht]; [discriminate|]); destruct Ht.
  - apply (remove_completed_tasks_effect no_projects). reflexivity.
Defined.

(** ** Adding projects *)

Section AddProject.
Variables (today name : string) (description : option string) (a : Agent).

Lemma add_project_rejects due :
  due <> "" -> Date.parses due = false ->
  add_project today name description (Some due) a
  = (mkResult "add_project" (Some "error")
       ("Invalid date format: " +:+ due
          +:+ ". Please use YYYY-MM-DD format.") NoFields, a).
Proof.
  intros Hne Hp. unfold add_project. cbn [from_option id].
  destruct (String.eqb_spec due "") as [E|_]; [contradiction|].
  now rewrite Hp.
Qed.

Lemma add_project_accepts due :
  default "2025-12-31" due = ""
  \/ Date.parses (default "2025-12-31" due) = true ->
  add_project today name description due a
  = (mkResult "add_project" None
       ("Added project: " +:+ name +:+ " with due date "
          +:+ default "2025-12-31" due)
       (FProject name),
     _update_state
       (SetProjects
          (projects (state a)
           ++ [mkProject name
                         (default "No description provided" description)
                         (default "2025-12-31" due) [] today])) a).
Proof.
  intros H. unfold add_project.
  destruct (String.eqb_spec (default "2025-12-31" due) "") as [E|Hne].
  - reflexivity.
  - destruct H as [H|H]; [contradiction|]. now rewrite H.
Qed.

Lemma add_project_error_keeps_agent due :
  status (fst (add_project today name description due a)) = Some "error" ->
  snd (add_project today name description due a) = a.
Proof.
  unfold add_project.
  destruct (if String.eqb (default "2025-12-31" due) "" then false
            else negb (Date.parses (default "2025-12-31" due)));
    [reflexivity | discriminate].
Qed.
End AddProject.

(** ** Persistence on the non-success paths (C10) *)

(** C10.  On a non-empty projects collection [delete_tasks_by_name] and
    [remove_completed_tasks] write the state to the session store exactly
    once, whatever they answer: on a run answered "not_found" or "no_tasks"
    the state written equals the state before.  The other non-success paths
    (an index out of range, a rejected due date, the empty-projects error)
    return the agent as it was, without a write. *)
Theorem bulk_operations_always_persist : forall today a,
  (projects (state a) <> [] ->
     (forall q,
        store (snd (delete_tasks_by_name q a))
        = state (snd (delete_tasks_by_name q a)) :: store a /\
        (status (fst (delete_tasks_by_name q a)) = Some "not_found" ->
         snd (delete_tasks_by_name q a)
         = mkAgent (state a) (state a :: store a))) /\
     store (snd (remove_completed_tasks a))
     = state (snd (remove_completed_tasks a)) :: store a /\
     (status (fst (remove_completed_tasks a)) = Some "no_tasks" ->
      snd (remove_completed_tasks a)
      = mkAgent (state a) (state a :: store a))) /\
  (projects (state a) = [] ->
     (forall q, snd (delete_tasks_by_name q a) = a) /\
     snd (remove_completed_tasks a) = a) /\
  (forall i, i < 1 \/ Z.of_nat (length (projects (state a))) < i ->
     (forall name who descr due prio,
        snd (add_task today i name who descr due prio a) = a) /\
     snd (delete_project i a) = a) /\
  (forall i, i < 1 \/ Z.of_nat (length (team_members (state a))) < i ->
     (forall name role email,
        snd (update_team_member i name role email a) = a) /\
     snd (delete_team_member i a) = a) /\
  (forall name descr due,
     status (fst (add_project today name descr due a)) = Some "error" ->
     snd (add_project today name descr due a) = a).
Proof.
  intros today a. split; [|split; [|split; [|split]]].
  - intros H. split; [intros q; split | split].
    + destruct (delete_tasks_by_name_nonempty a q H) as [-> _]. reflexivity.
    + destruct (delete_tasks_by_name_nonempty a q H) as [-> Ho].
      unfold outcome in Ho. intros Hs.
      destruct (total_dropped (task_hit q) (projects (state a)) =? 0)%nat
        eqn:E; [|congruence].
      apply Nat.eqb_eq in E. rewrite pruned_all_untouched by exact E.
      unfold _update_state. now rewrite set_projects_same.
    + destruct (remove_completed_tasks_nonempty a H) as [-> _]. reflexivity.
    + destruct (remove_completed_tasks_nonempty a H) as [-> Ho].
      unfold outcome in Ho. intros Hs.
      destruct (total_dropped completed (projects (state a)) =? 0)%nat
        eqn:E; [|congruence].
      apply Nat.eqb_eq in E. rewrite pruned_all_untouched by exact E.
      unfold _update_state. now rewrite set_projects_same.
  - intros H. split.
    + intros q. now rewrite delete_tasks_by_name_empty.
    + now rewrite remove_completed_tasks_empty.
  - intros i H. split.
    + intros. now rewrite add_task_out_of_range.
    + now rewrite delete_project_out_of_range.
  - intros i H. split.
    + intros. now rewrite update_team_member_out_of_range.
    + now rewrite delete_team_member_out_of_range.
  - intros. now apply add_project_error_keeps_agent.
Qed.

Lemma bulk_operations_always_persist_witness :
  snd (delete_tasks_by_name "zzz" (agent_with design_projects []))
  = mkAgent (state (agent_with design_projects []))
            [state (agent_with design_projects [])] /\
  snd (remove_completed_tasks (agent_with design_projects []))
  = mkAgent (state (agent_with design_projects []))
            [state (agent_with design_projects [])] /\
  snd (remove_completed_tasks no_projects) = no_projects /\
  snd (delete_project 0 office) = office /\
  snd (delete_team_member 3 office) = office /\
  snd (add_project "2025-01-01" "Alpha" None (Some "31-12-2025") office)
  = office.
Proof.
  pose proof (bulk_operations_always_persist "2025-01-01"
                (agent_with design_projects [])) as (H1 & _).
  pose proof (bulk_operations_always_persist "2025-01-01" no_projects)
    as (_ & H2 & _).
  pose proof (bulk_operations_always_persist "2025-01-01" office)
    as (_ & _ & H3 & H4 & H5).
  destruct H1 as (Hd & _ & Hr); [discriminate|].
  repeat apply conj.
  - apply (Hd "zzz"). reflexivity.
  - apply Hr. reflexivity.
  - apply H2. reflexivity.
  - apply (H3 0). left. reflexivity.
  - apply (H4 3). right. reflexivity.
  - apply H5. reflexivity.
Defined.

(** ** Due-date validation of [add_project] (C6) *)

(** C6, as the claim states it, fails on the empty due date: the empty text
    does not parse as a date, yet [add_project] accepts it and the projects
    collection grows by one. *)
Lemma add_project_empty_due_date :
  Date.strptime_Ymd "" = None /\
  status (fst (add_project "2025-01-01" "Alpha" None (Some "") office))
  <> Some "error" /\
  projects (state (snd (add_project "2025-01-01" "Alpha" None (Some "")
                          office)))
  = projects (state office)
    ++ [mkProject "Alpha" "No description provided" "" [] "2025-01-01"].
Proof. repeat split. discriminate. Qed.

(** ** First-match addressing of [update_task_status] (C5) *)

Section FirstMatch.
Context {A : Type} (name_of : A -> string).

Lemma first_match_is_first q items i x :
  first_match name_of q 0 items = Some (i, x) <->
  is_first name_of q items i x.
Proof.
  rewrite first_match_spec, Nat.sub_0_r. unfold is_first.
  rewrite name_matches_spec. split.
  - intros (_ & Hl & Hm & Hf). repeat split; try assumption.
    intros j y Hj Hy Hc. apply name_matches_spec in Hc.
    rewrite (Hf j y Hj Hy) in Hc. discriminate.
  - intros (Hl & Hm & Hf). repeat split; try assumption; [lia|].
    intros j y Hj Hy.
    destruct (Str.name_matches q (name_of y)) eqn:E; [|reflexivity].
    apply name_matches_spec in E. now destruct (Hf j y Hj Hy).
Qed.

Lemma first_match_no_match q items :
  first_match name_of q 0 items = None <-> no_match name_of q items.
Proof.
  rewrite first_match_None. unfold no_match. split.
  - intros H y Hy Hc. apply name_matches_spec in Hc.
    rewrite (H y Hy) in Hc. discriminate.
  - intros H y Hy.
    destruct (Str.name_matches q (name_of y)) eqn:E; [|reflexivity].
    apply name_matches_spec in E. now destruct (H y Hy).
Qed.

Lemma first_or_none q items :
  no_match name_of q items \/ exists i x, is_first name_of q items i x.
Proof.
  destruct (first_match name_of q 0 items) as [[i x]|] eqn:E.
  - right. exists i, x. now apply first_match_is_first.
  - left. now apply first_match_no_match.
Qed.
End FirstMatch.

Lemma alter_lookup_insert {A} (f : A -> A) (l : list A) : forall i x,
  l !! i = Some x -> alter f i l = <[i := f x]> l.
Proof.
  induction l as [|y l IH]; intros [|i] x H; simpl in *; try discriminate.
  - now injection H as ->.
  - f_equal. now apply IH.
Qed.

(** ** Adding a task by project name (C7) *)

Lemma add_task_in_range today i name who descr due prio a :
  1 <= i <= Z.of_nat (length (projects (state a))) ->
  snd (add_task today i name who descr due prio a)
  = _update_state
      (SetProjects
         (alter (append_task (pending_task today name who descr due prio))
                (Z.to_nat (i - 1)) (projects (state a)))) a.
Proof.
  intros H. unfold add_task.
  replace (in_range _ _) with true by (symmetry; apply in_range_true; lia).
  reflexivity.
Qed.

Example add_task_by_project_name_website :
  add_task_by_project_name "2025-01-01" "web" "Write spec" None None None None
                           office
  = (mkResult "add_task_by_project_name" (Some "error")
       ("Found multiple projects matching 'web':" +:+ Str.nl
          +:+ "1. Website Redesign" +:+ Str.nl
          +:+ "2. Website Launch" +:+ Str.nl
          +:+ "Please be more specific.")
       NoFields, office) /\
  projects (state (snd (add_task_by_project_name "2025-01-01" "mobile"
                          "Write spec" None None None None office)))
  = [project_named "Website Redesign" [];
     project_named "Website Launch" [];
     project_named "Mobile App"
       [mkTask "Write spec" "No description provided" "Unassigned"
               "2025-12-31" "medium" (Some "pending") "2025-01-01"]] /\
  snd (add_task_by_project_name "2025-01-01" "zzz" "Write spec" None None
                                None None office)
  = office.
Proof. repeat split. Qed.


(** * Further properties *)

(** ** More on name resolution *)

Lemma append_cons c s1 s2 : String c s1 +:+ s2 = String c (s1 +:+ s2).
Proof. reflexivity. Qed.

Lemma lower_app s1 s2 :
  Str.lower (s1 +:+ s2) = Str.lower s1 +:+ Str.lower s2.
Proof.
  induction s1 as [|c s1 IH]; [reflexivity|].
  rewrite append_cons. cbn [Str.lower]. now rewrite append_cons, IH.
Qed.

Lemma append_assoc s1 s2 s3 : (s1 +:+ s2) +:+ s3 = s1 +:+ (s2 +:+ s3).
Proof.
  induction s1 as [|c s1 IH]; [reflexivity|].
  now rewrite !append_cons, IH.
Qed.

Lemma append_empty_r s : s +:+ "" = s.
Proof.
  induction s as [|c s IH]; [reflexivity|]. now rewrite append_cons, IH.
Qed.

Lemma contains_refl s : contains s s.
Proof. exists "", "". change ("" +:+ s +:+ "") with (s +:+ ""). now rewrite append_empty_r. Qed.

Lemma contains_trans s1 s2 s3 :
  contains s1 s2 -> contains s2 s3 -> contains s1 s3.
Proof.
  intros (a & b & ->) (c & d & ->).
  exists (c +:+ a), (b +:+ d). now rewrite !append_assoc.
Qed.

Lemma name_matches_refl name : Str.name_matches name name = true.
Proof. apply name_matches_spec, contains_refl. Qed.

Section MoreResolverFacts.
Context {A : Type} (name_of : A -> string).

Lemma collect_matches_app q l1 : forall i l2,
  collect_matches name_of q i (l1 ++ l2) []
  = collect_matches name_of q i l1 []
    ++ collect_matches name_of q (i + length l1) l2 [].
Proof.
  induction l1 as [|x l1 IH]; intros i l2.
  - simpl. now rewrite Nat.add_0_r.
  - cbn [app length]. rewrite !collect_matches_cons, IH, <- app_assoc.
    now replace (S i + length l1)%nat with (i + S (length l1))%nat by lia.
Qed.

Lemma collect_matches_position q items i x :
  items !! i = Some x -> Str.name_matches q (name_of x) = true ->
  In (Z.of_nat i + 1, x) (collect_matches name_of q 0 items []).
Proof.
  intros Hl Hm. apply collect_matches_In. split; [lia|].
  split; [|exact Hm].
  now replace (Z.to_nat (Z.of_nat i + 1 - 1) - 0)%nat with i by lia.
Qed.

Lemma collect_matches_valid q items k x :
  In (k, x) (collect_matches name_of q 0 items []) ->
  1 <= k <= Z.of_nat (length items)
  /\ items !! Z.to_nat (k - 1) = Some x
  /\ Str.name_matches q (name_of x) = true.
Proof.
  intros H. apply collect_matches_In in H as (Hk & Hl & Hm).
  rewrite Nat.sub_0_r in Hl.
  assert (Z.to_nat (k - 1) < length items)%nat
    by (apply lookup_lt_is_Some; eauto).
  repeat split; try assumption; lia.
Qed.

(** Two matching items at different positions: at least two matches. *)
Lemma collect_matches_two q items i j x y :
  i <> j -> items !! i = Some x -> items !! j = Some y ->
  Str.name_matches q (name_of x) = true ->
  Str.name_matches q (name_of y) = true ->
  exists m1 m2 ms, collect_matches name_of q 0 items [] = m1 :: m2 :: ms.
Proof.
  intros Hij Hx Hy Hmx Hmy.
  pose proof (collect_matches_position q items i x Hx Hmx) as Hi.
  pose proof (collect_matches_position q items j y Hy Hmy) as Hj.
  destruct (collect_matches name_of q 0 items []) as [|m1 [|m2 ms]].
  - destruct Hi.
  - destruct Hi as [Hi|[]], Hj as [Hj|[]]. subst m1.
    injection Hj as Hj _. lia.
  - now exists m1, m2, ms.
Qed.

End MoreResolverFacts.

Lemma find_project_matches q a :
  project_matches (fst (find_project_by_name q a))
  = collect_matches p_name q 0 (projects (state a)) [].
Proof.
  unfold find_project_by_name, project_matches.
  now destruct (collect_matches p_name q 0 (projects (state a)) [])
    as [|m [|m' ms]].
Qed.

Lemma find_member_matches q a :
  member_matches (fst (find_team_member_by_name q a))
  = collect_matches m_name q 0 (team_members (state a)) [].
Proof.
  unfold find_team_member_by_name, member_matches.
  now destruct (collect_matches m_name q 0 (team_members (state a)) [])
    as [|m [|m' ms]].
Qed.

Lemma find_project_status q a :
  status (fst (find_project_by_name q a))
  = match collect_matches p_name q 0 (projects (state a)) [] with
    | [] => Some "not_found"
    | [_] => Some "found"
    | _ => Some "multiple_matches"
    end.
Proof.
  unfold find_project_by_name.
  now destruct (collect_matches p_name q 0 (projects (state a)) [])
    as [|m [|m' ms]].
Qed.

Lemma find_member_status q a :
  status (fst (find_team_member_by_name q a))
  = match collect_matches m_name q 0 (team_members (state a)) [] with
    | [] => Some "not_found"
    | [_] => Some "found"
    | _ => Some "multiple_matches"
    end.
Proof.
  unfold find_team_member_by_name.
  now destruct (collect_matches m_name q 0 (team_members (state a)) [])
    as [|m [|m' ms]].
Qed.



(** ** Acting on a project by name *)

Section ByName.
Variables (today : string) (a : Agent) (q : string).

Lemma add_task_by_project_name_ambiguous task who descr due prio m1 m2 ms :
  collect_matches p_name q 0 (projects (state a)) [] = m1 :: m2 :: ms ->
  status (fst (add_task_by_project_name today q task who descr due prio a))
  = Some "error" /\
  snd (add_task_by_project_name today q task who descr due prio a) = a.
Proof.
  intros H. unfold add_task_by_project_name, find_project_by_name.
  rewrite H. split; reflexivity.
Qed.

Lemma delete_project_by_name_ambiguous m1 m2 ms :
  collect_matches p_name q 0 (projects (state a)) [] = m1 :: m2 :: ms ->
  delete_project_by_name q a
  = (mkResult "delete_project_by_name" (Some "error")
       ("Found multiple projects matching '" +:+ q +:+ "':"
          +:+ Str.nl +:+ Str.join Str.nl (map format_match (m1 :: m2 :: ms))
          +:+ Str.nl +:+ "Please be more specific.")
       NoFields, a).
Proof.
  intros H. unfold delete_project_by_name, find_project_by_name.
  rewrite H. reflexivity.
Qed.

Lemma delete_project_by_name_none :
  collect_matches p_name q 0 (projects (state a)) [] = [] ->
  delete_project_by_name q a
  = (mkResult "delete_project_by_name" (Some "error")
       ("Could not find project '" +:+ q +:+ "' to delete.") NoFields, a).
Proof.
  intros H. unfold delete_project_by_name, find_project_by_name.
  rewrite H. reflexivity.
Qed.

Lemma delete_project_by_name_one i p :
  collect_matches p_name q 0 (projects (state a)) [] = [(i, p)] ->
  delete_project_by_name q a = delete_project i a.
Proof.
  intros H. unfold delete_project_by_name, find_project_by_name.
  rewrite H. reflexivity.
Qed.
End ByName.

(** A listed pair addresses its item: the collection splits at it. *)
Lemma listed_pair_splits {A} (name_of : A -> string) q items k x :
  In (k, x) (collect_matches name_of q 0 items []) ->
  exists before after,
    items = before ++ x :: after /\ Z.of_nat (length before) = k - 1.
Proof.
  intros H. apply collect_matches_valid in H as (Hk & Hl & _).
  apply list_elem_of_split_length in Hl as (before & after & -> & Hn).
  exists before, after. split; [reflexivity | lia].
Qed.

(** ** Adding, then looking up or removing *)

Lemma add_project_projects today name descr due a :
  default "2025-12-31" due = ""
  \/ is_Some (Date.strptime_Ymd (default "2025-12-31" due)) ->
  snd (add_project today name descr due a)
  = _update_state
      (SetProjects
         (projects (state a)
          ++ [mkProject name (default "No description provided" descr)
                        (default "2025-12-31" due) [] today])) a.
Proof.
  intros H. rewrite add_project_accepts; [reflexivity|].
  destruct H as [H|[v Hv]]; [now left | right].
  unfold Date.parses. now rewrite Hv.
Qed.

(** X6.  What was just added is found under its own name, at the last
    index: after an accepted [add_project], [find_project_by_name] with the
    project's name lists the new project at index count + 1 and is never
    "not_found"; the same holds for [add_team_member] and
    [find_team_member_by_name]. *)
Theorem added_item_is_found : forall today name a,
  (forall descr due,
     default "2025-12-31" due = ""
     \/ is_Some (Date.strptime_Ymd (default "2025-12-31" due)) ->
     In (Z.of_nat (length (projects (state a))) + 1,
         mkProject name (default "No description provided" descr)
                   (default "2025-12-31" due) [] today)
        (project_matches
           (fst (find_project_by_name name
                   (snd (add_project today name descr due a))))) /\
     status (fst (find_project_by_name name
                    (snd (add_project today name descr due a))))
     <> Some "not_found") /\
  (forall role email,
     exists m,
       m_name m = name /\ m_role m = role /\
       In (Z.of_nat (length (team_members (state a))) + 1, m)
          (member_matches
             (fst (find_team_member_by_name name
                     (snd (add_team_member today name role email a))))) /\
       status (fst (find_team_member_by_name name
                      (snd (add_team_member today name role email a))))
       <> Some "not_found").
Proof.
  intros today name a. split.
  - intros descr due H.
    rewrite find_project_matches, find_project_status.
    rewrite (add_project_projects _ _ _ _ _ H). cbn [_update_state state set_key projects].
    set (p := mkProject _ _ _ _ _).
    assert (Hin : In (Z.of_nat (length (projects (state a))) + 1, p)
                     (collect_matches p_name name 0
                        (projects (state a) ++ [p]) [])).
    { apply collect_matches_position.
      - now rewrite list_lookup_middle.
      - apply name_matches_refl. }
    split; [exact Hin|].
    destruct (collect_matches p_name name 0 (projects (state a) ++ [p]) [])
      as [|m1 [|m2 ms]]; [destruct Hin | discriminate | discriminate].
  - intros role email.
    rewrite find_member_matches, find_member_status.
    unfold add_team_member. cbn [snd _update_state state set_key team_members].
    set (m := mkTeamMember _ _ _ _).
    exists m. split; [reflexivity|]. split; [reflexivity|].
    assert (Hin : In (Z.of_nat (length (team_members (state a))) + 1, m)
                     (collect_matches m_name name 0
                        (team_members (state a) ++ [m]) [])).
    { apply collect_matches_position.
      - now rewrite list_lookup_middle.
      - apply name_matches_refl. }
    split; [exact Hin|].
    destruct (collect_matches m_name name 0 (team_members (state a) ++ [m]) [])
      as [|m1 [|m2 ms]]; [destruct Hin | discriminate | discriminate].
Qed.

Lemma added_item_is_found_witness :
  status (fst (find_project_by_name "Alpha"
                 (snd (add_project "2025-01-01" "Alpha" None None office))))
  <> Some "not_found".
Proof.
  destruct (added_item_is_found "2025-01-01" "Alpha" office) as (H & _).
  apply (H None None). right. eexists. reflexivity.
Defined.

(** X7.  [add_project] accepts a name that is already taken, and a name
    added twice can no longer be used to add a task: after two accepted
    [add_project] calls with the same name, [add_task_by_project_name] with
    that name answers "error" and leaves the agent as it was. *)
Theorem duplicate_name_blocks_add_task_by_name :
  forall today name descr1 due1 descr2 due2 a,
  default "2025-12-31" due1 = ""
  \/ is_Some (Date.strptime_Ymd (default "2025-12-31" due1)) ->
  default "2025-12-31" due2 = ""
  \/ is_Some (Date.strptime_Ymd (default "2025-12-31" due2)) ->
  forall task who descr due prio,
    status (fst (add_task_by_project_name today name task who descr due prio
                   (snd (add_project today name descr2 due2
                           (snd (add_project today name descr1 due1 a))))))
    = Some "error" /\
    snd (add_task_by_project_name today name task who descr due prio
           (snd (add_project today name descr2 due2
                   (snd (add_project today name descr1 due1 a)))))
    = snd (add_project today name descr2 due2
             (snd (add_project today name descr1 due1 a))).
Proof.
  intros today name descr1 due1 descr2 due2 a H1 H2 task who descr due prio.
  set (a1 := snd (add_project today name descr1 due1 a)).
  set (a2 := snd (add_project today name descr2 due2 a1)).
  assert (Hp : exists p1 p2,
             p_name p1 = name /\ p_name p2 = name /\
             projects (state a2) = (projects (state a) ++ [p1]) ++ [p2]).
  { unfold a2. rewrite (add_project_projects _ _ _ _ _ H2).
    unfold a1. rewrite (add_project_projects _ _ _ _ _ H1).
    exists (mkProject name (default "No description provided" descr1)
                      (default "2025-12-31" due1) [] today),
           (mkProject name (default "No description provided" descr2)
                      (default "2025-12-31" due2) [] today).
    repeat split. }
  destruct Hp as (p1 & p2 & Hn1 & Hn2 & Hps).
  destruct (collect_matches_two p_name name (projects (state a2))
              (length (projects (state a)))
              (S (length (projects (state a)))) p1 p2)
    as (m1 & m2 & ms & E).
  - lia.
  - rewrite Hps, <- app_assoc. cbn [app]. now rewrite list_lookup_middle.
  - rewrite Hps. rewrite list_lookup_middle; [reflexivity|].
    rewrite length_app. simpl. lia.
  - rewrite Hn1. apply name_matches_refl.
  - rewrite Hn2. apply name_matches_refl.
  - now apply (add_task_by_project_name_ambiguous _ _ _ _ _ _ _ _ m1 m2 ms).
Qed.

Lemma duplicate_name_blocks_add_task_by_name_witness :
  status (fst (add_task_by_project_name "2025-01-01" "Alpha" "Write spec"
                 None None None None
                 (snd (add_project "2025-01-01" "Alpha" None None
                         (snd (add_project "2025-01-01" "Alpha" None None
                                 no_projects))))))
  = Some "error".
Proof.
  apply (duplicate_name_blocks_add_task_by_name "2025-01-01" "Alpha"
           None None None None no_projects).
  - right. eexists. reflexivity.
  - right. eexists. reflexivity.
Defined.

(** X8.  Adding and then deleting at the last index restores the state: an
    accepted [add_project] followed by [delete_project] at count + 1 leaves
    the state as it was before both and reports the name just added;
    likewise [add_team_member] followed by [delete_team_member]. *)
Theorem add_then_delete_restores_state : forall today name a,
  (forall descr due,
     default "2025-12-31" due = ""
     \/ is_Some (Date.strptime_Ymd (default "2025-12-31" due)) ->
     state (snd (delete_project
                   (Z.of_nat (length (projects (state a))) + 1)
                   (snd (add_project today name descr due a))))
     = state a /\
     outcome (fst (delete_project
                     (Z.of_nat (length (projects (state a))) + 1)
                     (snd (add_project today name descr due a))))
     = (None, FProject name)) /\
  (forall role email,
     state (snd (delete_team_member
                   (Z.of_nat (length (team_members (state a))) + 1)
                   (snd (add_team_member today name role email a))))
     = state a /\
     outcome (fst (delete_team_member
                     (Z.of_nat (length (team_members (state a))) + 1)
                     (snd (add_team_member today name role email a))))
     = (None, FMember name)).
Proof.
  intros today name a. split.
  - intros descr due H. rewrite (add_project_projects _ _ _ _ _ H).
    erewrite delete_project_at; cycle 1.
    + cbn [_update_state state set_key projects]. reflexivity.
    + lia.
    + cbn [snd fst]. rewrite app_nil_r. split; [|reflexivity].
      cbn. now destruct (state a).
  - intros role email. unfold add_team_member. cbn [snd].
    erewrite delete_team_member_at; cycle 1.
    + cbn [_update_state state set_key team_members]. reflexivity.
    + lia.
    + cbn [snd fst]. rewrite app_nil_r. split; [|reflexivity].
      cbn. now destruct (state a).
Qed.

Lemma add_then_delete_restores_state_witness :
  state (snd (delete_project 4
                (snd (add_project "2025-01-01" "Alpha" None
                        (Some "2026-02-28") office))))
  = state office.
Proof.
  destruct (add_then_delete_restores_state "2025-01-01" "Alpha" office)
    as (H & _).
  apply (H None (Some "2026-02-28")). right. eexists. reflexivity.
Defined.

(** ** Write-through *)

Lemma synced_update u a : synced (_update_state u a).
Proof. exists (store a). reflexivity. Qed.

Ltac durable_step :=
  cbn [snd];
  first [ left; reflexivity | right; apply synced_update ].

Section Durable.
Variables (today : string) (a : Agent).

Lemma add_project_durable n d dd : durable a (add_project today n d dd a).
Proof.
  unfold durable, add_project.
  destruct (if String.eqb _ _ then _ else _); durable_step.
Qed.

Lemma add_task_durable i n w d dd p :
  durable a (add_task today i n w d dd p a).
Proof.
  unfold durable, add_task. destruct (in_range _ _); durable_step.
Qed.

Lemma delete_project_durable i : durable a (delete_project i a).
Proof.
  unfold durable, delete_project. destruct (in_range _ _); durable_step.
Qed.

Lemma update_team_member_durable i n r e :
  durable a (update_team_member i n r e a).
Proof.
  unfold durable, update_team_member. destruct (in_range _ _); durable_step.
Qed.

Lemma delete_team_member_durable i : durable a (delete_team_member i a).
Proof.
  unfold durable, delete_team_member. destruct (in_range _ _); durable_step.
Qed.

Lemma add_task_by_project_name_durable q n w d dd p :
  durable a (add_task_by_project_name today q n w d dd p a).
Proof.
  unfold add_task_by_project_name, find_project_by_name.
  destruct (collect_matches p_name q 0 (projects (state a)) [])
    as [|m [|m' ms]].
  - left. reflexivity.
  - apply add_task_durable.
  - left. reflexivity.
Qed.

Lemma delete_project_by_name_durable q :
  durable a (delete_project_by_name q a).
Proof.
  unfold delete_project_by_name, find_project_by_name.
  destruct (collect_matches p_name q 0 (projects (state a)) [])
    as [|m [|m' ms]].
  - left. reflexivity.
  - apply delete_project_durable.
  - left. reflexivity.
Qed.

Lemma update_task_status_durable pn tn ns :
  durable a (update_task_status pn tn ns a).
Proof.
  unfold durable, update_task_status.
  destruct (first_match p_name pn 0 _) as [[pi p]|]; [|durable_step].
  destruct (first_match t_name tn 0 _) as [[ti t]|]; durable_step.
Qed.

Lemma delete_tasks_by_name_durable q : durable a (delete_tasks_by_name q a).
Proof.
  unfold durable.
  destruct (projects (state a)) as [|p ps] eqn:E.
  - left. now rewrite delete_tasks_by_name_empty.
  - right. destruct (delete_tasks_by_name_nonempty a q) as [-> _];
      [congruence | apply synced_update].
Qed.

Lemma remove_completed_tasks_durable : durable a (remove_completed_tasks a).
Proof.
  unfold durable.
  destruct (projects (state a)) as [|p ps] eqn:E.
  - left. now rewrite remove_completed_tasks_empty.
  - right. destruct (remove_completed_tasks_nonempty a) as [-> _];
      [congruence | apply synced_update].
Qed.
End Durable.

(** X9.  No operation leaves the live state ahead of the session store:
    each of the fifteen state-changing operations either returns the agent
    exactly as it was, or returns one whose newest stored blob is its live
    state. *)
Theorem every_change_is_written_through : forall today a,
  (forall n d dd, durable a (add_project today n d dd a)) /\
  (forall n r e, durable a (add_team_member today n r e a)) /\
  (forall i n w d dd p, durable a (add_task today i n w d dd p a)) /\
  (forall q n w d dd p,
     durable a (add_task_by_project_name today q n w d dd p a)) /\
  (forall n, durable a (update_user_name n a)) /\
  (forall i n r e, durable a (update_team_member i n r e a)) /\
  (forall i, durable a (delete_team_member i a)) /\
  (forall i, durable a (delete_project i a)) /\
  (forall q, durable a (delete_project_by_name q a)) /\
  (forall pn tn ns, durable a (update_task_status pn tn ns a)) /\
  (forall q, durable a (delete_tasks_by_name q a)) /\
  durable a (remove_completed_tasks a) /\
  durable a (clear_all_projects a) /\
  durable a (clear_all_team_members a) /\
  durable a (clear_all_data a).
Proof.
  intros today a.
  repeat match goal with |- _ /\ _ => split end; intros.
  - apply add_project_durable.
  - right. apply synced_update.
  - apply add_task_durable.
  - apply add_task_by_project_name_durable.
  - right. apply synced_update.
  - apply update_team_member_durable.
  - apply delete_team_member_durable.
  - apply delete_project_durable.
  - apply delete_project_by_name_durable.
  - apply update_task_status_durable.
  - apply delete_tasks_by_name_durable.
  - apply remove_completed_tasks_durable.
  - right. apply synced_update.
  - right. apply synced_update.
  - right. apply synced_update.
Qed.

(** ** More on bulk removal *)

Section MorePruning.
Variable drop : Task -> bool.

Lemma filter_kept_none_dropped (l : list Task) :
  List.filter drop (List.filter (fun t => negb (drop t)) l) = [].
Proof.
  induction l as [|t l IH]; simpl; [reflexivity|].
  destruct (drop t) eqn:E; simpl; [exact IH | now rewrite E].
Qed.

Lemma total_dropped_pruned ps :
  total_dropped drop (map (pruned drop) ps) = 0%nat.
Proof.
  apply total_dropped_zero. intros p Hp.
  apply in_map_iff in Hp as (p0 & <- & _).
  unfold dropped, pruned. simpl. now rewrite filter_kept_none_dropped.
Qed.

Lemma filter_sublist (f : Task -> bool) (l : list Task) :
  List.filter f l `sublist_of` l.
Proof.
  induction l as [|t l IH]; simpl; [constructor|].
  destruct (f t); now constructor.
Qed.

Lemma dropped_le_total ps i p :
  ps !! i = Some p -> (dropped drop p <= total_dropped drop ps)%nat.
Proof.
  unfold total_dropped. revert i.
  induction ps as [|p0 ps IH]; intros [|i] H; simpl in *; try discriminate.
  - injection H as ->. lia.
  - specialize (IH i H). lia.
Qed.

Lemma affected_names_In ps i p :
  ps !! i = Some p -> (0 < dropped drop p)%nat ->
  In (p_name p) (affected_names drop ps).
Proof.
  intros Hl Hd. unfold affected_names. apply in_map.
  apply filter_In. split.
  - apply list_elem_of_In. apply list_elem_of_lookup. eauto.
  - now apply Nat.ltb_lt.
Qed.
End MorePruning.

(** X10.  Bulk removal is idempotent: on a non-empty projects collection a
    second [delete_tasks_by_name] with the same query answers "not_found"
    and a second [remove_completed_tasks] answers "no_tasks", and neither
    changes the state the first run left. *)
Theorem bulk_removal_is_idempotent : forall a,
  projects (state a) <> [] ->
  (forall q,
     outcome (fst (delete_tasks_by_name q (snd (delete_tasks_by_name q a))))
     = (Some "not_found", FTaskName q) /\
     state (snd (delete_tasks_by_name q (snd (delete_tasks_by_name q a))))
     = state (snd (delete_tasks_by_name q a))) /\
  outcome (fst (remove_completed_tasks (snd (remove_completed_tasks a))))
  = (Some "no_tasks", NoFields) /\
  state (snd (remove_completed_tasks (snd (remove_completed_tasks a))))
  = state (snd (remove_completed_tasks a)).
Proof.
  intros a Hne.
  assert (Hmap : forall d, map (pruned d) (projects (state a)) <> []).
  { intros d H. apply Hne. now destruct (projects (state a)). }
  split; [intros q; destruct (delete_tasks_by_name_nonempty a q Hne) as [E _]
         | destruct (remove_completed_tasks_nonempty a Hne) as [E _]];
    rewrite E.
  - destruct (delete_tasks_by_name_nonempty
                (_update_state
                   (SetProjects (map (pruned (task_hit q)) (projects (state a))))
                   a) q) as [E2 O2]; [apply Hmap|].
    cbn [_update_state state set_key projects] in *.
    rewrite total_dropped_pruned in O2. split; [exact O2|].
    rewrite E2. rewrite pruned_all_untouched by apply total_dropped_pruned.
    reflexivity.
  - destruct (remove_completed_tasks_nonempty
                (_update_state
                   (SetProjects (map (pruned completed) (projects (state a))))
                   a)) as [E2 O2]; [apply Hmap|].
    cbn [_update_state state set_key projects] in *.
    rewrite total_dropped_pruned in O2. split; [exact O2|].
    rewrite E2. rewrite pruned_all_untouched by apply total_dropped_pruned.
    reflexivity.
Qed.

Lemma bulk_removal_is_idempotent_witness :
  outcome (fst (remove_completed_tasks
                  (snd (remove_completed_tasks
                          (agent_with mixed_status_projects [])))))
  = (Some "no_tasks", NoFields).
Proof.
  apply (bulk_removal_is_idempotent (agent_with mixed_status_projects [])).
  discriminate.
Defined.

(** X11.  Bulk removal touches nothing but task lists:
    [delete_tasks_by_name] and [remove_completed_tasks] keep the user name,
    the team members and the number of projects, and each project keeps its
    name, description, due date and creation date, its tasks afterwards
    being a sublist (same order) of its tasks before. *)
Theorem bulk_removal_frame : forall a,
  (forall q, only_tasks_removed a (snd (delete_tasks_by_name q a))) /\
  only_tasks_removed a (snd (remove_completed_tasks a)).
Proof.
  intros a.
  assert (Hsame : only_tasks_removed a a).
  { repeat split. intros i p H. exists p. repeat split; [exact H | reflexivity]. }
  assert (Hmap : forall d,
             only_tasks_removed a
               (_update_state
                  (SetProjects (map (pruned d) (projects (state a)))) a)).
  { intros d. unfold only_tasks_removed.
    cbn [_update_state state set_key user_name team_members projects].
    repeat split; [apply length_map|].
    intros i p H. exists (pruned d p). rewrite list_lookup_fmap, H.
    repeat split. apply filter_sublist. }
  assert (E : projects (state a) = [] \/ projects (state a) <> [])
    by (destruct (projects (state a)); [now left | now right]).
  split.
  - intros q. destruct E as [E|E].
    + now rewrite delete_tasks_by_name_empty.
    + destruct (delete_tasks_by_name_nonempty a q E) as [-> _]. apply Hmap.
  - destruct E as [E|E].
    + now rewrite remove_completed_tasks_empty.
    + destruct (remove_completed_tasks_nonempty a E) as [-> _]. apply Hmap.
Qed.

(** ** More on [update_task_status] *)

Lemma update_task_status_success pn tn ns a pi p ti t :
  is_first p_name pn (projects (state a)) pi p ->
  is_first t_name tn (p_tasks p) ti t ->
  update_task_status pn tn ns a
  = (mkResult "update_task_status" (Some "success")
       ("Updated task '" +:+ t_name t +:+ "' status from '"
          +:+ get_status t +:+ "' to '" +:+ ns
          +:+ "' in project '" +:+ p_name p +:+ "'.")
       (FStatusChange (p_name p) (t_name t) (get_status t) ns),
     _update_state
       (SetProjects
          (<[pi := set_tasks (<[ti := set_status (Str.lower ns) t]> (p_tasks p))
                             p]>
             (projects (state a)))) a).
Proof.
  intros Hp Ht. pose proof Hp as (Hlp & _). pose proof Ht as (Hlt & _).
  apply first_match_is_first in Hp, Ht.
  unfold update_task_status. rewrite Hp, Ht. unfold assign_status.
  rewrite (alter_lookup_insert _ _ pi p Hlp).
  now rewrite (alter_lookup_insert _ _ ti t Hlt).
Qed.

Lemma filter_hit_positive {A} (f : A -> bool) (l : list A) i x :
  l !! i = Some x -> f x = true -> (0 < length (List.filter f l))%nat.
Proof.
  intros Hl Hf.
  assert (Hin : In x (List.filter f l)).
  { apply filter_In. split; [|exact Hf].
    apply list_elem_of_In, list_elem_of_lookup. eauto. }
  destruct (List.filter f l); [destruct Hin | simpl; lia].
Qed.

(** ** Team members' default e-mail *)

Lemma lower_ascii_idempotent c :
  Str.lower_ascii (Str.lower_ascii c) = Str.lower_ascii c.
Proof. destruct c as [[] [] [] [] [] [] [] []]; reflexivity. Qed.

Lemma replace_char_length old new s :
  String.length (replace_char old new s) = String.length s.
Proof. induction s as [|c s IH]; simpl; [reflexivity | now rewrite IH]. Qed.

Lemma lower_length s : String.length (Str.lower s) = String.length s.
Proof. induction s as [|c s IH]; simpl; [reflexivity | now rewrite IH]. Qed.

Lemma no_space_after_replace s :
  Str.str_in " " (replace_char " " "." s) = false.
Proof.
  induction s as [|c s IH]; [reflexivity|].
  cbn [replace_char Str.str_in Str.startswith]. rewrite IH, orb_false_r.
  destruct (Ascii.eqb_spec c " ") as [->|Hc]; [reflexivity|].
  destruct (Ascii.eqb_spec " " c) as [<-|_]; [congruence|].
  destruct (replace_char " " "." s); reflexivity.
Qed.

Lemma slug_is_lower s :
  Str.lower (replace_char " " "." (Str.lower s))
  = replace_char " " "." (Str.lower s).
Proof.
  induction s as [|c s IH]; [reflexivity|].
  cbn [Str.lower replace_char]. rewrite IH. f_equal.
  destruct (Ascii.eqb (Str.lower_ascii c) " ");
    [reflexivity | apply lower_ascii_idempotent].
Qed.

Lemma slug_get s : forall i c,
  String.get i s = Some c ->
  String.get i (replace_char " " "." (Str.lower s))
  = Some (if Ascii.eqb (Str.lower_ascii c) " " then "."%char
          else Str.lower_ascii c).
Proof.
  induction s as [|c0 s IH]; intros [|i] c H; simpl in *; try discriminate.
  - now injection H as ->.
  - now apply IH.
Qed.

(** ** Clearing *)

Lemma nothing_in_range z : in_range z 0 = false.
Proof. apply in_range_false. simpl. lia. Qed.

(** X15.  [clear_all_data] empties both collections and keeps the user
    name; running it again changes nothing in the state.  On the agent it
    leaves, every index is out of range for the four index-taking
    operations, every name lookup finds nothing, and the bulk and by-name
    operations answer "error"; none of these changes the agent. *)
Theorem cleared_agent_rejects_everything : forall today a,
  state (snd (clear_all_data a)) = mkState (user_name (state a)) [] [] /\
  state (snd (clear_all_data (snd (clear_all_data a))))
  = state (snd (clear_all_data a)) /\
  state (snd (clear_all_team_members (snd (clear_all_projects a))))
  = state (snd (clear_all_data a)) /\
  (forall i n w d dd p,
     add_task today i n w d dd p (snd (clear_all_data a))
     = (out_of_range_error "add_task" "project" i 0,
        snd (clear_all_data a))) /\
  (forall i,
     delete_project i (snd (clear_all_data a))
     = (out_of_range_error "delete_project" "project" i 0,
        snd (clear_all_data a))) /\
  (forall i n r e,
     update_team_member i n r e (snd (clear_all_data a))
     = (out_of_range_error "update_team_member" "team member" i 0,
        snd (clear_all_data a))) /\
  (forall i,
     delete_team_member i (snd (clear_all_data a))
     = (out_of_range_error "delete_team_member" "team member" i 0,
        snd (clear_all_data a))) /\
  (forall q,
     outcome (fst (find_project_by_name q (snd (clear_all_data a))))
     = (Some "not_found", NoFields) /\
     outcome (fst (find_team_member_by_name q (snd (clear_all_data a))))
     = (Some "not_found", NoFields) /\
     outcome (fst (delete_tasks_by_name q (snd (clear_all_data a))))
     = (Some "error", NoFields) /\
     snd (delete_tasks_by_name q (snd (clear_all_data a)))
     = snd (clear_all_data a) /\
     outcome (fst (delete_project_by_name q (snd (clear_all_data a))))
     = (Some "error", NoFields) /\
     snd (delete_project_by_name q (snd (clear_all_data a)))
     = snd (clear_all_data a)) /\
  outcome (fst (remove_completed_tasks (snd (clear_all_data a))))
  = (Some "error", NoFields) /\
  snd (remove_completed_tasks (snd (clear_all_data a)))
  = snd (clear_all_data a).
Proof.
  intros today a.
  repeat match goal with |- _ /\ _ => split end; try reflexivity; intros.
  - unfold add_task. cbn [clear_all_data snd _update_state state set_key
                          projects length].
    now rewrite nothing_in_range.
  - unfold delete_project. cbn [clear_all_data snd _update_state state
                                set_key projects length].
    now rewrite nothing_in_range.
  - unfold update_team_member. cbn [clear_all_data snd _update_state state
                                    set_key team_members length].
    now rewrite nothing_in_range.
  - unfold delete_team_member. cbn [clear_all_data snd _update_state state
                                    set_key team_members length].
    now rewrite nothing_in_range.
  - repeat split.
Qed.

(** ** Listings *)

Lemma status_is_completed t : status_is "completed" t = completed t.
Proof.
  unfold status_is, completed, get_status. now destruct (t_status t).
Qed.

Lemma list_projects_spec ps : forall i acc,
  list_projects i ps acc
  = acc ++ imap (fun j p =>
                   project_line (i + j) (p_name p) (p_due_date p)
                                (dropped completed p) (length (p_tasks p)))
                ps.
Proof.
  induction ps as [|p ps IH]; intros i acc.
  - simpl. now rewrite app_nil_r.
  - cbn [list_projects]. rewrite IH, imap_cons, <- app_assoc. cbn [app].
    rewrite (List.filter_ext _ _ status_is_completed), Nat.add_0_r.
    do 2 f_equal. apply imap_ext. intros j q _. simpl.
    now replace (S (i + j)) with (i + S j)%nat by lia.
Qed.

Lemma list_members_spec ms : forall i acc,
  list_members i ms acc = acc ++ imap (fun j m => member_line (i + j) m) ms.
Proof.
  induction ms as [|m ms IH]; intros i acc.
  - simpl. now rewrite app_nil_r.
  - cbn [list_members]. rewrite IH, imap_cons, <- app_assoc. cbn [app].
    rewrite Nat.add_0_r. do 2 f_equal. apply imap_ext. intros j q _. simpl.
    now replace (S (i + j)) with (i + S j)%nat by lia.
Qed.

Lemma view_projects_nonempty a :
  projects (state a) <> [] ->
  pv_formatted_list (fst (view_projects a))
  = Some (Str.join Str.nl
            (imap (fun i p =>
                     project_line (S i) (p_name p) (p_due_date p)
                                  (dropped completed p) (length (p_tasks p)))
                  (projects (state a)))).
Proof.
  intros H. unfold view_projects.
  destruct (projects (state a)) as [|p ps]; [congruence|].
  cbn [fst pv_formatted_list]. now rewrite list_projects_spec.
Qed.

(** X16.  The listings are read-only and count the collection.
    [view_projects] gives no formatted list on an empty collection;
    otherwise line [i] shows project [i] with, as completed, the number of
    its tasks whose status is exactly "completed".  These are the tasks
    [remove_completed_tasks] removes: listed right after it, every project
    shows 0 completed out of the tasks that were not completed. *)
Theorem view_projects_counts : forall a,
  snd (view_projects a) = a /\
  pv_projects (fst (view_projects a)) = projects (state a) /\
  pv_count (fst (view_projects a)) = length (projects (state a)) /\
  snd (view_team_members a) = a /\
  tv_team_members (fst (view_team_members a)) = team_members (state a) /\
  tv_count (fst (view_team_members a)) = length (team_members (state a)) /\
  (projects (state a) = [] ->
     pv_formatted_list (fst (view_projects a)) = None) /\
  (projects (state a) <> [] ->
     pv_formatted_list (fst (view_projects a))
     = Some (Str.join Str.nl
               (imap (fun i p =>
                        project_line (S i) (p_name p) (p_due_date p)
                                     (dropped completed p)
                                     (length (p_tasks p)))
                     (projects (state a)))) /\
     pv_formatted_list (fst (view_projects (snd (remove_completed_tasks a))))
     = Some (Str.join Str.nl
               (imap (fun i p =>
                        project_line (S i) (p_name p) (p_due_date p) 0
                                     (length (p_tasks p)
                                      - dropped completed p))
                     (projects (state a))))).
Proof.
  intros a.
  assert (Hp : forall b, snd (view_projects b) = b /\
                 pv_projects (fst (view_projects b)) = projects (state b) /\
                 pv_count (fst (view_projects b)) = length (projects (state b))).
  { intros b. unfold view_projects.
    destruct (projects (state b)); repeat split. }
  assert (Hm : snd (view_team_members a) = a /\
               tv_team_members (fst (view_team_members a))
               = team_members (state a) /\
               tv_count (fst (view_team_members a))
               = length (team_members (state a))).
  { unfold view_team_members.
    destruct (team_members (state a)); repeat split. }
  destruct (Hp a) as (H1 & H2 & H3). destruct Hm as (H4 & H5 & H6).
  repeat match goal with |- _ /\ _ => split end; try assumption.
  - intros E. unfold view_projects. now rewrite E.
  - intros H. split; [now apply view_projects_nonempty|].
    destruct (remove_completed_tasks_nonempty a H) as [E _].
    rewrite view_projects_nonempty; rewrite E;
      cbn [_update_state state set_key projects].
    + rewrite imap_fmap. do 2 f_equal. apply imap_ext. intros i p _.
      cbn [compose]. unfold pruned at 1 2. cbn [set_tasks p_name p_due_date].
      f_equal.
      * unfold dropped, pruned. simpl. now rewrite filter_kept_none_dropped.
      * pose proof (filter_split_length completed (p_tasks p)).
        unfold pruned, dropped. simpl. lia.
    + intros E2. apply H. now destruct (projects (state a)).
Qed.

Lemma view_projects_counts_witness :
  pv_formatted_list
    (fst (view_projects (snd (remove_completed_tasks
                                (agent_with mixed_status_projects [])))))
  = Some "1. Website - Due: 2025-12-31 (Tasks: 0/2 completed)" /\
  pv_formatted_list (fst (view_projects (agent_with [] office_members)))
  = None.
Proof.
  destruct (view_projects_counts (agent_with mixed_status_projects []))
    as (_ & _ & _ & _ & _ & _ & _ & H).
  destruct (view_projects_counts (agent_with [] office_members))
    as (_ & _ & _ & _ & _ & _ & H0 & _).
  split.
  - destruct H as [_ H]; [discriminate|]. rewrite H. reflexivity.
  - apply H0. reflexivity.
Defined.

(** ** Conversation history *)

Lemma last_n_snoc {A} n (l : list A) x :
  last_n (S n) (l ++ [x]) = last_n n l ++ [x].
Proof.
  unfold last_n. rewrite length_app. simpl.
  rewrite drop_app_le by lia. f_equal. f_equal. lia.
Qed.

Lemma last_n_all {A} n (l : list A) :
  (length l <= n)%nat -> last_n n l = l.
Proof.
  intros H. unfold last_n.
  now replace (length l - n)%nat with 0%nat by lia.
Qed.

Lemma last_n_last_n {A} n m (l : list A) :
  (n <= m)%nat -> last_n n (last_n m l) = last_n n l.
Proof.
  intros H. unfold last_n. rewrite length_drop, drop_drop. f_equal. lia.
Qed.

Lemma slice_m6_m1_snoc {A} (l : list A) x :
  slice_m6_m1 (l ++ [x]) = last_n 5 l.
Proof.
  unfold slice_m6_m1, last_n. rewrite length_app. simpl.
  rewrite drop_app_le by lia.
  replace (length l + 1 - 6)%nat with (length l - 5)%nat by lia.
  apply take_app_length'. rewrite length_drop. lia.
Qed.

Lemma recent_history_snoc l x : recent_history (l ++ [x]) = last_n 5 l.
Proof.
  unfold recent_history. rewrite length_app. simpl.
  destruct l as [|y l]; [reflexivity|].
  replace (1 <? length (y :: l) + 1)%nat with true
    by (symmetry; apply Nat.ltb_lt; simpl; lia).
  apply slice_m6_m1_snoc.
Qed.

(** X17.  The conversation history stays bounded.  Whatever its length
    before, a call of [process_message] leaves the last 19 earlier
    messages, the user's message and the assistant's reply, hence at most
    21 messages; and the messages quoted to the model as recent context are
    the last 5 messages from before the call, without the current one. *)
Theorem conversation_history_is_bounded : forall reply user_message history,
  remember_user user_message history
  = last_n 19 history ++ [mkMessage "user" (Some user_message)] /\
  process_message_history reply user_message history
  = last_n 19 history
    ++ [mkMessage "user" (Some user_message); mkMessage "assistant" reply] /\
  (length (process_message_history reply user_message history) <= 21)%nat /\
  ((length history <= 19)%nat -> last_n 19 history = history) /\
  recent_history (remember_user user_message history) = last_n 5 history /\
  (length (recent_history (remember_user user_message history)) <= 5)%nat /\
  process_message_history reply user_message
                          (clear_conversation_history history)
  = [mkMessage "user" (Some user_message); mkMessage "assistant" reply].
Proof.
  intros reply u h.
  assert (H1 : remember_user u h = last_n 19 h ++ [mkMessage "user" (Some u)]).
  { unfold remember_user. rewrite length_app. simpl.
    destruct (Nat.ltb_spec 20 (length h + 1)) as [Hlt|Hge].
    - apply last_n_snoc.
    - rewrite last_n_all by lia. reflexivity. }
  assert (H4 : recent_history (remember_user u h) = last_n 5 h).
  { rewrite H1, recent_history_snoc. apply last_n_last_n. lia. }
  repeat match goal with |- _ /\ _ => split end.
  - exact H1.
  - unfold process_message_history. rewrite H1, <- app_assoc. reflexivity.
  - unfold process_message_history. rewrite H1, !length_app.
    unfold last_n. rewrite length_drop. simpl. lia.
  - apply last_n_all.
  - exact H4.
  - rewrite H4. unfold last_n. rewrite length_drop. lia.
  - reflexivity.
Qed.

Lemma conversation_history_is_bounded_witness :
  last_n 19 [mkMessage "user" (Some "hello"); mkMessage "assistant" None]
  = [mkMessage "user" (Some "hello"); mkMessage "assistant" None].
Proof.
  destruct (conversation_history_is_bounded None "again"
              [mkMessage "user" (Some "hello"); mkMessage "assistant" None])
    as (_ & _ & _ & H & _).
  apply H. simpl. lia.
Defined.

(** ** The minimal agent *)

(** X18.  The minimal agent of [new_agent.py] changes the agent as the full
    one does: its [add_team_member] yields the same agent and the same
    status and fields as the full [add_team_member] given that e-mail
    (only the message differs), and its listings report the same
    collection and count as the full listings. *)
Theorem minimal_agent_agrees : forall today name role email a,
  snd (NewAgent.add_team_member today name role email a)
  = snd (add_team_member today name role (Some email) a) /\
  outcome (fst (NewAgent.add_team_member today name role email a))
  = outcome (fst (add_team_member today name role (Some email) a)) /\
  message (fst (NewAgent.add_team_member today name role email a))
     +:+ " and email " +:+ email
  = message (fst (add_team_member today name role (Some email) a)) /\
  fst (NewAgent.view_projects a)
  = (pv_projects (fst (view_projects a)), pv_count (fst (view_projects a))) /\
  fst (NewAgent.view_team_members a)
  = (tv_team_members (fst (view_team_members a)),
     tv_count (fst (view_team_members a))).
Proof.
  intros today name role email a.
  repeat match goal with |- _ /\ _ => split end; try reflexivity.
  - cbn [NewAgent.add_team_member add_team_member fst message].
    now rewrite !append_assoc.
  - unfold NewAgent.view_projects, view_projects.
    now destruct (projects (state a)).
  - unfold NewAgent.view_team_members, view_team_members.
    now destruct (team_members (state a)).
Qed.


(** * Properties of the operations of [Py] *)

Lemma py_name_matches_spec lower q name :
  Py.name_matches lower q name = true <-> contains_lc lower q name.
Proof. apply str_in_spec. Qed.

Section PyResolverFacts.
Variable lower : string -> string.
Context {A : Type} (name_of : A -> string).

Lemma py_collect_matches_acc q items : forall i acc,
  Py.collect_matches lower name_of q i items acc
  = acc ++ Py.collect_matches lower name_of q i items [].
Proof.
  induction items as [|item rest IH]; intros i acc; simpl.
  - now rewrite app_nil_r.
  - destruct (Py.name_matches lower q (name_of item)).
    + rewrite IH. simpl. rewrite (IH _ [_]). now rewrite <- app_assoc.
    + apply IH.
Qed.

Lemma py_collect_matches_cons q i item rest :
  Py.collect_matches lower name_of q i (item :: rest) []
  = (if Py.name_matches lower q (name_of item)
     then [(Z.of_nat i + 1, item)] else [])
    ++ Py.collect_matches lower name_of q (S i) rest [].
Proof. simpl. now rewrite py_collect_matches_acc. Qed.

Lemma py_collect_matches_In q items : forall i k x,
  In (k, x) (Py.collect_matches lower name_of q i items []) <->
  Z.of_nat i + 1 <= k
  /\ items !! (Z.to_nat (k - 1) - i)%nat = Some x
  /\ Py.name_matches lower q (name_of x) = true.
Proof.
  induction items as [|item rest IH]; intros i k x.
  - simpl. split; [tauto | intros (_ & H & _); discriminate].
  - rewrite py_collect_matches_cons, in_app_iff, IH. split.
    + intros [H | (Hk & Hl & Hm)].
      * destruct (Py.name_matches lower q (name_of item)) eqn:E; simpl in H;
          [|tauto]. destruct H as [H|[]]. injection H as <- <-.
        replace (Z.to_nat (Z.of_nat i + 1 - 1) - i)%nat with 0%nat by lia.
        repeat split; [lia | assumption].
      * split; [lia|]. split; [|assumption].
        replace (Z.to_nat (k - 1) - i)%nat
          with (S (Z.to_nat (k - 1) - S i))%nat by lia.
        exact Hl.
    + intros (Hk & Hl & Hm).
      destruct (Z.to_nat (k - 1) - i)%nat as [|n] eqn:E; simpl in Hl.
      * left. injection Hl as ->. rewrite Hm. left. f_equal. lia.
      * right. split; [lia|]. split; [|assumption].
        replace (Z.to_nat (k - 1) - S i)%nat with n by lia. exact Hl.
Qed.

Lemma py_collect_matches_sorted q items : forall i,
  StronglySorted Z.lt (map fst (Py.collect_matches lower name_of q i items [])).
Proof.
  induction items as [|item rest IH]; intros i.
  - constructor.
  - rewrite py_collect_matches_cons.
    destruct (Py.name_matches lower q (name_of item)); simpl; [|apply IH].
    constructor; [apply IH|].
    apply List.Forall_forall. intros k Hk.
    apply in_map_iff in Hk as [[k' x] [<- Hin]].
    apply py_collect_matches_In in Hin. simpl. lia.
Qed.

Lemma py_collect_matches_resolution q items :
  resolves lower name_of q items (Py.collect_matches lower name_of q 0 items []).
Proof.
  split; [|apply py_collect_matches_sorted].
  intros i x. rewrite py_collect_matches_In, py_name_matches_spec.
  rewrite Nat.sub_0_r. simpl. tauto.
Qed.

Lemma py_first_match_spec q items : forall i k x,
  Py.first_match lower name_of q i items = Some (k, x) <->
  (i <= k)%nat /\ items !! (k - i)%nat = Some x
  /\ Py.name_matches lower q (name_of x) = true
  /\ forall j y, (j < k - i)%nat -> items !! j = Some y ->
                 Py.name_matches lower q (name_of y) = false.
Proof.
  induction items as [|item rest IH]; intros i k x.
  - simpl. split; [discriminate | intros (_ & H & _); discriminate].
  - simpl. destruct (Py.name_matches lower q (name_of item)) eqn:E.
    + split.
      * intros H. injection H as <- <-. rewrite Nat.sub_diag. simpl.
        repeat split; [lia | assumption | intros; lia].
      * intros (Hk & Hl & Hm & Hfirst).
        destruct (k - i)%nat as [|n] eqn:D.
        -- simpl in Hl. injection Hl as <-. do 2 f_equal. lia.
        -- specialize (Hfirst 0%nat item ltac:(lia) eq_refl). congruence.
    + rewrite IH. split.
      * intros (Hk & Hl & Hm & Hfirst).
        replace (k - i)%nat with (S (k - S i)) by lia.
        repeat split; [lia | exact Hl | assumption |].
        intros [|j] y Hj Hy; simpl in Hy; [congruence|].
        apply (Hfirst j); [lia | assumption].
      * intros (Hk & Hl & Hm & Hfirst).
        destruct (k - i)%nat as [|n] eqn:D; simpl in Hl; [congruence|].
        replace (k - S i)%nat with n by lia.
        repeat split; [lia | exact Hl | assumption |].
        intros j y Hj Hy. apply (Hfirst (S j)); [lia | exact Hy].
Qed.

Lemma py_first_match_None q items : forall i,
  Py.first_match lower name_of q i items = None <->
  forall y, In y items -> Py.name_matches lower q (name_of y) = false.
Proof.
  induction items as [|item rest IH]; intros i; simpl.
  - split; [intros _ y [] | reflexivity].
  - destruct (Py.name_matches lower q (name_of item)) eqn:E.
    + split; [discriminate|]. intros H.
      specialize (H item (or_introl eq_refl)). congruence.
    + rewrite IH. split.
      * intros H y [<-|Hy]; [assumption | now apply H].
      * intros H y Hy. apply H. now right.
Qed.

Lemma py_collect_matches_position q items i x :
  items !! i = Some x -> Py.name_matches lower q (name_of x) = true ->
  In (Z.of_nat i + 1, x) (Py.collect_matches lower name_of q 0 items []).
Proof.
  intros Hl Hm. apply py_collect_matches_In. split; [lia|].
  split; [|exact Hm].
  now replace (Z.to_nat (Z.of_nat i + 1 - 1) - 0)%nat with i by lia.
Qed.

Lemma py_collect_matches_valid q items k x :
  In (k, x) (Py.collect_matches lower name_of q 0 items []) ->
  1 <= k <= Z.of_nat (length items)
  /\ items !! Z.to_nat (k - 1) = Some x
  /\ Py.name_matches lower q (name_of x) = true.
Proof.
  intros H. apply py_collect_matches_In in H as (Hk & Hl & Hm).
  rewrite Nat.sub_0_r in Hl.
  assert (Z.to_nat (k - 1) < length items)%nat
    by (apply lookup_lt_is_Some; eauto).
  repeat split; try assumption; lia.
Qed.

(** Two matching items at different positions: at least two matches. *)
Lemma py_collect_matches_two q items i j x y :
  i <> j -> items !! i = Some x -> items !! j = Some y ->
  Py.name_matches lower q (name_of x) = true ->
  Py.name_matches lower q (name_of y) = true ->
  exists m1 m2 ms, Py.collect_matches lower name_of q 0 items [] = m1 :: m2 :: ms.
Proof.
  intros Hij Hx Hy Hmx Hmy.
  pose proof (py_collect_matches_position q items i x Hx Hmx) as Hi.
  pose proof (py_collect_matches_position q items j y Hy Hmy) as Hj.
  destruct (Py.collect_matches lower name_of q 0 items []) as [|m1 [|m2 ms]].
  - destruct Hi.
  - destruct Hi as [Hi|[]], Hj as [Hj|[]]. subst m1.
    injection Hj as Hj _. lia.
  - now exists m1, m2, ms.
Qed.

Lemma py_first_match_is_first q items i x :
  Py.first_match lower name_of q 0 items = Some (i, x) <->
  first_hit lower name_of q items i x.
Proof.
  rewrite py_first_match_spec, Nat.sub_0_r. unfold first_hit.
  rewrite py_name_matches_spec. split.
  - intros (_ & Hl & Hm & Hf). repeat split; try assumption.
    intros j y Hj Hy Hc. apply py_name_matches_spec in Hc.
    rewrite (Hf j y Hj Hy) in Hc. discriminate.
  - intros (Hl & Hm & Hf). repeat split; try assumption; [lia|].
    intros j y Hj Hy.
    destruct (Py.name_matches lower q (name_of y)) eqn:E; [|reflexivity].
    apply py_name_matches_spec in E. now destruct (Hf j y Hj Hy).
Qed.

Lemma py_first_match_no_match q items :
  Py.first_match lower name_of q 0 items = None <-> no_hit lower name_of q items.
Proof.
  rewrite py_first_match_None. unfold no_hit. split.
  - intros H y Hy Hc. apply py_name_matches_spec in Hc.
    rewrite (H y Hy) in Hc. discriminate.
  - intros H y Hy.
    destruct (Py.name_matches lower q (name_of y)) eqn:E; [|reflexivity].
    apply py_name_matches_spec in E. now destruct (H y Hy).
Qed.

Lemma py_first_or_none q items :
  no_hit lower name_of q items \/ exists i x, first_hit lower name_of q items i x.
Proof.
  destruct (Py.first_match lower name_of q 0 items) as [[i x]|] eqn:E.
  - right. exists i, x. now apply py_first_match_is_first.
  - left. now apply py_first_match_no_match.
Qed.

End PyResolverFacts.

Section PyScanFacts.
Variable lower : string -> string.

Lemma py_scan_tasks_spec q tasks : forall remaining n,
  Py.scan_tasks lower q tasks remaining n
  = (remaining ++ List.filter (fun t => negb (hit lower q t)) tasks,
     (n + length (List.filter (hit lower q) tasks))%nat).
Proof.
  induction tasks as [|t tasks IH]; intros remaining n.
  - simpl. now rewrite app_nil_r, Nat.add_0_r.
  - cbn [Py.scan_tasks List.filter].
    change (Py.name_matches lower q (t_name t)) with (hit lower q t).
    destruct (hit lower q t); cbn [negb length].
    + rewrite IH. f_equal. lia.
    + rewrite IH. now rewrite <- app_assoc.
Qed.

Lemma py_scan_projects_spec q ps : forall n affected,
  Py.scan_projects lower q ps n affected
  = (map (pruned (hit lower q)) ps,
     (n + total_dropped (hit lower q) ps)%nat,
     affected ++ affected_names (hit lower q) ps).
Proof.
  unfold total_dropped, affected_names.
  induction ps as [|p ps IH]; intros n affected; simpl.
  - now rewrite app_nil_r, Nat.add_0_r.
  - rewrite py_scan_tasks_spec. simpl.
    pose proof (filter_split_length (hit lower q) (p_tasks p)) as Hlen.
    fold (dropped (hit lower q) p) in *.
    destruct (Nat.ltb_spec
                (length (List.filter (fun t => negb (hit lower q t)) (p_tasks p)))
                (length (p_tasks p))) as [Hlt|Hge].
    + rewrite IH.
      replace (0 <? dropped (hit lower q) p)%nat with true
        by (symmetry; apply Nat.ltb_lt; lia).
      simpl. rewrite <- app_assoc. simpl.
      rewrite Nat.add_assoc. reflexivity.
    + rewrite IH.
      assert (H0 : dropped (hit lower q) p = 0%nat) by lia.
      rewrite H0. simpl.
      fold (pruned (hit lower q) p). rewrite pruned_untouched by exact H0.
      rewrite Nat.add_0_r. reflexivity.
Qed.

End PyScanFacts.

(** On ASCII text the operations of [Py] compute as the ASCII ones. *)
Ltac ascii_compute H :=
  vm_compute; repeat (rewrite H by reflexivity); vm_compute.

Section PyFinders.
Variable lower : string -> string.

Lemma py_find_project_matches q a :
  project_matches (fst (Py.find_project_by_name lower q a))
  = Py.collect_matches lower p_name q 0 (projects (state a)) [].
Proof.
  unfold Py.find_project_by_name, project_matches.
  now destruct (Py.collect_matches lower p_name q 0 (projects (state a)) [])
    as [|m [|m' ms]].
Qed.

Lemma py_find_member_matches q a :
  member_matches (fst (Py.find_team_member_by_name lower q a))
  = Py.collect_matches lower m_name q 0 (team_members (state a)) [].
Proof.
  unfold Py.find_team_member_by_name, member_matches.
  now destruct (Py.collect_matches lower m_name q 0 (team_members (state a)) [])
    as [|m [|m' ms]].
Qed.

Lemma py_find_project_status q a :
  status (fst (Py.find_project_by_name lower q a))
  = match Py.collect_matches lower p_name q 0 (projects (state a)) [] with
    | [] => Some "not_found"
    | [_] => Some "found"
    | _ => Some "multiple_matches"
    end.
Proof.
  unfold Py.find_project_by_name.
  now destruct (Py.collect_matches lower p_name q 0 (projects (state a)) [])
    as [|m [|m' ms]].
Qed.

Lemma py_find_member_status q a :
  status (fst (Py.find_team_member_by_name lower q a))
  = match Py.collect_matches lower m_name q 0 (team_members (state a)) [] with
    | [] => Some "not_found"
    | [_] => Some "found"
    | _ => Some "multiple_matches"
    end.
Proof.
  unfold Py.find_team_member_by_name.
  now destruct (Py.collect_matches lower m_name q 0 (team_members (state a)) [])
    as [|m [|m' ms]].
Qed.
End PyFinders.

(** ** Name resolution (C1) *)

(** C1.  Whatever [str.lower] does: [find_project_by_name] and
    [find_team_member_by_name] leave the agent untouched and answer from the
    list [ms] of the pairs (1-based position, item) whose lower-cased name
    contains the lower-cased query, in collection order: [not_found] when
    [ms] is empty, [found] with its only pair when it has one,
    [multiple_matches] with all of [ms] otherwise.  With [str.lower] the
    ASCII case map on ASCII text, on the projects "Website Redesign",
    "Website Launch", "Mobile App": "web" gives [multiple_matches] at 1 and
    2, "mobile" gives [found] at 3, "zzz" gives [not_found]. *)
Theorem name_resolution_tristate : forall lower : string -> string,
  (forall q a, exists ms,
      resolves lower p_name q (projects (state a)) ms /\
      snd (Py.find_project_by_name lower q a) = a /\
      outcome (fst (Py.find_project_by_name lower q a)) =
        match ms with
        | [] => (Some "not_found", NoFields)
        | [m] => (Some "found", FMatchProject m)
        | _ => (Some "multiple_matches", FMatchesProject ms)
        end) /\
  (forall q a, exists ms,
      resolves lower m_name q (team_members (state a)) ms /\
      snd (Py.find_team_member_by_name lower q a) = a /\
      outcome (fst (Py.find_team_member_by_name lower q a)) =
        match ms with
        | [] => (Some "not_found", NoFields)
        | [m] => (Some "found", FMatchMember m)
        | _ => (Some "multiple_matches", FMatchesMember ms)
        end) /\
  (ascii_lower_ok lower ->
   outcome (fst (Py.find_project_by_name lower "web"
                   (agent_with website_projects [])))
     = (Some "multiple_matches",
        FMatchesProject [(1, project_named "Website Redesign" []);
                         (2, project_named "Website Launch" [])]) /\
   outcome (fst (Py.find_project_by_name lower "mobile"
                   (agent_with website_projects [])))
     = (Some "found", FMatchProject (3, project_named "Mobile App" [])) /\
   outcome (fst (Py.find_project_by_name lower "zzz"
                   (agent_with website_projects [])))
     = (Some "not_found", NoFields)).
Proof.
  intros lower. split; [|split].
  - intros q a.
    exists (Py.collect_matches lower p_name q 0 (projects (state a)) []).
    split; [apply py_collect_matches_resolution|].
    unfold Py.find_project_by_name.
    destruct (Py.collect_matches lower p_name q 0 (projects (state a)) [])
      as [|m [|m' ms]]; split; reflexivity.
  - intros q a.
    exists (Py.collect_matches lower m_name q 0 (team_members (state a)) []).
    split; [apply py_collect_matches_resolution|].
    unfold Py.find_team_member_by_name.
    destruct (Py.collect_matches lower m_name q 0 (team_members (state a)) [])
      as [|m [|m' ms]]; split; reflexivity.
  - intros Hok. repeat split; ascii_compute Hok; reflexivity.
Qed.

Lemma name_resolution_tristate_witness :
  outcome (fst (Py.find_project_by_name Str.lower "web"
                  (agent_with website_projects [])))
  = (Some "multiple_matches",
     FMatchesProject [(1, project_named "Website Redesign" []);
                      (2, project_named "Website Launch" [])]).
Proof.
  destruct (name_resolution_tristate Str.lower) as (_ & _ & H).
  apply H. intros s _. reflexivity.
Defined.

(** ** Index-taking operations (C2) *)

(** C2.  For every agent and every integer [i], [add_task],
    [delete_project], [update_team_member] and [delete_team_member]: when
    [i < 1] or [i > count] the operation returns the index-out-of-range
    error and the agent as it was, state and session store alike.  When
    [1 <= i <= count] the collection is [before ++ x :: after] with [i - 1]
    items in [before], and afterwards it is [before ++ x' :: after] with
    [x'] the project [x] with the new pending task at the end of its tasks,
    or the member [x] with the given fields replaced, or it is
    [before ++ after]; the rest of the state is kept and the new state is
    written to the session store. *)
Theorem index_bounds_discipline : forall today a i,
  ((i < 1 \/ Z.of_nat (length (projects (state a))) < i) ->
     (forall name who descr due prio,
        add_task today i name who descr due prio a
        = (out_of_range_error "add_task" "project" i
             (length (projects (state a))), a)) /\
     delete_project i a
     = (out_of_range_error "delete_project" "project" i
          (length (projects (state a))), a)) /\
  ((i < 1 \/ Z.of_nat (length (team_members (state a))) < i) ->
     (forall name role email,
        update_team_member i name role email a
        = (out_of_range_error "update_team_member" "team member" i
             (length (team_members (state a))), a)) /\
     delete_team_member i a
     = (out_of_range_error "delete_team_member" "team member" i
          (length (team_members (state a))), a)) /\
  (1 <= i <= Z.of_nat (length (projects (state a))) ->
     exists before p after,
       projects (state a) = before ++ p :: after /\
       Z.of_nat (length before) = i - 1 /\
       (forall name who descr due prio,
          outcome (fst (add_task today i name who descr due prio a))
          = (None, FTask name (p_name p)) /\
          wrote_projects a (snd (add_task today i name who descr due prio a))
            (before
             ++ with_task (pending_task today name who descr due prio) p
             :: after)) /\
       outcome (fst (delete_project i a)) = (None, FProject (p_name p)) /\
       wrote_projects a (snd (delete_project i a)) (before ++ after)) /\
  (1 <= i <= Z.of_nat (length (team_members (state a))) ->
     exists before m after,
       team_members (state a) = before ++ m :: after /\
       Z.of_nat (length before) = i - 1 /\
       (forall name role email,
          outcome (fst (update_team_member i name role email a))
          = (None, FMember (match name with Some v => v | None => m_name m end))
          /\
          wrote_team_members a (snd (update_team_member i name role email a))
            (before ++ with_fields name role email m :: after)) /\
       outcome (fst (delete_team_member i a)) = (None, FMember (m_name m)) /\
       wrote_team_members a (snd (delete_team_member i a)) (before ++ after)).
Proof.
  intros today a i. split; [|split; [|split]].
  - intros H. split.
    + intros. now apply add_task_out_of_range.
    + now apply delete_project_out_of_range.
  - intros H. split.
    + intros. now apply update_team_member_out_of_range.
    + now apply delete_team_member_out_of_range.
  - intros H. destruct (split_at _ _ H) as (before & p & after & Hl & Hn).
    exists before, p, after. split; [exact Hl|]. split; [exact Hn|].
    split; [|split].
    + intros. rewrite (add_task_at _ _ _ _ _ _ _ _ _ _ _ Hl Hn).
      split; [reflexivity | repeat split].
    + now rewrite (delete_project_at _ _ _ _ _ Hl Hn).
    + rewrite (delete_project_at _ _ _ _ _ Hl Hn).
      repeat split.
  - intros H. destruct (split_at _ _ H) as (before & m & after & Hl & Hn).
    exists before, m, after. split; [exact Hl|]. split; [exact Hn|].
    split; [|split].
    + intros name role email.
      rewrite (update_team_member_at _ _ _ _ _ _ _ _ Hl Hn).
      split; [now destruct name | repeat split].
    + now rewrite (delete_team_member_at _ _ _ _ _ Hl Hn).
    + rewrite (delete_team_member_at _ _ _ _ _ Hl Hn).
      repeat split.
Qed.

Lemma index_bounds_discipline_witness :
  delete_project 4 office
  = (out_of_range_error "delete_project" "project" 4 3, office) /\
  update_team_member 0 (Some "Pam Halpert") None None office
  = (out_of_range_error "update_team_member" "team member" 0 2, office) /\
  projects (state (snd (add_task "2025-01-01" 2 "Write spec" None None None
                          None office)))
  = [project_named "Website Redesign" [];
     project_named "Website Launch"
       [mkTask "Write spec" "No description provided" "Unassigned"
               "2025-12-31" "medium" (Some "pending") "2025-01-01"];
     project_named "Mobile App" []] /\
  store (snd (add_task "2025-01-01" 2 "Write spec" None None None None
                office))
  = [state (snd (add_task "2025-01-01" 2 "Write spec" None None None None
                   office))] /\
  team_members (state (snd (update_team_member 2 None (Some "Office Manager")
                              None office)))
  = [member_named "Jim Halpert" "Sales";
     member_named "Pam Beesly" "Office Manager"] /\
  team_members (state (snd (delete_team_member 1 office)))
  = [member_named "Pam Beesly" "Reception"].
Proof.
  destruct (index_bounds_discipline "2025-01-01" office 4)
    as (H1 & _ & _ & _).
  destruct (index_bounds_discipline "2025-01-01" office 0)
    as (_ & H2 & _ & _).
  destruct (index_bounds_discipline "2025-01-01" office 2)
    as (_ & _ & H3 & H4).
  destruct (index_bounds_discipline "2025-01-01" office 1)
    as (_ & _ & _ & H5).
  split; [apply H1; right; reflexivity|].
  split; [apply H2; left; reflexivity|].
  destruct H3 as (before & p & after & Hl & Hn & Hadd & _);
    [simpl; lia|].
  destruct (app_inj_1 before [project_named "Website Redesign" []]
              (p :: after)
              [project_named "Website Launch" [];
               project_named "Mobile App" []])
    as [-> E]; [simpl in *; lia | now rewrite <- Hl |].
  injection E as -> ->.
  destruct (Hadd "Write spec" None None None None) as (_ & Hp & _ & _ & Hs).
  split; [exact Hp|]. split; [exact Hs|].
  destruct H4 as (before & m & after & Hl4 & Hn4 & Hupd & _);
    [simpl; lia|].
  destruct (app_inj_1 before [member_named "Jim Halpert" "Sales"]
              (m :: after) [member_named "Pam Beesly" "Reception"])
    as [-> E]; [simpl in *; lia | now rewrite <- Hl4 |].
  injection E as -> ->.
  destruct (Hupd None (Some "Office Manager") None) as (_ & Hm & _).
  split; [exact Hm|].
  destruct H5 as (before & m & after & Hl5 & Hn5 & _ & _ & Hdel & _);
    [simpl; lia|].
  destruct (app_inj_1 before [] (m :: after)
              [member_named "Jim Halpert" "Sales";
               member_named "Pam Beesly" "Reception"])
    as [-> E]; [simpl in *; lia | now rewrite <- Hl5 |].
  injection E as -> ->. exact Hdel.
Defined.

(** ** Bulk removal by name (C3) *)

Lemma sifted_pruned drop p : sifted drop p = pruned drop p.
Proof. reflexivity. Qed.

Section PyBulk.
Variables (lower : string -> string) (a : Agent) (q : string).

Lemma py_delete_tasks_by_name_empty :
  projects (state a) = [] ->
  Py.delete_tasks_by_name lower q a
  = (mkResult "delete_tasks_by_name" (Some "error")
       "No projects found to search for tasks." NoFields, a).
Proof. intros H. unfold Py.delete_tasks_by_name. now rewrite H. Qed.

Lemma py_delete_tasks_by_name_nonempty :
  projects (state a) <> [] ->
  snd (Py.delete_tasks_by_name lower q a)
  = _update_state
      (SetProjects (map (sifted (hit lower q)) (projects (state a)))) a /\
  outcome (fst (Py.delete_tasks_by_name lower q a))
  = (if (total_dropped (hit lower q) (projects (state a)) =? 0)%nat
     then (Some "not_found", FTaskName q)
     else (Some "success",
           FDeleted q (total_dropped (hit lower q) (projects (state a)))
                    (affected_names (hit lower q) (projects (state a))))).
Proof.
  intros H. unfold Py.delete_tasks_by_name.
  destruct (projects (state a)) as [|p ps] eqn:E; [congruence|].
  rewrite py_scan_projects_spec. cbn [Nat.add app].
  destruct (total_dropped (hit lower q) (p :: ps) =? 0)%nat;
    split; reflexivity.
Qed.
End PyBulk.

(** C3, amended.  Whatever [str.lower] does: on a non-empty projects
    collection [delete_tasks_by_name q] leaves in every project exactly the
    tasks whose lower-cased name does not contain the lower-cased [q], in
    their order, keeps the rest of the state and writes the state to the
    session store; it answers "not_found" when no task was removed, and
    otherwise "success" with [deleted_count] the number of removed tasks
    and [affected_projects] the names of the projects that lost a task, in
    collection order.  On an empty projects collection it answers "error"
    and returns the agent as it was.  With [str.lower] the ASCII case map
    on ASCII text, and "Design homepage" and "Design logo" in one project
    and no match in the other, the query "Design" removes both, counts 2
    and lists that one project. *)
Theorem delete_tasks_by_name_effect : forall (lower : string -> string) q a,
  (projects (state a) <> [] ->
     wrote_projects a (snd (Py.delete_tasks_by_name lower q a))
       (map (sifted (hit lower q)) (projects (state a))) /\
     outcome (fst (Py.delete_tasks_by_name lower q a))
     = (if (total_dropped (hit lower q) (projects (state a)) =? 0)%nat
        then (Some "not_found", FTaskName q)
        else (Some "success",
              FDeleted q (total_dropped (hit lower q) (projects (state a)))
                       (affected_names (hit lower q) (projects (state a)))))) /\
  (projects (state a) = [] ->
     outcome (fst (Py.delete_tasks_by_name lower q a))
     = (Some "error", NoFields) /\
     snd (Py.delete_tasks_by_name lower q a) = a) /\
  (forall t, hit lower q t = true <-> contains_lc lower q (t_name t)) /\
  (ascii_lower_ok lower ->
   outcome (fst (Py.delete_tasks_by_name lower "Design"
                   (agent_with design_projects [])))
   = (Some "success", FDeleted "Design" 2 ["Website"]) /\
   projects (state (snd (Py.delete_tasks_by_name lower "Design"
                           (agent_with design_projects []))))
   = [project_named "Website" [];
      project_named "Backend" [task_named "Build API" "pending"]]).
Proof.
  intros lower q a. split; [|split; [|split]].
  - intros H. destruct (py_delete_tasks_by_name_nonempty lower a q H) as [Hs Ho].
    split; [rewrite Hs; repeat split | exact Ho].
  - intros H. now rewrite py_delete_tasks_by_name_empty.
  - intros t. apply str_in_spec.
  - intros Hok. split; ascii_compute Hok; reflexivity.
Qed.

Lemma delete_tasks_by_name_effect_witness :
  projects (state (snd (Py.delete_tasks_by_name Str.lower "Design"
                          (agent_with design_projects []))))
  = [project_named "Website" [];
     project_named "Backend" [task_named "Build API" "pending"]] /\
  store (snd (Py.delete_tasks_by_name Str.lower "LOGO"
                (agent_with design_projects [])))
  = [state (snd (Py.delete_tasks_by_name Str.lower "LOGO"
                   (agent_with design_projects [])))] /\
  snd (Py.delete_tasks_by_name Str.lower "logo" no_projects) = no_projects.
Proof.
  destruct (delete_tasks_by_name_effect Str.lower "Design"
              (agent_with design_projects [])) as (_ & _ & _ & H).
  destruct (delete_tasks_by_name_effect Str.lower "LOGO"
              (agent_with design_projects [])) as (H1 & _).
  destruct (delete_tasks_by_name_effect Str.lower "logo" no_projects)
    as (_ & H0 & _).
  split; [apply H; intros s _; reflexivity|].
  split.
  - destruct H1 as ((_ & _ & _ & Hs) & _); [discriminate | exact Hs].
  - apply H0. reflexivity.
Defined.

(** The operations of [Py] at the ASCII case map are the ones above. *)
Lemma py_at_ascii : forall q a,
  Py.find_project_by_name Str.lower q a = find_project_by_name q a /\
  Py.find_team_member_by_name Str.lower q a = find_team_member_by_name q a /\
  Py.delete_tasks_by_name Str.lower q a = delete_tasks_by_name q a /\
  Py.delete_project_by_name Str.lower q a = delete_project_by_name q a /\
  (forall tn ns,
     Py.update_task_status Str.lower q tn ns a = update_task_status q tn ns a)
  /\
  (forall today n w d dd p,
     Py.add_task_by_project_name Str.lower today q n w d dd p a
     = add_task_by_project_name today q n w d dd p a) /\
  (forall today d dd,
     Py.add_project Date.parses today q d dd a = add_project today q d dd a)
  /\
  (forall today r e,
     Py.add_team_member Str.lower today q r e a
     = add_team_member today q r e a).
Proof. intros q a. repeat split. Qed.

(** ** First-match addressing of [update_task_status] (C5) *)

Lemma py_update_task_status_success lower pn tn ns a pi p ti t :
  first_hit lower p_name pn (projects (state a)) pi p ->
  first_hit lower t_name tn (p_tasks p) ti t ->
  Py.update_task_status lower pn tn ns a
  = (mkResult "update_task_status" (Some "success")
       ("Updated task '" +:+ t_name t +:+ "' status from '"
          +:+ get_status t +:+ "' to '" +:+ ns
          +:+ "' in project '" +:+ p_name p +:+ "'.")
       (FStatusChange (p_name p) (t_name t) (get_status t) ns),
     _update_state
       (SetProjects
          (<[pi := set_tasks (<[ti := set_status (lower ns) t]> (p_tasks p))
                             p]>
             (projects (state a)))) a).
Proof.
  intros Hp Ht. pose proof Hp as (Hlp & _). pose proof Ht as (Hlt & _).
  apply py_first_match_is_first in Hp, Ht.
  unfold Py.update_task_status. rewrite Hp, Ht. unfold assign_status.
  rewrite (alter_lookup_insert _ _ pi p Hlp).
  now rewrite (alter_lookup_insert _ _ ti t Hlt).
Qed.

(** C5, as the claim states it, fails for a status that is not in lower
    case: the result reports "DONE" while the status the task now has is
    "done". *)
Lemma update_task_status_reports_argument :
  fields (fst (Py.update_task_status Str.lower "web" "design" "DONE"
                 (agent_with mixed_status_projects [])))
  = FStatusChange "Website" "Design homepage" "completed" "DONE" /\
  projects (state (snd (Py.update_task_status Str.lower "web" "design" "DONE"
                          (agent_with mixed_status_projects []))))
  = [project_named "Website"
       [task_named "Design homepage" "done";
        task_named "Design logo" "Completed";
        task_named "Write copy" "pending"]] /\
  "DONE" <> "done".
Proof. repeat split. discriminate. Qed.

(** C5, amended.  Whatever [str.lower] does: [update_task_status] takes the
    first project, in collection order, whose lower-cased name contains the
    lower-cased [project_name], and in it the first task whose lower-cased
    name contains the lower-cased [task_name].  When no project, or no task
    of that project, matches, it returns an error that says what could not
    be found, and the agent as it was.  Otherwise that task's status
    becomes the lower-cased [new_status], nothing else in the state
    changes, the state is written to the session store, and the answer is
    "success" with the status the task had (or "pending" when it had none)
    as [old_status] and [new_status] exactly as it was passed, not
    lower-cased. *)
Theorem update_task_status_first_match :
  forall (lower : string -> string) project_name task_name new_status a,
  (no_hit lower p_name project_name (projects (state a)) \/
   exists pi p, first_hit lower p_name project_name (projects (state a)) pi p)
  /\
  (no_hit lower p_name project_name (projects (state a)) ->
     Py.update_task_status lower project_name task_name new_status a
     = (mkResult "update_task_status" (Some "error")
          ("Could not find project containing '" +:+ project_name +:+ "'.")
          NoFields, a)) /\
  (forall pi p,
     first_hit lower p_name project_name (projects (state a)) pi p ->
     (no_hit lower t_name task_name (p_tasks p) \/
      exists ti t, first_hit lower t_name task_name (p_tasks p) ti t) /\
     (no_hit lower t_name task_name (p_tasks p) ->
        Py.update_task_status lower project_name task_name new_status a
        = (mkResult "update_task_status" (Some "error")
             ("Could not find task '" +:+ task_name +:+ "' in project '"
                +:+ p_name p +:+ "'.")
             NoFields, a)) /\
     (forall ti t, first_hit lower t_name task_name (p_tasks p) ti t ->
        outcome (fst (Py.update_task_status lower project_name task_name
                        new_status a))
        = (Some "success",
           FStatusChange (p_name p) (t_name t)
                         (match t_status t with
                          | Some v => v
                          | None => "pending"
                          end) new_status) /\
        wrote_projects a
          (snd (Py.update_task_status lower project_name task_name
                  new_status a))
          (<[pi := with_tasks
                     (<[ti := with_status (lower new_status) t]> (p_tasks p))
                     p]>
             (projects (state a))))).
Proof.
  intros lower pn tn ns a. split; [apply py_first_or_none|]. split.
  - intros H. apply py_first_match_no_match in H.
    unfold Py.update_task_status. now rewrite H.
  - intros pi p Hp. split; [apply py_first_or_none|]. split.
    + intros H. apply py_first_match_no_match in H.
      apply py_first_match_is_first in Hp.
      unfold Py.update_task_status. now rewrite Hp, H.
    + intros ti t Ht.
      rewrite (py_update_task_status_success _ _ _ _ _ _ _ _ _ Hp Ht).
      split; [unfold get_status; now destruct (t_status t) | repeat split].
Qed.

Lemma update_task_status_first_match_witness :
  Py.update_task_status Str.lower "mobile" "design" "DONE"
                        (agent_with mixed_status_projects [])
  = (mkResult "update_task_status" (Some "error")
       "Could not find project containing 'mobile'." NoFields,
     agent_with mixed_status_projects []) /\
  outcome (fst (Py.update_task_status Str.lower "web" "COPY" "Completed"
                  (agent_with mixed_status_projects [])))
  = (Some "success",
     FStatusChange "Website" "Write copy" "pending" "Completed") /\
  projects (state (snd (Py.update_task_status Str.lower "web" "COPY"
                          "Completed" (agent_with mixed_status_projects []))))
  = [project_named "Website"
       [task_named "Design homepage" "completed";
        task_named "Design logo" "Completed";
        task_named "Write copy" "completed"]] /\
  store (snd (Py.update_task_status Str.lower "web" "COPY" "Completed"
                (agent_with mixed_status_projects [])))
  = [state (snd (Py.update_task_status Str.lower "web" "COPY" "Completed"
                   (agent_with mixed_status_projects [])))].
Proof.
  destruct (update_task_status_first_match Str.lower "mobile" "design" "DONE"
              (agent_with mixed_status_projects [])) as (_ & Hnone & _).
  destruct (update_task_status_first_match Str.lower "web" "COPY" "Completed"
              (agent_with mixed_status_projects [])) as (_ & _ & Hsome).
  split.
  - apply Hnone. apply py_first_match_no_match. reflexivity.
  - destruct (Hsome 0%nat (project_named "Website"
                [task_named "Design homepage" "completed";
                 task_named "Design logo" "Completed";
                 task_named "Write copy" "pending"])) as (_ & _ & Hok).
    { apply py_first_match_is_first. reflexivity. }
    destruct (Hok 2%nat (task_named "Write copy" "pending"))
      as (Ho & Hp & _ & _ & Hs).
    { apply py_first_match_is_first. reflexivity. }
    split; [exact Ho|]. split; [exact Hp | exact Hs].
Defined.

(** ** Due-date validation of [add_project] (C6) *)

(** C6, amended.  Whatever [strptime] accepts: for a due date that is a
    non-empty text and that [strptime] rejects, [add_project] returns the
    validation error and the agent as it was.  For a due date that
    [strptime] accepts, or that is the empty text, it appends exactly one
    project, with no tasks, at the end of the projects collection, keeps
    the rest of the state and writes the state to the session store.  With
    [strptime] the ASCII parser on ASCII text: an absent due date stands
    for "2025-12-31" and is accepted, and "31-12-2025" is rejected. *)
Theorem add_project_validation :
  forall (parses : string -> bool) today name descr a,
  (forall due, due <> "" -> parses due = false ->
     Py.add_project parses today name descr (Some due) a
     = (mkResult "add_project" (Some "error")
          ("Invalid date format: " +:+ due
             +:+ ". Please use YYYY-MM-DD format.") NoFields, a)) /\
  (forall due, due = "" \/ parses due = true ->
     outcome (fst (Py.add_project parses today name descr (Some due) a))
     = (None, FProject name) /\
     wrote_projects a (snd (Py.add_project parses today name descr (Some due) a))
       (projects (state a)
        ++ [mkProject name
                      (match descr with
                       | Some d => d
                       | None => "No description provided"
                       end) due [] today])) /\
  (ascii_parser_ok parses ->
     Py.add_project parses today name descr None a
     = Py.add_project parses today name descr (Some "2025-12-31") a /\
     parses "2025-12-31" = true /\
     parses "31-12-2025" = false /\
     Py.add_project parses today name descr (Some "31-12-2025") a
     = (mkResult "add_project" (Some "error")
          "Invalid date format: 31-12-2025. Please use YYYY-MM-DD format."
          NoFields, a)).
Proof.
  intros parses today name descr a.
  assert (Hrej : forall due, due <> "" -> parses due = false ->
     Py.add_project parses today name descr (Some due) a
     = (mkResult "add_project" (Some "error")
          ("Invalid date format: " +:+ due
             +:+ ". Please use YYYY-MM-DD format.") NoFields, a)).
  { intros due Hne Hp. unfold Py.add_project. cbn [from_option id].
    destruct (String.eqb_spec due "") as [E|_]; [contradiction|].
    now rewrite Hp. }
  split; [exact Hrej|]. split.
  - intros due H. unfold Py.add_project. cbn [from_option id].
    destruct (String.eqb_spec due "") as [E|Hne].
    + split; [reflexivity|]. destruct descr; repeat split.
    + destruct H as [H|H]; [contradiction|]. rewrite H.
      split; [reflexivity|]. destruct descr; repeat split.
  - intros Hok.
    assert (H1 : parses "2025-12-31" = true) by (now rewrite Hok).
    assert (H2 : parses "31-12-2025" = false) by (now rewrite Hok).
    split; [reflexivity|]. split; [exact H1|]. split; [exact H2|].
    apply Hrej; [discriminate | exact H2].
Qed.

Lemma add_project_validation_witness :
  Py.add_project Date.parses "2025-01-01" "Alpha" None (Some "2025/12/31")
                 office
  = (mkResult "add_project" (Some "error")
       "Invalid date format: 2025/12/31. Please use YYYY-MM-DD format."
       NoFields, office) /\
  projects (state (snd (Py.add_project Date.parses "2025-01-01" "Alpha" None
                          (Some "2026-02-28") office)))
  = website_projects
    ++ [mkProject "Alpha" "No description provided" "2026-02-28" []
                  "2025-01-01"] /\
  store (snd (Py.add_project Date.parses "2025-01-01" "Alpha" None
                (Some "2026-02-28") office))
  = [state (snd (Py.add_project Date.parses "2025-01-01" "Alpha" None
                   (Some "2026-02-28") office))] /\
  Py.add_project Date.parses "2025-01-01" "Alpha" None (Some "31-12-2025")
                 office
  = (mkResult "add_project" (Some "error")
       "Invalid date format: 31-12-2025. Please use YYYY-MM-DD format."
       NoFields, office).
Proof.
  destruct (add_project_validation Date.parses "2025-01-01" "Alpha" None
              office) as (Hrej & Hacc & Hascii).
  split; [apply (Hrej "2025/12/31"); [discriminate | reflexivity]|].
  destruct (Hacc "2026-02-28") as (_ & Hp & _ & _ & Hs);
    [right; reflexivity|].
  split; [exact Hp|]. split; [exact Hs|].
  apply Hascii. intros s _. reflexivity.
Defined.

(** ** Acting on a project by name (C7) *)

Section PyByName.
Variables (lower : string -> string) (today : string) (a : Agent) (q : string).

Lemma py_add_task_by_project_name_none task who descr due prio :
  Py.collect_matches lower p_name q 0 (projects (state a)) [] = [] ->
  Py.add_task_by_project_name lower today q task who descr due prio a
  = (mkResult "add_task_by_project_name" (Some "error")
       ("Could not find project '" +:+ q
          +:+ "'. Please check the project name or create it first.")
       NoFields, a).
Proof.
  intros H. unfold Py.add_task_by_project_name, Py.find_project_by_name.
  rewrite H. reflexivity.
Qed.

Lemma py_add_task_by_project_name_one task who descr due prio i p :
  Py.collect_matches lower p_name q 0 (projects (state a)) [] = [(i, p)] ->
  Py.add_task_by_project_name lower today q task who descr due prio a
  = add_task today i task who descr due prio a.
Proof.
  intros H. unfold Py.add_task_by_project_name, Py.find_project_by_name.
  rewrite H. reflexivity.
Qed.

Lemma py_add_task_by_project_name_ambiguous task who descr due prio m1 m2 ms :
  Py.collect_matches lower p_name q 0 (projects (state a)) [] = m1 :: m2 :: ms ->
  Py.add_task_by_project_name lower today q task who descr due prio a
  = (mkResult "add_task_by_project_name" (Some "error")
       ("Found multiple projects matching '" +:+ q +:+ "':"
          +:+ Str.nl +:+ Str.join Str.nl (map format_match (m1 :: m2 :: ms))
          +:+ Str.nl +:+ "Please be more specific.")
       NoFields, a).
Proof.
  intros H. unfold Py.add_task_by_project_name, Py.find_project_by_name.
  rewrite H. reflexivity.
Qed.

Lemma py_delete_project_by_name_none :
  Py.collect_matches lower p_name q 0 (projects (state a)) [] = [] ->
  Py.delete_project_by_name lower q a
  = (mkResult "delete_project_by_name" (Some "error")
       ("Could not find project '" +:+ q +:+ "' to delete.") NoFields, a).
Proof.
  intros H. unfold Py.delete_project_by_name, Py.find_project_by_name.
  rewrite H. reflexivity.
Qed.

Lemma py_delete_project_by_name_one i p :
  Py.collect_matches lower p_name q 0 (projects (state a)) [] = [(i, p)] ->
  Py.delete_project_by_name lower q a = delete_project i a.
Proof.
  intros H. unfold Py.delete_project_by_name, Py.find_project_by_name.
  rewrite H. reflexivity.
Qed.

Lemma py_delete_project_by_name_ambiguous m1 m2 ms :
  Py.collect_matches lower p_name q 0 (projects (state a)) [] = m1 :: m2 :: ms ->
  Py.delete_project_by_name lower q a
  = (mkResult "delete_project_by_name" (Some "error")
       ("Found multiple projects matching '" +:+ q +:+ "':"
          +:+ Str.nl +:+ Str.join Str.nl (map format_match (m1 :: m2 :: ms))
          +:+ Str.nl +:+ "Please be more specific.")
       NoFields, a).
Proof.
  intros H. unfold Py.delete_project_by_name, Py.find_project_by_name.
  rewrite H. reflexivity.
Qed.
End PyByName.

Lemma py_listed_pair_splits lower {A} (name_of : A -> string) q items k x :
  In (k, x) (Py.collect_matches lower name_of q 0 items []) ->
  exists before after,
    items = before ++ x :: after /\ Z.of_nat (length before) = k - 1.
Proof.
  intros H. apply py_collect_matches_valid in H as (Hk & Hl & _).
  apply list_elem_of_split_length in Hl as (before & after & -> & Hn).
  exists before, after. split; [reflexivity | lia].
Qed.

(** C7.  Whatever [str.lower] does: [add_task_by_project_name] resolves
    [project_name] over the projects; [ms] is the resolver's answer.  With
    no match it returns an error and the agent as it was.  With several
    matches it returns an error whose message lists every match as
    "index. name", one per line in collection order, and the agent as it
    was.  With exactly one match [(i, p)] it is [add_task] at the 1-based
    index [i]: the new pending task is put at the end of the tasks of [p],
    which is the project at position [i], the rest of the state is kept and
    the state is written to the session store.  Hence the agent changes
    only when the name resolves to exactly one project.  With [str.lower]
    the ASCII case map on ASCII text, "web" over "Website Redesign",
    "Website Launch", "Mobile App" is answered with the list
    "1. Website Redesign", "2. Website Launch". *)
Theorem add_task_by_project_name_unique :
  forall (lower : string -> string) today project_name task_name who descr
         due prio a,
  (exists ms,
    resolves lower p_name project_name (projects (state a)) ms /\
    match ms with
    | [] =>
        Py.add_task_by_project_name lower today project_name task_name who
                                    descr due prio a
        = (mkResult "add_task_by_project_name" (Some "error")
             ("Could not find project '" +:+ project_name
                +:+ "'. Please check the project name or create it first.")
             NoFields, a)
    | [(i, p)] =>
        Py.add_task_by_project_name lower today project_name task_name who
                                    descr due prio a
        = add_task today i task_name who descr due prio a /\
        exists before after,
          projects (state a) = before ++ p :: after /\
          Z.of_nat (length before) = i - 1 /\
          outcome (fst (Py.add_task_by_project_name lower today project_name
                          task_name who descr due prio a))
          = (None, FTask task_name (p_name p)) /\
          wrote_projects a
            (snd (Py.add_task_by_project_name lower today project_name
                    task_name who descr due prio a))
            (before
             ++ with_task (pending_task today task_name who descr due prio) p
             :: after)
    | _ =>
        Py.add_task_by_project_name lower today project_name task_name who
                                    descr due prio a
        = (mkResult "add_task_by_project_name" (Some "error")
             ("Found multiple projects matching '" +:+ project_name +:+ "':"
                +:+ Str.nl +:+ Str.join Str.nl (map match_line ms)
                +:+ Str.nl +:+ "Please be more specific.")
             NoFields, a)
    end /\
    (snd (Py.add_task_by_project_name lower today project_name task_name who
            descr due prio a) <> a ->
     exists m, ms = [m])) /\
  (ascii_lower_ok lower ->
   Py.add_task_by_project_name lower today "web" task_name who descr due prio
                               office
   = (mkResult "add_task_by_project_name" (Some "error")
        ("Found multiple projects matching 'web':" +:+ Str.nl
           +:+ "1. Website Redesign" +:+ Str.nl
           +:+ "2. Website Launch" +:+ Str.nl
           +:+ "Please be more specific.")
        NoFields, office)).
Proof.
  intros lower today pn tn who descr due prio a. split.
  - exists (Py.collect_matches lower p_name pn 0 (projects (state a)) []).
    pose proof (py_collect_matches_resolution lower p_name pn
                  (projects (state a))) as Hres.
    split; [exact Hres|].
    destruct (Py.collect_matches lower p_name pn 0 (projects (state a)) [])
      as [|[i p] [|m' ms]] eqn:E.
    + rewrite (py_add_task_by_project_name_none _ _ _ _ _ _ _ _ _ E).
      split; [reflexivity|]. intros H. now destruct H.
    + split; [|intros _; now exists (i, p)].
      rewrite (py_add_task_by_project_name_one _ _ _ _ _ _ _ _ _ _ _ E).
      split; [reflexivity|].
      assert (Hin : In (i, p)
                       (Py.collect_matches lower p_name pn 0
                          (projects (state a)) []))
        by (rewrite E; now left).
      destruct (py_listed_pair_splits _ _ _ _ _ _ Hin)
        as (before & after & Hsplit & Hn).
      exists before, after. split; [exact Hsplit|]. split; [exact Hn|].
      rewrite (add_task_at _ _ _ _ _ _ _ _ _ _ _ Hsplit Hn).
      split; [reflexivity | repeat split].
    + rewrite (py_add_task_by_project_name_ambiguous _ _ _ _ _ _ _ _ _ _ _ _ E).
      split; [reflexivity|]. intros H. now destruct H.
  - intros Hok.
    rewrite (py_add_task_by_project_name_ambiguous lower today office "web"
               tn who descr due prio
               (1, project_named "Website Redesign" [])
               (2, project_named "Website Launch" []) []).
    + reflexivity.
    + ascii_compute Hok. reflexivity.
Qed.

Lemma add_task_by_project_name_unique_witness :
  Py.add_task_by_project_name Str.lower "2025-01-01" "web" "Write spec" None
                              None None None office
  = (mkResult "add_task_by_project_name" (Some "error")
       ("Found multiple projects matching 'web':" +:+ Str.nl
          +:+ "1. Website Redesign" +:+ Str.nl
          +:+ "2. Website Launch" +:+ Str.nl
          +:+ "Please be more specific.")
       NoFields, office).
Proof.
  destruct (add_task_by_project_name_unique Str.lower "2025-01-01" "web"
              "Write spec" None None None None office) as (_ & H).
  apply H. intros s _. reflexivity.
Defined.

(** * Further properties of the operations of [Py] *)

(** X1.  Whatever [str.lower] does: when the lower-cased query [q1] occurs
    inside the lower-cased query [q2], every pair listed for [q2] is listed
    for [q1], and when [q1] finds nothing, so does [q2]. *)
Theorem narrower_query_fewer_matches :
  forall (lower : string -> string) q1 q2 a,
  contains (lower q1) (lower q2) ->
  (forall m, In m (project_matches (fst (Py.find_project_by_name lower q2 a)))
             ->
             In m (project_matches (fst (Py.find_project_by_name lower q1 a))))
  /\
  (forall m,
     In m (member_matches (fst (Py.find_team_member_by_name lower q2 a))) ->
     In m (member_matches (fst (Py.find_team_member_by_name lower q1 a)))) /\
  (status (fst (Py.find_project_by_name lower q1 a)) = Some "not_found" ->
   status (fst (Py.find_project_by_name lower q2 a)) = Some "not_found") /\
  (status (fst (Py.find_team_member_by_name lower q1 a)) = Some "not_found" ->
   status (fst (Py.find_team_member_by_name lower q2 a)) = Some "not_found").
Proof.
  intros lower q1 q2 a Hq.
  assert (Hsub : forall {A} (name_of : A -> string) items m,
             In m (Py.collect_matches lower name_of q2 0 items []) ->
             In m (Py.collect_matches lower name_of q1 0 items [])).
  { intros A name_of items [k x] H.
    apply py_collect_matches_In in H as (Hk & Hl & Hm).
    apply py_collect_matches_In. repeat split; try assumption.
    apply py_name_matches_spec. apply py_name_matches_spec in Hm.
    exact (contains_trans _ _ _ Hq Hm). }
  rewrite !py_find_project_matches, !py_find_member_matches.
  rewrite !py_find_project_status, !py_find_member_status.
  split; [apply Hsub|]. split; [apply Hsub|]. split.
  - pose proof (Hsub _ p_name (projects (state a))) as H.
    destruct (Py.collect_matches lower p_name q1 0 (projects (state a)) [])
      as [|m1 [|m1' ms1]]; try discriminate.
    destruct (Py.collect_matches lower p_name q2 0 (projects (state a)) [])
      as [|m2 ms2]; [reflexivity|].
    destruct (H m2 (or_introl eq_refl)).
  - pose proof (Hsub _ m_name (team_members (state a))) as H.
    destruct (Py.collect_matches lower m_name q1 0 (team_members (state a)) [])
      as [|m1 [|m1' ms1]]; try discriminate.
    destruct (Py.collect_matches lower m_name q2 0 (team_members (state a)) [])
      as [|m2 ms2]; [reflexivity|].
    destruct (H m2 (or_introl eq_refl)).
Qed.

Lemma narrower_query_fewer_matches_witness :
  In (2, project_named "Website Launch" [])
     (project_matches (fst (Py.find_project_by_name Str.lower "WEB" office)))
  /\
  status (fst (Py.find_project_by_name Str.lower "Web Shop" office))
  = Some "not_found".
Proof.
  assert (H1 : contains (Str.lower "WEB") (Str.lower "Website L"))
    by (exists "", "site l"; reflexivity).
  assert (H2 : contains (Str.lower "b s") (Str.lower "Web Shop"))
    by (exists "we", "hop"; reflexivity).
  destruct (narrower_query_fewer_matches Str.lower "WEB" "Website L" office H1)
    as (Hin & _).
  destruct (narrower_query_fewer_matches Str.lower "b s" "Web Shop" office H2)
    as (_ & _ & Hnone & _).
  split.
  - apply Hin. vm_compute. left. reflexivity.
  - apply Hnone. vm_compute. reflexivity.
Defined.

(** X3.  Whatever [str.lower] does: [delete_project_by_name] deletes only
    on a unique match.  With [ms] the resolver's answer for [name]: no match
    and several matches give an error (the latter listing every match as
    "index. name") and the agent as it was; exactly one match [(i, p)]
    removes [p], the project at 1-based position [i], keeps the other
    projects in order and the rest of the state, and writes the state to
    the session store. *)
Theorem delete_project_by_name_unique :
  forall (lower : string -> string) name a,
  exists ms,
    resolves lower p_name name (projects (state a)) ms /\
    match ms with
    | [] =>
        Py.delete_project_by_name lower name a
        = (mkResult "delete_project_by_name" (Some "error")
             ("Could not find project '" +:+ name +:+ "' to delete.")
             NoFields, a)
    | [(i, p)] =>
        exists before after,
          projects (state a) = before ++ p :: after /\
          Z.of_nat (length before) = i - 1 /\
          fst (Py.delete_project_by_name lower name a)
          = mkResult "delete_project" None
              ("Deleted project: " +:+ p_name p) (FProject (p_name p)) /\
          wrote_projects a (snd (Py.delete_project_by_name lower name a))
                         (before ++ after)
    | _ =>
        Py.delete_project_by_name lower name a
        = (mkResult "delete_project_by_name" (Some "error")
             ("Found multiple projects matching '" +:+ name +:+ "':"
                +:+ Str.nl +:+ Str.join Str.nl (map match_line ms)
                +:+ Str.nl +:+ "Please be more specific.")
             NoFields, a)
    end.
Proof.
  intros lower name a.
  exists (Py.collect_matches lower p_name name 0 (projects (state a)) []).
  split; [apply py_collect_matches_resolution|].
  destruct (Py.collect_matches lower p_name name 0 (projects (state a)) [])
    as [|[i p] [|m' ms]] eqn:E.
  - now apply py_delete_project_by_name_none.
  - assert (Hin : In (i, p)
                     (Py.collect_matches lower p_name name 0
                        (projects (state a)) []))
      by (rewrite E; now left).
    destruct (py_listed_pair_splits _ _ _ _ _ _ Hin)
      as (before & after & Hsplit & Hn).
    exists before, after. split; [exact Hsplit|]. split; [exact Hn|].
    rewrite (py_delete_project_by_name_one lower a name i p E).
    rewrite (delete_project_at _ _ _ _ _ Hsplit Hn).
    split; [reflexivity | repeat split].
  - now apply py_delete_project_by_name_ambiguous.
Qed.

(** X4.  Whatever [str.lower] does: every index a finder returns is valid
    and addresses the item returned with it.  For a pair [(i, p)] listed by
    [find_project_by_name] the projects are [before ++ p :: after];
    [add_task] at [i] leaves [before ++ p' :: after] with [p'] the project
    [p] with the new task at the end, and [delete_project] at [i] leaves
    [before ++ after].  For a pair [(i, m)] listed by
    [find_team_member_by_name], [update_team_member] at [i] replaces [m] by
    [m] with the given fields, and [delete_team_member] at [i] removes
    [m]. *)
Theorem found_index_addresses_found_item :
  forall (lower : string -> string) today q a,
  (forall i p,
     In (i, p) (project_matches (fst (Py.find_project_by_name lower q a))) ->
     exists before after,
       projects (state a) = before ++ p :: after /\
       (forall task who descr due prio,
          wrote_projects a (snd (add_task today i task who descr due prio a))
            (before
             ++ with_task (pending_task today task who descr due prio) p
             :: after)) /\
       fst (delete_project i a)
       = mkResult "delete_project" None
           ("Deleted project: " +:+ p_name p) (FProject (p_name p)) /\
       wrote_projects a (snd (delete_project i a)) (before ++ after)) /\
  (forall i m,
     In (i, m)
        (member_matches (fst (Py.find_team_member_by_name lower q a))) ->
     exists before after,
       team_members (state a) = before ++ m :: after /\
       (forall name role email,
          wrote_team_members a (snd (update_team_member i name role email a))
            (before ++ with_fields name role email m :: after)) /\
       fst (delete_team_member i a)
       = mkResult "delete_team_member" None
           ("Deleted team member: " +:+ m_name m) (FMember (m_name m)) /\
       wrote_team_members a (snd (delete_team_member i a))
                          (before ++ after)).
Proof.
  intros lower today q a. split.
  - intros i p H. rewrite py_find_project_matches in H.
    destruct (py_listed_pair_splits _ _ _ _ _ _ H)
      as (before & after & Hsplit & Hn).
    exists before, after. split; [exact Hsplit|]. split; [|split].
    + intros. rewrite (add_task_at _ _ _ _ _ _ _ _ _ _ _ Hsplit Hn).
      repeat split.
    + now rewrite (delete_project_at _ _ _ _ _ Hsplit Hn).
    + rewrite (delete_project_at _ _ _ _ _ Hsplit Hn).
      repeat split.
  - intros i m H. rewrite py_find_member_matches in H.
    destruct (py_listed_pair_splits _ _ _ _ _ _ H)
      as (before & after & Hsplit & Hn).
    exists before, after. split; [exact Hsplit|]. split; [|split].
    + intros. rewrite (update_team_member_at _ _ _ _ _ _ _ _ Hsplit Hn).
      repeat split.
    + now rewrite (delete_team_member_at _ _ _ _ _ Hsplit Hn).
    + rewrite (delete_team_member_at _ _ _ _ _ Hsplit Hn).
      repeat split.
Qed.

Lemma found_index_addresses_found_item_witness :
  team_members (state (snd (delete_team_member 2 office)))
  = [member_named "Jim Halpert" "Sales"] /\
  team_members (state (snd (update_team_member 2 (Some "Pam Halpert") None
                              None office)))
  = [member_named "Jim Halpert" "Sales";
     member_named "Pam Halpert" "Reception"].
Proof.
  destruct (found_index_addresses_found_item Str.lower "2025-01-01" "pam"
              office) as (_ & H).
  destruct (H 2 (member_named "Pam Beesly" "Reception"))
    as (before & after & Hs & Hu & _ & Hd & _).
  { vm_compute. left. reflexivity. }
  destruct (app_inj_1 before [member_named "Jim Halpert" "Sales"]
              (member_named "Pam Beesly" "Reception" :: after)
              [member_named "Pam Beesly" "Reception"])
    as [-> E].
  { assert (Hlen : length office_members
                   = length (before
                             ++ member_named "Pam Beesly" "Reception"
                             :: after))
      by (f_equal; exact Hs).
    assert (Hl : office_members !! length before
                 = Some (member_named "Pam Beesly" "Reception"))
      by (change office_members with (team_members (state office));
          rewrite Hs; now apply list_lookup_middle).
    rewrite length_app in Hlen. simpl in Hlen.
    destruct before as [|x [|y before]]; simpl in *;
      [discriminate Hl | reflexivity | lia]. }
  { now rewrite <- Hs. }
  injection E as ->.
  split; [exact Hd|].
  destruct (Hu (Some "Pam Halpert") None None) as (Hm & _). exact Hm.
Defined.

(** X5.  Whatever [str.lower] does: a project whose lower-cased name occurs
    inside the lower-cased name of another project cannot be addressed by
    name.  Every query whose lower-cased text it contains is answered
    [multiple_matches], so that [add_task_by_project_name] and
    [delete_project_by_name] answer "error" and leave the agent as it
    was. *)
Theorem shadowed_project_is_ambiguous :
  forall (lower : string -> string) today a i j pa pb q,
  i <> j ->
  projects (state a) !! i = Some pa ->
  projects (state a) !! j = Some pb ->
  contains (lower (p_name pa)) (lower (p_name pb)) ->
  contains (lower q) (lower (p_name pa)) ->
  status (fst (Py.find_project_by_name lower q a)) = Some "multiple_matches"
  /\
  (forall task who descr due prio,
     status (fst (Py.add_task_by_project_name lower today q task who descr
                    due prio a))
     = Some "error" /\
     snd (Py.add_task_by_project_name lower today q task who descr due prio a)
     = a) /\
  status (fst (Py.delete_project_by_name lower q a)) = Some "error" /\
  snd (Py.delete_project_by_name lower q a) = a.
Proof.
  intros lower today a i j pa pb q Hij Hi Hj Hab Hq.
  assert (Hqb : contains (lower q) (lower (p_name pb)))
    by exact (contains_trans _ _ _ Hq Hab).
  apply (py_name_matches_spec lower) in Hq, Hqb.
  destruct (py_collect_matches_two lower p_name q _ i j pa pb Hij Hi Hj Hq Hqb)
    as (m1 & m2 & ms & E).
  split; [now rewrite py_find_project_status, E|]. split.
  - intros.
    rewrite (py_add_task_by_project_name_ambiguous _ _ _ _ _ _ _ _ _ _ _ _ E).
    now split.
  - rewrite (py_delete_project_by_name_ambiguous lower a q m1 m2 ms E).
    now split.
Qed.

Lemma shadowed_project_is_ambiguous_witness :
  status (fst (Py.find_project_by_name Str.lower "web"
                 (agent_with shop_projects [])))
  = Some "multiple_matches" /\
  snd (Py.delete_project_by_name Str.lower "web" (agent_with shop_projects []))
  = agent_with shop_projects [].
Proof.
  assert (Hab : contains (Str.lower "Web") (Str.lower "Web Shop"))
    by (exists "", " shop"; reflexivity).
  assert (Hq : contains (Str.lower "web") (Str.lower "Web"))
    by (exists "", ""; reflexivity).
  assert (Hij : 0%nat <> 1%nat) by discriminate.
  destruct (shadowed_project_is_ambiguous Str.lower "2025-01-01"
              (agent_with shop_projects []) 0%nat 1%nat
              (project_named "Web" []) (project_named "Web Shop" []) "web"
              Hij eq_refl eq_refl Hab Hq)
    as (H1 & _ & _ & H2).
  split; [exact H1 | exact H2].
Defined.

(** X12.  Whatever [str.lower] does: a status given to
    [update_task_status] is stored lower-cased, so that a [new_status]
    whose lower-cased text is "completed" makes the task removable.  With
    the project and the task the first ones whose lower-cased names contain
    the lower-cased queries, an immediately following
    [remove_completed_tasks] answers "success", removes at least one task,
    lists the task's project as affected, and leaves that project with
    fewer tasks than it had, none of them completed. *)
Theorem completed_in_any_case_is_removed :
  forall (lower : string -> string) pn tn ns a pi p ti t,
  first_hit lower p_name pn (projects (state a)) pi p ->
  first_hit lower t_name tn (p_tasks p) ti t ->
  lower ns = "completed" ->
  exists n affected p',
    outcome (fst (remove_completed_tasks
                    (snd (Py.update_task_status lower pn tn ns a))))
    = (Some "success", FRemoved (S n) affected) /\
    In (p_name p) affected /\
    projects (state (snd (remove_completed_tasks
                            (snd (Py.update_task_status lower pn tn ns a)))))
    !! pi = Some p' /\
    p_name p' = p_name p /\
    (length (p_tasks p') < length (p_tasks p))%nat /\
    forall t', In t' (p_tasks p') -> t_status t' <> Some "completed".
Proof.
  intros lower pn tn ns a pi p ti t Hp Ht Hns.
  rewrite (py_update_task_status_success _ _ _ _ _ _ _ _ _ Hp Ht). cbn [snd].
  destruct Hp as (Hlp & _). destruct Ht as (Hlt & _).
  set (ts' := <[ti := set_status (lower ns) t]> (p_tasks p)).
  set (p' := set_tasks ts' p).
  set (ps' := <[pi := p']> (projects (state a))).
  assert (Hpi : (pi < length (projects (state a)))%nat)
    by (apply lookup_lt_is_Some; eauto).
  assert (Hti : (ti < length (p_tasks p))%nat)
    by (apply lookup_lt_is_Some; eauto).
  assert (Hl' : ps' !! pi = Some p')
    by (apply list_lookup_insert_eq; exact Hpi).
  assert (Hd : (0 < dropped completed p')%nat).
  { unfold dropped.
    apply (filter_hit_positive completed _ ti (set_status (lower ns) t)).
    - apply list_lookup_insert_eq. exact Hti.
    - rewrite Hns. reflexivity. }
  pose proof (dropped_le_total completed ps' pi p' Hl') as Hle.
  destruct (remove_completed_tasks_nonempty
              (_update_state (SetProjects ps') a)) as [Hs Ho].
  { cbn [_update_state state set_key projects]. intros E.
    rewrite E in Hl'. discriminate. }
  cbn [_update_state state set_key projects] in Ho, Hs.
  destruct (total_dropped completed ps') as [|n] eqn:En; [lia|].
  exists n, (affected_names completed ps'), (pruned completed p').
  split; [exact Ho|]. split.
  { change (p_name p) with (p_name p').
    now apply (affected_names_In completed ps' pi p'). }
  split.
  { rewrite Hs. cbn [_update_state state set_key projects].
    rewrite list_lookup_fmap, Hl'. reflexivity. }
  split; [reflexivity|]. split.
  - cbn [pruned set_tasks p_tasks p' set_tasks].
    pose proof (List.filter_length completed ts') as Hfl.
    unfold dropped in Hd. cbn [p' set_tasks p_tasks] in Hd.
    assert (Hlen : length ts' = length (p_tasks p)) by apply length_insert.
    lia.
  - cbn [pruned set_tasks p_tasks]. intros t' Hin E.
    apply filter_In in Hin as (_ & Hn).
    unfold completed, get_status in Hn. rewrite E in Hn. discriminate.
Qed.

Lemma completed_in_any_case_is_removed_witness :
  outcome (fst (remove_completed_tasks
                  (snd (Py.update_task_status Str.lower "web" "copy"
                          "COMPLETED"
                          (agent_with mixed_status_projects [])))))
  = (Some "success", FRemoved 2 ["Website"]) /\
  projects (state (snd (remove_completed_tasks
                          (snd (Py.update_task_status Str.lower "web" "copy"
                                  "COMPLETED"
                                  (agent_with mixed_status_projects []))))))
  = [project_named "Website" [task_named "Design logo" "Completed"]].
Proof.
  assert (Hp : first_hit Str.lower p_name "web" mixed_status_projects 0%nat
                 (project_named "Website"
                    [task_named "Design homepage" "completed";
                     task_named "Design logo" "Completed";
                     task_named "Write copy" "pending"]))
    by (apply py_first_match_is_first; reflexivity).
  assert (Ht : first_hit Str.lower t_name "copy"
                 [task_named "Design homepage" "completed";
                  task_named "Design logo" "Completed";
                  task_named "Write copy" "pending"] 2%nat
                 (task_named "Write copy" "pending"))
    by (apply py_first_match_is_first; reflexivity).
  destruct (completed_in_any_case_is_removed Str.lower "web" "copy"
              "COMPLETED" (agent_with mixed_status_projects []) 0%nat _ 2%nat
              _ Hp Ht eq_refl)
    as (n & affected & p' & Ho & _ & _).
  split; [|reflexivity].
  rewrite Ho. vm_compute in Ho. injection Ho as -> ->. reflexivity.
Defined.

(** X13.  Whatever [str.lower] does: a successful [update_task_status]
    changes one status and nothing else.  With the project at [pi] and its
    task at [ti] the first ones whose lower-cased names contain the
    lower-cased queries: the user name, the team members, every other
    project, every other task of the project and every other field of the
    task stay as they were, no project or task is added or removed, the
    task's status is the lower-cased [new_status], and the state is
    written to the session store. *)
Theorem update_task_status_frame :
  forall (lower : string -> string) pn tn ns a pi p ti t,
  first_hit lower p_name pn (projects (state a)) pi p ->
  first_hit lower t_name tn (p_tasks p) ti t ->
  user_name (state (snd (Py.update_task_status lower pn tn ns a)))
  = user_name (state a) /\
  team_members (state (snd (Py.update_task_status lower pn tn ns a)))
  = team_members (state a) /\
  store (snd (Py.update_task_status lower pn tn ns a))
  = state (snd (Py.update_task_status lower pn tn ns a)) :: store a /\
  length (projects (state (snd (Py.update_task_status lower pn tn ns a))))
  = length (projects (state a)) /\
  (forall i, i <> pi ->
     projects (state (snd (Py.update_task_status lower pn tn ns a))) !! i
     = projects (state a) !! i) /\
  exists p',
    projects (state (snd (Py.update_task_status lower pn tn ns a))) !! pi
    = Some p' /\
    p_name p' = p_name p /\ p_description p' = p_description p /\
    p_due_date p' = p_due_date p /\ p_created_at p' = p_created_at p /\
    length (p_tasks p') = length (p_tasks p) /\
    (forall j, j <> ti -> p_tasks p' !! j = p_tasks p !! j) /\
    p_tasks p' !! ti
    = Some (mkTask (t_name t) (t_description t) (t_assigned_to t)
                   (t_due_date t) (t_priority t) (Some (lower ns))
                   (t_created_at t)).
Proof.
  intros lower pn tn ns a pi p ti t Hp Ht.
  rewrite (py_update_task_status_success _ _ _ _ _ _ _ _ _ Hp Ht).
  cbn [snd _update_state state store set_key user_name team_members projects].
  destruct Hp as (Hlp & _). destruct Ht as (Hlt & _).
  assert (Hpi : (pi < length (projects (state a)))%nat)
    by (apply lookup_lt_is_Some; eauto).
  assert (Hti : (ti < length (p_tasks p))%nat)
    by (apply lookup_lt_is_Some; eauto).
  split; [reflexivity|]. split; [reflexivity|]. split; [reflexivity|].
  split; [apply length_insert|]. split.
  - intros i Hi. apply list_lookup_insert_ne. congruence.
  - eexists. split; [apply list_lookup_insert_eq; exact Hpi|].
    cbn [set_tasks p_name p_description p_due_date p_created_at p_tasks].
    repeat split.
    + apply length_insert.
    + intros j Hj. apply list_lookup_insert_ne. congruence.
    + apply list_lookup_insert_eq. exact Hti.
Qed.

Lemma update_task_status_frame_witness :
  exists p',
    projects (state (snd (Py.update_task_status Str.lower "web" "copy" "Done"
                            (agent_with mixed_status_projects [])))) !! 0%nat
    = Some p' /\
    p_tasks p' !! 1%nat = Some (task_named "Design logo" "Completed") /\
    p_tasks p' !! 2%nat = Some (task_named "Write copy" "done").
Proof.
  assert (Hp : first_hit Str.lower p_name "web" mixed_status_projects 0%nat
                 (project_named "Website"
                    [task_named "Design homepage" "completed";
                     task_named "Design logo" "Completed";
                     task_named "Write copy" "pending"]))
    by (apply py_first_match_is_first; reflexivity).
  assert (Ht : first_hit Str.lower t_name "copy"
                 [task_named "Design homepage" "completed";
                  task_named "Design logo" "Completed";
                  task_named "Write copy" "pending"] 2%nat
                 (task_named "Write copy" "pending"))
    by (apply py_first_match_is_first; reflexivity).
  destruct (update_task_status_frame Str.lower "web" "copy" "Done"
              (agent_with mixed_status_projects []) 0%nat _ 2%nat _ Hp Ht)
    as (_ & _ & _ & _ & _ & p' & Hl & _ & _ & _ & _ & _ & Hj & Hti).
  exists p'. split; [exact Hl|]. split; [|exact Hti].
  rewrite (Hj 1%nat); [reflexivity | discriminate].
Defined.

(** ** Team members' default e-mail *)

Lemma replace_char_get old new s : forall i c,
  String.get i s = Some c ->
  String.get i (replace_char old new s)
  = Some (if Ascii.eqb c old then new else c).
Proof.
  induction s as [|c0 s IH]; intros [|i] c H; simpl in *; try discriminate.
  - now injection H as ->.
  - now apply IH.
Qed.

(** X14.  Whatever [str.lower] does: [add_team_member] appends the member
    at the end, keeps the rest of the state and writes the state to the
    session store.  An e-mail that is given is stored as it is; without one
    the address is a local part followed by "@company.com", where the local
    part is the lower-cased name with "." for each space: it has the length
    of the lower-cased name, agrees with it at every position that holds no
    space, and contains no space.  With [str.lower] the ASCII one on ASCII
    text, for a name of ASCII characters the local part has the length of
    the name and is the name character by character, lower-cased and with
    "." for each space. *)
Theorem add_team_member_email :
  forall (lower : string -> string) today name role a,
  (forall e,
     wrote_team_members a
       (snd (Py.add_team_member lower today name role (Some e) a))
       (team_members (state a) ++ [mkTeamMember name role e today])) /\
  exists local,
    wrote_team_members a
      (snd (Py.add_team_member lower today name role None a))
      (team_members (state a)
       ++ [mkTeamMember name role (local +:+ "@company.com") today]) /\
    message (fst (Py.add_team_member lower today name role None a))
    = "Added team member: " +:+ name +:+ " with role " +:+ role
      +:+ " and email " +:+ local +:+ "@company.com" /\
    String.length local = String.length (lower name) /\
    (forall i c, String.get i (lower name) = Some c ->
       String.get i local
       = Some (if Ascii.eqb c " " then "."%char else c)) /\
    ~ contains " " local /\
    (ascii_lower_ok lower -> is_ascii name = true ->
     String.length local = String.length name /\
     forall i c, String.get i name = Some c ->
       String.get i local
       = Some (if Ascii.eqb (Str.lower_ascii c) " " then "."%char
               else Str.lower_ascii c)).
Proof.
  intros lower today name role a. split.
  { intros e. repeat split. }
  exists (replace_char " " "." (lower name)).
  split; [repeat split|].
  split; [reflexivity|].
  split; [apply replace_char_length|].
  split; [apply replace_char_get|]. split.
  - intros H. apply str_in_spec in H.
    rewrite no_space_after_replace in H. discriminate.
  - intros Hok Hname. rewrite (Hok name Hname). split.
    + now rewrite replace_char_length, lower_length.
    + apply slug_get.
Qed.

Lemma add_team_member_email_witness :
  team_members (state (snd (Py.add_team_member Str.lower "2025-01-01"
                              "Angela Martin" "Accounting" None no_projects)))
  = office_members
    ++ [mkTeamMember "Angela Martin" "Accounting"
                     "angela.martin@company.com" "2025-01-01"] /\
  message (fst (Py.add_team_member Str.lower "2025-01-01" "Angela Martin"
                  "Accounting" None no_projects))
  = "Added team member: Angela Martin with role Accounting and email angela.martin@company.com".
Proof.
  destruct (add_team_member_email Str.lower "2025-01-01" "Angela Martin"
              "Accounting" no_projects)
    as (_ & local & (Hm & _) & Hmsg & _ & _ & _ & Hascii).
  destruct Hascii as (Hlen & Hget);
    [intros s _; reflexivity | reflexivity |].
  assert (E : local = "angela.martin").
  { destruct local as [|c0 [|c1 [|c2 [|c3 [|c4 [|c5 [|c6 [|c7 [|c8 [|c9
      [|c10 [|c11 [|c12 [|c13 rest]]]]]]]]]]]]]];
      try discriminate Hlen;
      try (cbn in Hlen; lia).
    pose proof (Hget 0%nat _ eq_refl) as H0.
    pose proof (Hget 1%nat _ eq_refl) as H1.
    pose proof (Hget 2%nat _ eq_refl) as H2.
    pose proof (Hget 3%nat _ eq_refl) as H3.
    pose proof (Hget 4%nat _ eq_refl) as H4.
    pose proof (Hget 5%nat _ eq_refl) as H5.
    pose proof (Hget 6%nat _ eq_refl) as H6.
    pose proof (Hget 7%nat _ eq_refl) as H7.
    pose proof (Hget 8%nat _ eq_refl) as H8.
    pose proof (Hget 9%nat _ eq_refl) as H9.
    pose proof (Hget 10%nat _ eq_refl) as H10.
    pose proof (Hget 11%nat _ eq_refl) as H11.
    pose proof (Hget 12%nat _ eq_refl) as H12.
    vm_compute in H0, H1, H2, H3, H4, H5, H6, H7, H8, H9, H10, H11, H12.
    congruence. }
  subst local. split; [exact Hm | exact Hmsg].
Defined.
